(** * LEO link simulator: orbit/visibility model, RF channel, pass-aware transport

    A shallow embedding of the Python sources
      - [common/orbit_leo.py]       (geometry state and link budget),
      - [common/rf_channel_leo.py]  (stochastic channel with burst fades),
      - [satelllite/satellite_leo.py] (TM producer, TC executor),
      - [bbu/bbu_leo.py]            (TM ingress, TC uplink),
    followed by the properties established about them.

    Modelling conventions.
    - A Python [float] is a real number: rounding, overflow, underflow,
      infinities and NaN are outside the model.  What Python decides at the
      language level is kept: [0.0 ** a] raises [ZeroDivisionError] for
      negative [a], and [0.0 ** 0.0] is [1.0].  A power too large for a
      float, which Python reports as [OverflowError], and one too small,
      which it rounds to [0.0], are not represented; the properties below
      that speak of a rate being returned or being non-zero keep to
      arguments where neither can happen.
    - A Python [dict] is a finite map from strings to values; dict objects live
      in a heap and are passed by reference.
    - [random.random()] reads the next value of an oracle [rand : nat -> R];
      the number of draws made so far is part of the process state.
    - [print] and [socket.sendto] append to the trace of the process;
      [time.sleep] advances its clock. *)

From Stdlib Require Import Reals Lra ZArith Lia.
From stdpp Require Import gmap strings list.

Local Open Scope Z_scope.

(** ** Python values *)

Module Py.

Inductive pyval :=
| VNone
| VBool (b : bool)
| VInt (z : Z)
| VFloat (r : R)
| VStr (s : string).

(** [bool(v)] *)
Definition truthy (v : pyval) : bool :=
  match v with
  | VNone => false
  | VBool b => b
  | VInt z => negb (z =? 0)
  | VFloat r => if Req_dec_T r 0 then false else true
  | VStr s => negb (String.eqb s "")
  end.

Inductive exn := ZeroDivisionError.

(** The outcome of evaluating an expression: a value, or a raised exception. *)
Inductive result (A : Type) :=
| Ok (a : A)
| Raised (e : exn).
Arguments Ok {A} a.
Arguments Raised {A} e.

(** [x ** a] on floats, for a base [x >= 0] (the only bases the sources
    produce: both call sites clamp the base to [0, 1]). *)
Definition float_pow (x a : R) : result R :=
  if Req_dec_T x 0 then
    if Req_dec_T a 0 then Ok 1%R
    else if Rlt_dec a 0 then Raised ZeroDivisionError
    else Ok 0%R
  else Ok (Rpower x a).

(** [math.radians] *)
Definition radians (deg : R) : R := (deg * (PI / 180))%R.

(** [a % b] on floats, for [b > 0]. *)
Definition float_mod (a b : R) : R := (a - b * IZR (Zfloor (a / b)))%R.

(** [round(x)] for a float: the nearest integer, a tie going to the even one. *)
Definition py_round (x : R) : Z :=
  let f := Zfloor x in
  let d := (x - IZR f)%R in
  if Rlt_dec d (1 / 2) then f
  else if Rgt_dec d (1 / 2) then f + 1
  else if Z.even f then f else f + 1.

(** [l[-n:]] *)
Definition last_n {A} (n : nat) (l : list A) : list A :=
  drop (length l - n)%nat l.

(** [s.lower()] on strings of ASCII characters (the directions the
    sources pass are the literals ["uplink"] and ["downlink"]); the case
    mapping of other alphabets is outside the model. *)
Definition lower_ascii (c : Ascii.ascii) : Ascii.ascii :=
  let n := Ascii.nat_of_ascii c in
  if ((65 <=? n) && (n <=? 90))%nat then Ascii.ascii_of_nat (n + 32) else c.

Fixpoint lower (s : string) : string :=
  match s with
  | EmptyString => EmptyString
  | String c s' => String (lower_ascii c) (lower s')
  end.

End Py.
Import Py.

(** ** common/orbit_leo.py *)

Module orbit_leo.

Definition DEFAULT_ELEV_MASK_DEG : R := 10.
Definition C : R := 299792458.
Definition DEFAULT_CARRIER_HZ : R := 2200000000.
Definition DEFAULT_DL_MAX_RATE_Mbps : R := 258 / 1000.
Definition DEFAULT_UL_MAX_RATE_Mbps : R := 50 / 1000.
Definition DEFAULT_RATE_ALPHA : R := 15 / 10.
Definition FALLBACK_ORBIT_PERIOD_S : R := 90 * 60.
Definition FALLBACK_MAX_DOPPLER_HZ : R := 5000.

(** The fields of [OrbitConfig] read by the model itself; the TLE lines and
    the ground-station position are only handed to the Skyfield library. *)
Record OrbitConfig := {
  elev_mask_deg : R;
  carrier_hz : R;
  dl_max_rate_mbps : R;
  ul_max_rate_mbps : R;
  rate_alpha : R;
}.

Definition default_config : OrbitConfig := {|
  elev_mask_deg := DEFAULT_ELEV_MASK_DEG;
  carrier_hz := DEFAULT_CARRIER_HZ;
  dl_max_rate_mbps := DEFAULT_DL_MAX_RATE_Mbps;
  ul_max_rate_mbps := DEFAULT_UL_MAX_RATE_Mbps;
  rate_alpha := DEFAULT_RATE_ALPHA;
|}.

Definition clamp01 (norm : R) : R :=
  let norm := if Rlt_dec norm 0 then 0%R else norm in
  if Rgt_dec norm 1 then 1%R else norm.

Definition data_rate_mbps (elev_deg max_rate_mbps alpha elev_mask_deg : R) : result R :=
  if Rle_dec elev_deg elev_mask_deg then Ok 0%R
  else
    let e_rad := radians elev_deg in
    let norm := clamp01 (sin e_rad) in
    match float_pow norm alpha with
    | Ok p => Ok (max_rate_mbps * p)%R
    | Raised e => Raised e
    end.

Record GeometryState := {
  ts : R;
  elev_deg : R;
  doppler_hz : R;
  visible : bool;
  rate_dl_mbps : R;
  rate_ul_mbps : R;
}.

(** An [OrbitModel] instance: its configuration and, when the Skyfield
    library could be imported, the propagator [_state_skyfield] it provides
    (an external collaborator, kept abstract). *)
Record OrbitModel := {
  cfg : OrbitConfig;
  _state_skyfield : option (R -> R * R);
}.

Definition _sf_ready (self : OrbitModel) : bool :=
  match _state_skyfield self with Some _ => true | None => false end.

Definition _state_fallback (now : R) : R * R :=
  let phase := (float_mod now FALLBACK_ORBIT_PERIOD_S / FALLBACK_ORBIT_PERIOD_S)%R in
  let elev := (90 * Rmax 0 (sin (PI * phase)))%R in
  let doppler := (FALLBACK_MAX_DOPPLER_HZ * sin (2 * PI * phase))%R in
  (elev, doppler).

(** The back-end dispatch at the head of [get_state]. *)
Definition backend_state (self : OrbitModel) (now : R) : R * R :=
  match _state_skyfield self with
  | Some sf => sf now
  | None => _state_fallback now
  end.

Definition get_state (self : OrbitModel) (now : R) : result GeometryState :=
  let '(elev_deg, doppler_hz) := backend_state self now in
  let visible := if Rgt_dec elev_deg (elev_mask_deg (cfg self)) then true else false in
  match data_rate_mbps elev_deg (dl_max_rate_mbps (cfg self)) (rate_alpha (cfg self))
                       (elev_mask_deg (cfg self)) with
  | Raised e => Raised e
  | Ok rate_dl =>
    match data_rate_mbps elev_deg (ul_max_rate_mbps (cfg self)) (rate_alpha (cfg self))
                         (elev_mask_deg (cfg self)) with
    | Raised e => Raised e
    | Ok rate_ul =>
      Ok {| ts := now; elev_deg := elev_deg; doppler_hz := doppler_hz;
            visible := visible; rate_dl_mbps := rate_dl; rate_ul_mbps := rate_ul |}
    end
  end.

Definition is_visible (self : OrbitModel) (now : R) : result bool :=
  match get_state self now with
  | Ok st => Ok (visible st)
  | Raised e => Raised e
  end.

Definition doppler_shift (self : OrbitModel) (now : R) : result Z :=
  match get_state self now with
  | Ok st => Ok (py_round (doppler_hz st))
  | Raised e => Raised e
  end.

Definition elevation_deg (self : OrbitModel) (now : R) : result R :=
  match get_state self now with
  | Ok st => Ok (elev_deg st)
  | Raised e => Raised e
  end.

(** [DEFAULT_ORBIT = OrbitModel()]: the default configuration, with the
    back-end the environment offers. *)
Definition DEFAULT_ORBIT (skyfield : option (R -> R * R)) : OrbitModel :=
  {| cfg := default_config; _state_skyfield := skyfield |}.

End orbit_leo.
Import orbit_leo.

(** ** The state of a running process *)

Module Runtime.

Definition loc := positive.

Inductive datagram :=
| DText (s : string)                 (* [s.encode("utf-8")] *)
| DJson (d : gmap string pyval).     (* [json.dumps(d).encode("utf-8")] *)

Inductive event :=
| EPrint (msg : string)
| EPrintF (fmt : string) (args : list pyval)   (* an f-string with numeric fields *)
| ESendTo (payload : datagram) (ip : string) (port : Z).

Record World := {
  heap : gmap loc (gmap string pyval);   (* dict objects, by reference *)
  _in_fade : bool;                       (* rf_channel_leo._in_fade *)
  _fade_remaining : Z;                   (* rf_channel_leo._fade_remaining *)
  draws : nat;                           (* calls of random.random() so far *)
  clock : R;                             (* time.time() *)
  trace : list event;                    (* output so far, oldest first *)
}.

(** A computation reads and updates the process state and either returns a
    value or raises; the state changes made before a raise persist. *)
Definition M (A : Type) : Type := World -> result A * World.

Definition ret {A} (a : A) : M A := fun w => (Ok a, w).

Definition bind {A B} (m : M A) (k : A -> M B) : M B :=
  fun w => match m w with
           | (Ok a, w') => k a w'
           | (Raised e, w') => (Raised e, w')
           end.

Definition lift {A} (r : result A) : M A := fun w => (r, w).

Definition set_heap h (w : World) : World :=
  {| heap := h; _in_fade := _in_fade w; _fade_remaining := _fade_remaining w;
     draws := draws w; clock := clock w; trace := trace w |}.
Definition set_in_fade b (w : World) : World :=
  {| heap := heap w; _in_fade := b; _fade_remaining := _fade_remaining w;
     draws := draws w; clock := clock w; trace := trace w |}.
Definition set_fade_remaining n (w : World) : World :=
  {| heap := heap w; _in_fade := _in_fade w; _fade_remaining := n;
     draws := draws w; clock := clock w; trace := trace w |}.
Definition set_draws n (w : World) : World :=
  {| heap := heap w; _in_fade := _in_fade w; _fade_remaining := _fade_remaining w;
     draws := n; clock := clock w; trace := trace w |}.
Definition set_clock t (w : World) : World :=
  {| heap := heap w; _in_fade := _in_fade w; _fade_remaining := _fade_remaining w;
     draws := draws w; clock := t; trace := trace w |}.
Definition set_trace tr (w : World) : World :=
  {| heap := heap w; _in_fade := _in_fade w; _fade_remaining := _fade_remaining w;
     draws := draws w; clock := clock w; trace := tr |}.

Definition gets {A} (f : World -> A) : M A := fun w => (Ok (f w), w).
Definition modify (f : World -> World) : M unit := fun w => (Ok tt, f w).

(** [time.sleep(d)], [time.time()] *)
Definition sleep (d : R) : M unit := modify (fun w => set_clock (clock w + d)%R w).
Definition time : M R := gets clock.

(** [print(...)], [sock.sendto(payload, (ip, port))] *)
Definition emit (e : event) : M unit := modify (fun w => set_trace (trace w ++ [e]) w).
Definition print (msg : string) : M unit := emit (EPrint msg).
Definition printf (fmt : string) (args : list pyval) : M unit := emit (EPrintF fmt args).
Definition sendto (payload : datagram) (ip : string) (port : Z) : M unit :=
  emit (ESendTo payload ip port).

(** Dict objects.  A reference held by running code always points to an
    object; reading an unallocated location (which no program does) gives
    the empty dict. *)
Definition deref (w : World) (l : loc) : gmap string pyval := default ∅ (heap w !! l).
Definition load (l : loc) : M (gmap string pyval) := gets (fun w => deref w l).

(** A dict display [{...}] or [dict(d)]: a new object. *)
Definition new_dict (d : gmap string pyval) : M loc :=
  fun w => let l := fresh (dom (heap w)) in (Ok l, set_heap (<[l := d]> (heap w)) w).

(** [d[k] = v] *)
Definition setitem (l : loc) (k : string) (v : pyval) : M unit :=
  modify (fun w => set_heap (<[l := <[k := v]> (deref w l)]> (heap w)) w).

(** A process as it starts at wall-clock time [t0]: no object allocated,
    the channel clear, nothing drawn or printed. *)
Definition boot (t0 : R) : World :=
  {| heap := ∅; _in_fade := false; _fade_remaining := 0; draws := 0;
     clock := t0; trace := [] |}.

(** The payloads handed to [sendto] in a trace, in order. *)
Definition sent (tr : list event) : list datagram :=
  omap (fun e => match e with ESendTo payload _ _ => Some payload | _ => None end) tr.

End Runtime.
Import Runtime.

Declare Scope M_scope.
Delimit Scope M_scope with M.
Bind Scope M_scope with M.
Notation "x ← y ; z" := (bind y (fun x => z))
  (at level 20, y at level 100, z at level 200, only parsing) : M_scope.
Notation "x ;; z" := (bind x (fun _ => z))
  (at level 100, z at level 200, only parsing, right associativity) : M_scope.


(** ** common/rf_channel_leo.py *)

Module rf_channel_leo.

(** The module-level constants. *)
Record Constants := {
  PROPAGATION_DELAY_S : R;
  BASE_PACKET_LOSS : R;
  BASE_BIT_ERROR : R;
  BASE_DUPLICATE : R;
  BURST_FADE_START_PROB : R;
  BURST_FADE_LENGTH_PKTS : Z;
}.

Definition source_constants : Constants := {|
  PROPAGATION_DELAY_S := 25 / 100;
  BASE_PACKET_LOSS := 8 / 100;
  BASE_BIT_ERROR := 2 / 100;
  BASE_DUPLICATE := 2 / 1000;
  BURST_FADE_START_PROB := 15 / 10000;
  BURST_FADE_LENGTH_PKTS := 25;
|}.

Definition _link_quality_from_elev (elev_deg elev_mask : R) : R :=
  if Rle_dec elev_deg elev_mask then 0%R
  else
    let q := ((elev_deg - elev_mask) / (90 - elev_mask))%R in
    let q := if Rlt_dec q 0 then 0%R else q in
    let q := if Rgt_dec q 1 then 1%R else q in
    q.

Definition is_uplink (direction : string) : bool := String.eqb (lower direction) "uplink".

Section channel.
Local Open Scope M_scope.

Variable K : Constants.
Variable rand : nat -> R.

(** [random.random()] *)
Definition random : M R :=
  fun w => (Ok (rand (draws w)), set_draws (S (draws w)) w).

Definition propagate (packet : loc) (elev_deg : R) (direction : string) : M (option loc) :=
  sleep (PROPAGATION_DELAY_S K);;
  let q := _link_quality_from_elev elev_deg 10 in
  let fade_start := (BURST_FADE_START_PROB K * (1 + (1 - q) * 3))%R in
  in_fade ← gets _in_fade;
  if in_fade then
    modify (fun w => set_fade_remaining (_fade_remaining w - 1) w);;
    remaining ← gets _fade_remaining;
    (if remaining <=? 0 then modify (set_in_fade false) else ret tt);;
    ret None
  else
    u ← random;
    if Rlt_dec u fade_start then
      modify (set_in_fade true);;
      modify (set_fade_remaining (BURST_FADE_LENGTH_PKTS K));;
      ret None
    else
      p ← lift (float_pow (1 - q) (16 / 10));
      let loss_p := (BASE_PACKET_LOSS K * p)%R in
      let loss_p := if is_uplink direction then (loss_p * (115 / 100))%R else loss_p in
      u ← random;
      if Rlt_dec u loss_p then ret None
      else
        d ← load packet;
        out ← new_dict d;
        p ← lift (float_pow (1 - q) 2);
        let ber_p := (BASE_BIT_ERROR K * p)%R in
        let ber_p := if is_uplink direction then (ber_p * (110 / 100))%R else ber_p in
        u ← random;
        (if Rlt_dec u ber_p then
           setitem out "corrupted" (VBool true);;
           setitem out "rf_note" (VStr "bit_error")
         else
           d ← load out;
           setitem out "corrupted" (VBool (truthy (default (VBool false) (d !! "corrupted")))));;
        let dup_p := (BASE_DUPLICATE K * (1 + (1 - q)))%R in
        u ← random;
        (if Rlt_dec u dup_p then setitem out "duplicated" (VBool true)
         else setitem out "duplicated" (VBool false));;
        ret (Some out).

(** The module's debug loop, [for _ in range(n): r = propagate(pkt, e)],
    keeping the outcome of every call. *)
Fixpoint propagate_repeat (n : nat) (packet : loc) (elev_deg : R) (direction : string)
  : M (list (option loc)) :=
  match n with
  | O => ret []
  | S n' =>
    r ← propagate packet elev_deg direction;
    rs ← propagate_repeat n' packet elev_deg direction;
    ret (r :: rs)
  end.

End channel.

(** The locals of [propagate], as functions of its arguments.  Both powers
    have a positive exponent, for which [x ** a] never raises. *)
Definition pow_value (x a : R) : R := if Req_dec_T x 0 then 0%R else Rpower x a.

Definition quality (elev_deg : R) : R := _link_quality_from_elev elev_deg 10.

Definition fade_start (K : Constants) (elev_deg : R) : R :=
  (BURST_FADE_START_PROB K * (1 + (1 - quality elev_deg) * 3))%R.

Definition loss_p (K : Constants) (elev_deg : R) (direction : string) : R :=
  let p := (BASE_PACKET_LOSS K * pow_value (1 - quality elev_deg) (16 / 10))%R in
  if is_uplink direction then (p * (115 / 100))%R else p.

Definition ber_p (K : Constants) (elev_deg : R) (direction : string) : R :=
  let p := (BASE_BIT_ERROR K * pow_value (1 - quality elev_deg) 2)%R in
  if is_uplink direction then (p * (110 / 100))%R else p.

Definition dup_p (K : Constants) (elev_deg : R) : R :=
  (BASE_DUPLICATE K * (1 + (1 - quality elev_deg)))%R.

Definition Rltb (x y : R) : bool := if Rlt_dec x y then true else false.

(** The dict a delivering call returns for an input [d], given the
    outcomes of its bit-error and duplicate draws. *)
Definition delivered_dict (d : gmap string pyval) (bit_error dup : bool) : gmap string pyval :=
  <["duplicated" := VBool dup]>
    (if bit_error then <["rf_note" := VStr "bit_error"]> (<["corrupted" := VBool true]> d)
     else <["corrupted" := VBool (truthy (default (VBool false) (d !! "corrupted")))]> d).

End rf_channel_leo.
Import rf_channel_leo.

(** [DEFAULT_ORBIT.get_state()]: the state at the current time. *)
Definition get_state_now (orbit : OrbitModel) : M GeometryState :=
  (now ← time; lift (get_state orbit now))%M.

(** A dict display. *)
Definition py_dict (items : list (string * pyval)) : gmap string pyval := list_to_map items.

(** [d.get(k)] *)
Definition dict_get (d : gmap string pyval) (k : string) : pyval := default VNone (d !! k).

(** ** satelllite/satellite_leo.py *)

Module satellite_leo.

Definition SAT_IP : string := "127.0.0.1".
Definition SAT_TC_PORT : Z := 5002.
Definition BBU_IP : string := "127.0.0.1".
Definition BBU_TM_PORT : Z := 6001.

Definition TIME_STEP_S : R := 1.
Definition PAYLOAD_BYTES : Z := 256.
Definition HEADER_BYTES : Z := 32.
Definition BITS_PER_PACKET : Z := (PAYLOAD_BYTES + HEADER_BYTES) * 8.
Definition MAX_PKTS_PER_STEP : Z := 2000.

Definition _dequeue_tc (_tc_queue : list string) : option string * list string :=
  match _tc_queue with
  | [] => (None, [])
  | cmd :: rest => (Some cmd, rest)
  end.

Definition _enqueue_tc (_tc_queue : list string) (cmd : string) : list string :=
  _tc_queue ++ [cmd].

Section node.
Local Open Scope M_scope.

Variable K : Constants.
Variable rand : nat -> R.
Variable skyfield : option (R -> R * R).

(** The body of [for _ in range(n)] in [telemetry_sender], from sequence
    number [seq]; returns the sequence number after the burst. *)
Fixpoint tm_burst (n : nat) (st : GeometryState) (seq : Z) : M Z :=
  match n with
  | O => ret seq
  | S n' =>
    tm_packet ← new_dict (py_dict [
      ("type", VStr "TM");
      ("seq", VInt seq);
      ("ts", VFloat (ts st));
      ("elev_deg", VFloat (elev_deg st));
      ("doppler_hz", VFloat (doppler_hz st));
      ("visible", VBool true);
      ("corrupted", VBool false);
      ("payload_len", VInt PAYLOAD_BYTES) ]);
    tm_out ← propagate K rand tm_packet (elev_deg st) "downlink";
    match tm_out with
    | None => ret tt
    | Some tm_out => d ← load tm_out; sendto (DJson d) BBU_IP BBU_TM_PORT
    end;;
    tm_burst n' st (Z.land (seq + 1) 0xFFFFFFFF)
  end.

(** One iteration of [while running] in [telemetry_sender]. *)
Definition telemetry_sender_step (seq : Z) : M Z :=
  st ← get_state_now (DEFAULT_ORBIT skyfield);
  if negb (visible st) || (if Rle_dec (rate_dl_mbps st) 0 then true else false) then
    printf "[SAT] TM gen (NOT visible) elev={:.1f}deg doppler={:.0f}Hz"
           [VFloat (elev_deg st); VFloat (doppler_hz st)];;
    sleep TIME_STEP_S;;
    ret seq
  else
    let bits_step := (rate_dl_mbps st * 1000000 * TIME_STEP_S)%R in
    let max_pkts := Zfloor (bits_step / IZR BITS_PER_PACKET) in
    if max_pkts <=? 0 then
      sleep TIME_STEP_S;;
      ret seq
    else
      let max_pkts := if max_pkts >? MAX_PKTS_PER_STEP then MAX_PKTS_PER_STEP else max_pkts in
      seq ← tm_burst (Z.to_nat max_pkts) st seq;
      printf "[SAT] DOWNLINK: elev={:.1f}deg rate={:.1f}kbps sent_pkts={}"
             [VFloat (elev_deg st); VFloat (rate_dl_mbps st * 1000); VInt max_pkts];;
      sleep TIME_STEP_S;;
      ret seq.

(** One iteration of [while running] in [telecommand_executor], on the
    on-board queue [_tc_queue]. *)
Definition telecommand_executor_step (_tc_queue : list string) : M (list string) :=
  st ← get_state_now (DEFAULT_ORBIT skyfield);
  if negb (visible st) then
    sleep (5 / 10);;
    ret _tc_queue
  else
    let '(cmd, _tc_queue) := _dequeue_tc _tc_queue in
    match cmd with
    | None =>
      sleep (2 / 10);;
      ret _tc_queue
    | Some cmd =>
      now ← time;
      pkt ← new_dict (py_dict [
        ("type", VStr "TC"); ("cmd", VStr cmd); ("ts", VFloat now); ("corrupted", VBool false) ]);
      pkt2 ← propagate K rand pkt (elev_deg st) "uplink";
      match pkt2 with
      | None =>
        print ("[SAT] TC LOST (RF): " +:+ cmd);;
        ret _tc_queue
      | Some pkt2 =>
        d ← load pkt2;
        if truthy (dict_get d "corrupted") then
          print ("[SAT] TC CORRUPTED -> ignored: " +:+ cmd);;
          ret _tc_queue
        else
          print ("[SAT] TC EXECUTED: " +:+ cmd);;
          ret _tc_queue
      end
    end.

(** One iteration of [while running] in [telecommand_receiver], for the
    received command [cmd] (already decoded and stripped). *)
Definition telecommand_receiver_step (cmd : string) (_tc_queue : list string)
  : M (list string) :=
  let _tc_queue := _enqueue_tc _tc_queue cmd in
  print ("[SAT] TC RECEIVED (queued): " +:+ cmd);;
  ret _tc_queue.

(** [telecommand_receiver] over a sequence of received commands. *)
Fixpoint telecommand_receiver_run (cmds : list string) (_tc_queue : list string)
  : M (list string) :=
  match cmds with
  | [] => ret _tc_queue
  | cmd :: cmds' =>
    _tc_queue ← telecommand_receiver_step cmd _tc_queue;
    telecommand_receiver_run cmds' _tc_queue
  end.

(** [n] consecutive iterations of [telecommand_executor]. *)
Fixpoint telecommand_executor_run (n : nat) (_tc_queue : list string) : M (list string) :=
  match n with
  | O => ret _tc_queue
  | S n' =>
    _tc_queue ← telecommand_executor_step _tc_queue;
    telecommand_executor_run n' _tc_queue
  end.

End node.

End satellite_leo.

(** ** bbu/bbu_leo.py *)

Module bbu_leo.

Definition BBU_IP : string := "127.0.0.1".
Definition BBU_TM_PORT : Z := 6001.
Definition SAT_IP : string := "127.0.0.1".
Definition SAT_TC_PORT : Z := 5002.

(** The module's shared lists. *)
Record Globals := {
  telemetry_live : list string;
  telemetry_history : list string;
  telecommand_queue : list string;
}.

Definition initial : Globals :=
  {| telemetry_live := []; telemetry_history := []; telecommand_queue := [] |}.

Section node.
Local Open Scope M_scope.

Variable K : Constants.
Variable rand : nat -> R.
Variable skyfield : option (R -> R * R).

Definition is_visible_now : M bool :=
  now ← time; lift (is_visible (DEFAULT_ORBIT skyfield) now).

(** One iteration of [while running] in [tm_receiver], for the received
    datagram [raw] (already decoded). *)
Definition tm_receiver_step (raw : string) (g : Globals) : M Globals :=
  let telemetry_history := telemetry_history g ++ [raw] in
  let telemetry_history :=
    if (5000 <? length telemetry_history)%nat then last_n 5000 telemetry_history
    else telemetry_history in
  let g := {| telemetry_live := telemetry_live g;
              telemetry_history := telemetry_history;
              telecommand_queue := telecommand_queue g |} in
  vis ← is_visible_now;
  if vis then
    let telemetry_live := telemetry_live g ++ [raw] in
    let telemetry_live :=
      if (2000 <? length telemetry_live)%nat then last_n 2000 telemetry_live
      else telemetry_live in
    print "[BBU] TM RX (LIVE)";;
    ret {| telemetry_live := telemetry_live;
           telemetry_history := telemetry_history;
           telecommand_queue := telecommand_queue g |}
  else
    print "[BBU] TM RX (HIST)";;
    ret g.

(** What [tc_receiver_from_web] does with a received command [tc]
    (already decoded and stripped). *)
Definition tc_enqueue (tc : string) (g : Globals) : M Globals :=
  if negb (String.eqb tc "") then
    print ("[BBU] TC queued from Web: " +:+ tc);;
    ret {| telemetry_live := telemetry_live g;
           telemetry_history := telemetry_history g;
           telecommand_queue := telecommand_queue g ++ [tc] |}
  else ret g.

(** One iteration of [while running] in [tc_sender]. *)
Definition tc_sender_step (g : Globals) : M Globals :=
  match telecommand_queue g with
  | [] =>
    sleep (2 / 10);;
    ret g
  | tc :: rest =>
    st ← get_state_now (DEFAULT_ORBIT skyfield);
    if negb (visible st) then
      print "[BBU] TC queued, waiting visibility";;
      sleep (8 / 10);;
      ret g
    else
      (* tc = telecommand_queue.pop(0) *)
      let g := {| telemetry_live := telemetry_live g;
                  telemetry_history := telemetry_history g;
                  telecommand_queue := rest |} in
      now ← time;
      pkt ← new_dict (py_dict [
        ("type", VStr "TC"); ("cmd", VStr tc); ("ts", VFloat now); ("corrupted", VBool false) ]);
      pkt2 ← propagate K rand pkt (elev_deg st) "uplink";
      match pkt2 with
      | None =>
        print ("[BBU] TC DROP (RF): " +:+ tc);;
        ret g
      | Some pkt2 =>
        d ← load pkt2;
        (if truthy (dict_get d "corrupted") then
           print ("[BBU] TC CORRUPTED -> still sent (channel effect): " +:+ tc)
         else ret tt);;
        sendto (DText tc) SAT_IP SAT_TC_PORT;;
        print ("[BBU] TC SENT to satellite: " +:+ tc);;
        sleep (2 / 10);;
        ret g
      end
  end.

(** [tm_receiver] over a sequence of arrivals: [recvfrom] blocks for some
    time and then delivers a datagram. *)
Fixpoint tm_receiver_run (arrivals : list (R * string)) (g : Globals) : M Globals :=
  match arrivals with
  | [] => ret g
  | (wait, raw) :: arrivals' =>
    sleep wait;;
    g ← tm_receiver_step raw g;
    tm_receiver_run arrivals' g
  end.

(** How one pacing iteration of [tm_server_for_web] ends. *)
Inductive pacing_outcome :=
| Idle                     (* nothing to send: a short sleep, then [continue] *)
| Sent (msg : string)      (* [conn.sendall(msg)] returned *)
| Closed (msg : string).   (* [conn.sendall(msg)] raised: [break], the connection is closed *)

(** One iteration of the inner [while running] of [tm_server_for_web];
    [sendall_ok] tells whether [conn.sendall] returns or raises. *)
Definition tm_server_pacing_step (sendall_ok : bool) (g : Globals)
  : M (pacing_outcome * Globals) :=
  vis ← is_visible_now;
  let choice :=
    match vis, telemetry_live g with
    | true, tm :: rest =>
      (* tm = telemetry_live.pop(0) *)
      Some ("LIVE|" +:+ tm,
            {| telemetry_live := rest;
               telemetry_history := telemetry_history g;
               telecommand_queue := telecommand_queue g |})
    | _, _ =>
      match last (telemetry_history g) with
      | Some tm => Some ("HIST|" +:+ tm, g)
      | None => None
      end
    end in
  match choice with
  | None =>
    sleep (5 / 10);;
    ret (Idle, g)
  | Some (msg, g) =>
    if sendall_ok then
      sleep (2 / 10);;
      ret (Sent msg, g)
    else ret (Closed msg, g)
  end.

(** The TM side of the BBU as an interleaving of its two threads: a
    datagram arriving after some wait, or one pacing iteration. *)
Inductive tm_action :=
| Arrival (wait : R) (raw : string)
| Pace (sendall_ok : bool).

Fixpoint tm_side_run (actions : list tm_action) (g : Globals)
  : M (list pacing_outcome * Globals) :=
  match actions with
  | [] => ret ([], g)
  | Arrival wait raw :: actions' =>
    sleep wait;;
    g ← tm_receiver_step raw g;
    tm_side_run actions' g
  | Pace sendall_ok :: actions' =>
    r ← tm_server_pacing_step sendall_ok g;
    rs ← tm_side_run actions' (snd r);
    ret (fst r :: fst rs, snd rs)
  end.

(** The uplink side of the BBU as an interleaving of its two threads: a
    command arriving from the Web, or one iteration of [tc_sender]. *)
Inductive uplink_action :=
| FromWeb (tc : string)
| SenderStep.

Fixpoint uplink_run (actions : list uplink_action) (g : Globals) : M Globals :=
  match actions with
  | [] => ret g
  | FromWeb tc :: actions' =>
    g ← tc_enqueue tc g;
    uplink_run actions' g
  | SenderStep :: actions' =>
    g ← tc_sender_step g;
    uplink_run actions' g
  end.

End node.

(** The commands a sequence of actions brings in from the Web. *)
Definition from_web (actions : list uplink_action) : list string :=
  omap (fun a => match a with
                 | FromWeb tc => if String.eqb tc "" then None else Some tc
                 | SenderStep => None
                 end) actions.

End bbu_leo.
Import satellite_leo.

(** ** web/web_leo.py *)

Module web_leo.
Import Stdlib.Strings.Ascii.

(** [msg.split("|", 1)] when ["|" in msg]: the text before the first bar
    and the text after it. *)
Fixpoint split_bar (msg : string) : option (string * string) :=
  match msg with
  | EmptyString => None
  | String c rest =>
    if Ascii.eqb c "|"%char then Some (EmptyString, rest)
    else match split_bar rest with
         | Some (mode, tm) => Some (String c mode, tm)
         | None => None
         end
  end.

(** The [(mode, tm)] pair the client makes of a received message. *)
Definition parse (msg : string) : string * string :=
  match split_bar msg with
  | Some (mode, tm) => (mode, tm)
  | None => ("UNK", msg)
  end.

(** The update of [tm_buffer] on a [recv] that returned [data] (decoded). *)
Definition receive (data : string) (tm_buffer : list (string * string))
  : list (string * string) :=
  if String.eqb data "" then tm_buffer
  else last_n 200 (tm_buffer ++ [parse data]).

End web_leo.

(** ** The link budget as the specification words it *)

Module Spec.



End Spec.

(** ** Notions used to state the properties *)

(** The elevation that [DEFAULT_ORBIT.get_state()] reports in [w]. *)
Definition elevation_now (skyfield : option (R -> R * R)) (w : World) : R :=
  fst (backend_state (DEFAULT_ORBIT skyfield) (clock w)).

(** The dict that [tc_sender] and [telecommand_executor] build around a
    command before handing it to the uplink channel. *)
Definition tc_packet (cmd : string) (now : R) : gmap string pyval :=
  py_dict [("type", VStr "TC"); ("cmd", VStr cmd); ("ts", VFloat now);
           ("corrupted", VBool false)].

(** The world after that dict has been allocated. *)
Definition with_tc_packet (cmd : string) (w : World) : World :=
  set_heap (<[fresh (dom (heap w)) := tc_packet cmd (clock w)]> (heap w)) w.

(** The BBU state with [q] as its command queue. *)
Definition with_queue (g : bbu_leo.Globals) (q : list string) : bbu_leo.Globals :=
  {| bbu_leo.telemetry_live := bbu_leo.telemetry_live g;
     bbu_leo.telemetry_history := bbu_leo.telemetry_history g;
     bbu_leo.telecommand_queue := q |}.

(** The BBU buffers are within their caps. *)
Definition within_caps (g : bbu_leo.Globals) : Prop :=
  (length (bbu_leo.telemetry_live g) <= 2000)%nat /\
  (length (bbu_leo.telemetry_history g) <= 5000)%nat.

(** The dict [telemetry_sender] builds for sequence number [seq]. *)
Definition tm_packet (st : GeometryState) (seq : Z) : gmap string pyval :=
  py_dict [("type", VStr "TM"); ("seq", VInt seq); ("ts", VFloat (ts st));
           ("elev_deg", VFloat (elev_deg st)); ("doppler_hz", VFloat (doppler_hz st));
           ("visible", VBool true); ("corrupted", VBool false);
           ("payload_len", VInt PAYLOAD_BYTES)].

(** The channel globals are consistent: in a fade with packets still to
    drop, or clear with none. *)
Definition channel_ok (w : World) : Prop :=
  (_in_fade w = true /\ 1 <= _fade_remaining w) \/
  (_in_fade w = false /\ _fade_remaining w = 0).

(** What the executor logs about a command it has dequeued. *)
Inductive tc_fate := Lost | Ignored | Executed.

Definition fate_line (cmd : string) (f : tc_fate) : event :=
  EPrint (match f with
          | Lost => "[SAT] TC LOST (RF): " +:+ cmd
          | Ignored => "[SAT] TC CORRUPTED -> ignored: " +:+ cmd
          | Executed => "[SAT] TC EXECUTED: " +:+ cmd
          end).

(** The messages of the pacing outcomes that carry the given tag. *)
Definition tagged (tag : string) (os : list bbu_leo.pacing_outcome) : list string :=
  omap (fun o => match o with
                 | bbu_leo.Sent msg | bbu_leo.Closed msg =>
                   if String.prefix tag msg then Some msg else None
                 | bbu_leo.Idle => None
                 end) os.

(** The datagrams a sequence of TM-side actions brings in. *)
Definition arrivals (actions : list bbu_leo.tm_action) : list string :=
  omap (fun a => match a with
                 | bbu_leo.Arrival _ raw => Some raw
                 | bbu_leo.Pace _ => None
                 end) actions.

(** A packet of a burst that reached the wire: its index in the burst and
    the outcomes of its bit-error and duplicate draws. *)
Definition tm_datagram (st : GeometryState) (seq : Z) (k : nat * bool * bool) : event :=
  ESendTo (DJson (delivered_dict (tm_packet st ((seq + Z.of_nat k.1.1) mod 2 ^ 32))
                                 k.1.2 k.2))
          satellite_leo.BBU_IP satellite_leo.BBU_TM_PORT.

(** The same packet as the payload handed to [sendto]. *)
Definition tm_payload (st : GeometryState) (seq : Z) (k : nat * bool * bool) : datagram :=
  DJson (delivered_dict (tm_packet st ((seq + Z.of_nat k.1.1) mod 2 ^ 32)) k.1.2 k.2).

(** The channel as its callers meet it: the two globals of the module and
    the number of draws made so far. *)
Record channel_state := {
  ch_in_fade : bool;
  ch_fade_remaining : Z;
  ch_draws : nat;
}.

Definition channel_of (w : World) : channel_state :=
  {| ch_in_fade := _in_fade w; ch_fade_remaining := _fade_remaining w; ch_draws := draws w |}.

(** What one call of [propagate] decides about its packet. *)
Inductive channel_verdict :=
| Dropped
| Delivered (bit_error dup : bool).

(** The verdict of one call of [propagate] and the channel it leaves
    behind, read off the four ways through its body: in a fade the packet
    is dropped without a draw; otherwise the first draw may ignite a fade,
    the second may lose the packet, and the third and fourth mark a
    delivered packet. *)
Definition channel_step (K : Constants) (rand : nat -> R) (elev_deg : R) (direction : string)
    (c : channel_state) : channel_verdict * channel_state :=
  if ch_in_fade c then
    (Dropped,
     {| ch_in_fade := negb (ch_fade_remaining c - 1 <=? 0);
        ch_fade_remaining := ch_fade_remaining c - 1;
        ch_draws := ch_draws c |})
  else if Rltb (rand (ch_draws c)) (fade_start K elev_deg) then
    (Dropped,
     {| ch_in_fade := true;
        ch_fade_remaining := BURST_FADE_LENGTH_PKTS K;
        ch_draws := S (ch_draws c) |})
  else if Rltb (rand (S (ch_draws c))) (loss_p K elev_deg direction) then
    (Dropped,
     {| ch_in_fade := false;
        ch_fade_remaining := ch_fade_remaining c;
        ch_draws := S (S (ch_draws c)) |})
  else
    (Delivered (Rltb (rand (S (S (ch_draws c)))) (ber_p K elev_deg direction))
               (Rltb (rand (S (S (S (ch_draws c))))) (dup_p K elev_deg)),
     {| ch_in_fade := false;
        ch_fade_remaining := ch_fade_remaining c;
        ch_draws := S (S (S (S (ch_draws c)))) |}).

(** The verdicts of [n] consecutive calls at the same elevation, and the
    channel after the last. *)
Fixpoint channel_run (K : Constants) (rand : nat -> R) (elev_deg : R) (direction : string)
    (n : nat) (c : channel_state) : list channel_verdict * channel_state :=
  match n with
  | O => ([], c)
  | S n' =>
    let (v, c') := channel_step K rand elev_deg direction c in
    let (vs, c'') := channel_run K rand elev_deg direction n' c' in
    (v :: vs, c'')
  end.

(** The delivered packets among the verdicts of a burst whose first index
    is [i]: index, bit-error mark and duplicate mark of each. *)
Fixpoint survivors_from (i : nat) (vs : list channel_verdict) : list (nat * bool * bool) :=
  match vs with
  | [] => []
  | Dropped :: vs' => survivors_from (S i) vs'
  | Delivered bit_error dup :: vs' => (i, bit_error, dup) :: survivors_from (S i) vs'
  end.

Definition survivors (vs : list channel_verdict) : list (nat * bool * bool) :=
  survivors_from 0 vs.

(** The back-end sees the spacecraft above the 10 degree mask at all times. *)
Definition always_visible (skyfield : option (R -> R * R)) : Prop :=
  forall w : World, (10 < elevation_now skyfield w)%R.

(** The back-end never sees the spacecraft above the 10 degree mask. *)
Definition never_visible (skyfield : option (R -> R * R)) : Prop :=
  forall w : World, ~ (10 < elevation_now skyfield w)%R.

(** The channel cannot drop or mark anything: the four base probabilities
    are 0 and the draws are in [0, 1). *)
Definition quiet (K : Constants) (rand : nat -> R) : Prop :=
  BASE_PACKET_LOSS K = 0%R /\ BASE_BIT_ERROR K = 0%R /\ BASE_DUPLICATE K = 0%R /\
  BURST_FADE_START_PROB K = 0%R /\ forall i, (0 <= rand i < 1)%R.

(** ** Scenarios *)

Module Scenario.

(** The channel of scenario S4: [BURST_FADE_START_PROB = 1.0] and
    [BURST_FADE_LENGTH_PKTS = 3], the other constants as in the source. *)
Definition S4_constants : Constants := {|
  PROPAGATION_DELAY_S := 25 / 100;
  BASE_PACKET_LOSS := 8 / 100;
  BASE_BIT_ERROR := 2 / 100;
  BASE_DUPLICATE := 2 / 1000;
  BURST_FADE_START_PROB := 1;
  BURST_FADE_LENGTH_PKTS := 3;
|}.

(** A channel with no loss, no bit error, no duplicate and no fade. *)
Definition quiet_constants : Constants := {|
  PROPAGATION_DELAY_S := 25 / 100;
  BASE_PACKET_LOSS := 0;
  BASE_BIT_ERROR := 0;
  BASE_DUPLICATE := 0;
  BURST_FADE_START_PROB := 0;
  BURST_FADE_LENGTH_PKTS := 25;
|}.

(** [pkt = {"seq": 1, "corrupted": False}], the packet of the channel's
    debug loop, as the only object of a process that has just started. *)
Definition debug_pkt : gmap string pyval :=
  py_dict [("seq", VInt 1); ("corrupted", VBool false)].

Definition debug_world : World :=
  {| heap := <[1%positive := debug_pkt]> ∅; _in_fade := false; _fade_remaining := 0;
     draws := 0; clock := 0; trace := [] |}.

(** A generator whose every draw is 0.5. *)
Definition half : nat -> R := fun _ => (1 / 2)%R.

(** A propagator that sees the spacecraft at a fixed elevation. *)
Definition fixed_elevation (e : R) : option (R -> R * R) := Some (fun _ => (e, 0%R)).

End Scenario.

(** * Properties *)

(** ** Link budget and geometry state *)

Section orbit_facts.
Local Open Scope R_scope.


Lemma clamp01_range x : 0 <= clamp01 x <= 1.
Proof.
  unfold clamp01.
  destruct (Rlt_dec x 0); destruct (Rgt_dec _ 1); lra.
Qed.

Lemma clamp01_id x : 0 <= x <= 1 -> clamp01 x = x.
Proof.
  intros Hx. unfold clamp01.
  destruct (Rlt_dec x 0); destruct (Rgt_dec _ 1); lra.
Qed.

Lemma clamp01_mono x y : x <= y -> clamp01 x <= clamp01 y.
Proof.
  intros Hxy. unfold clamp01.
  destruct (Rlt_dec x 0); destruct (Rlt_dec y 0);
    repeat destruct (Rgt_dec _ 1); lra.
Qed.

Lemma clamp01_pos x : 0 < x -> 0 < clamp01 x.
Proof.
  intros Hx. unfold clamp01.
  destruct (Rlt_dec x 0); destruct (Rgt_dec _ 1); lra.
Qed.

Lemma Rpower_pos x a : 0 < Rpower x a.
Proof. unfold Rpower. apply exp_pos. Qed.

(** A positive base never raises and gives a positive power. *)
Lemma float_pow_pos x a : 0 < x -> float_pow x a = Ok (Rpower x a).
Proof.
  intros Hx. unfold float_pow.
  destruct (Req_dec_T x 0); [lra | reflexivity].
Qed.

(** A non-negative exponent never raises and gives a non-negative power. *)
Lemma float_pow_total x a :
  0 <= x -> 0 <= a -> exists p, float_pow x a = Ok p /\ 0 <= p.
Proof.
  intros Hx Ha. unfold float_pow.
  destruct (Req_dec_T x 0).
  - destruct (Req_dec_T a 0); [exists 1; split; [reflexivity | lra] |].
    destruct (Rlt_dec a 0); [lra |]. exists 0. split; [reflexivity | lra].
  - exists (Rpower x a). split; [reflexivity |]. left. apply Rpower_pos.
Qed.

Lemma float_pow_one a : float_pow 1 a = Ok 1.
Proof.
  rewrite float_pow_pos by lra. f_equal.
  unfold Rpower. rewrite ln_1, Rmult_0_r. apply exp_0.
Qed.

(** For a non-negative exponent the power is monotone in its base. *)
Lemma float_pow_mono x y a p q :
  0 <= a -> 0 <= x <= y ->
  float_pow x a = Ok p -> float_pow y a = Ok q -> p <= q.
Proof.
  intros Ha [Hx Hxy]. unfold float_pow.
  destruct (Req_dec_T x 0) as [Hx0 | Hx0].
  - destruct (Req_dec_T a 0) as [Ha0 | Ha0].
    + intros [= <-]. destruct (Req_dec_T y 0); intros [= <-]; [lra |].
      subst a. rewrite Rpower_O by lra. lra.
    + destruct (Rlt_dec a 0); [lra |]. intros [= <-].
      destruct (Req_dec_T y 0); intros [= <-]; [lra |].
      left. apply Rpower_pos.
  - destruct (Req_dec_T y 0); [lra |].
    intros [= <-] [= <-]. apply Rle_Rpower_l; lra.
Qed.

Lemma float_pow_le_one x a p : 0 <= x <= 1 -> 0 <= a -> float_pow x a = Ok p -> 0 <= p <= 1.
Proof.
  intros Hx Ha Hp.
  destruct (float_pow_total x a) as (p' & Hp' & Hpos); [lra | lra |].
  assert (p' = p) by congruence. subst p'.
  split; [exact Hpos |].
  apply (float_pow_mono x 1 a p 1); [exact Ha | lra | exact Hp | apply float_pow_one].
Qed.

Lemma radians_90 : radians 90 = PI / 2.
Proof. unfold radians. lra. Qed.

Lemma sin_radians_pos e : 0 < e -> e <= 90 -> 0 < sin (radians e).
Proof.
  intros H0 H90. pose proof PI_RGT_0 as Hpi.
  apply sin_gt_0; unfold radians; nra.
Qed.

Lemma sin_radians_mono e1 e2 :
  -90 <= e1 -> e1 <= e2 -> e2 <= 90 -> sin (radians e1) <= sin (radians e2).
Proof.
  intros Hlo H12 Hhi. pose proof PI_RGT_0 as Hpi.
  destruct (Req_dec_T e1 e2) as [-> | Hne]; [lra |].
  left. apply sin_increasing_1; unfold radians; nra.
Qed.


Lemma data_rate_mbps_below e m a k : e <= k -> data_rate_mbps e m a k = Ok 0.
Proof.
  intros He. unfold data_rate_mbps. destruct (Rle_dec e k); [reflexivity | lra].
Qed.

Lemma data_rate_mbps_above e m a k :
  k < e -> 0 < sin (radians e) ->
  data_rate_mbps e m a k = Ok (m * Rpower (clamp01 (sin (radians e))) a).
Proof.
  intros He Hs. unfold data_rate_mbps. destruct (Rle_dec e k); [lra |].
  rewrite float_pow_pos by (apply clamp01_pos; exact Hs). reflexivity.
Qed.

Lemma data_rate_mbps_zenith m a k : k < 90 -> data_rate_mbps 90 m a k = Ok m.
Proof.
  intros Hk. unfold data_rate_mbps. destruct (Rle_dec 90 k); [lra |].
  rewrite radians_90, sin_PI2, clamp01_id by lra.
  rewrite float_pow_one. f_equal. lra.
Qed.

Lemma sin_3a x : sin (3 * x) = 3 * sin x - 4 * (sin x * sin x * sin x).
Proof.
  replace (3 * x) with (2 * x + x) by lra.
  rewrite sin_plus, sin_2a, cos_2a_sin.
  pose proof (sin2_cos2 x) as H. unfold Rsqr in H.
  replace (2 * sin x * cos x * cos x) with (2 * sin x * (cos x * cos x)) by ring.
  replace (cos x * cos x) with (1 - sin x * sin x) by lra. ring.
Qed.

(** The sine of the default mask: [sin 10° >= 1/6]. *)
Lemma sin_radians_10 : 1 / 6 <= sin (radians 10).
Proof.
  assert (H3 : sin (3 * radians 10) = 1 / 2).
  { replace (3 * radians 10) with (PI / 6) by (unfold radians; lra). apply sin_PI6. }
  rewrite sin_3a in H3.
  assert (Hs : 0 < sin (radians 10)) by (apply sin_radians_pos; lra).
  assert (Hc : 0 <= sin (radians 10) * sin (radians 10) * sin (radians 10)).
  { apply Rmult_le_pos; [apply Rmult_le_pos |]; lra. }
  lra.
Qed.

Lemma Rpower_15_lower x : 1 / 6 <= x -> 1 / 15 <= Rpower x (15 / 10).
Proof.
  intros Hx.
  apply Rle_trans with (Rpower (1 / 6) (15 / 10)); [| apply Rle_Rpower_l; lra].
  replace (15 / 10) with (1 + / 2) by lra.
  rewrite Rpower_plus, Rpower_1, Rpower_sqrt by lra.
  pose proof (sqrt_pos (1 / 6)) as Hpos.
  pose proof (sqrt_sqrt (1 / 6) ltac:(lra)) as Hsq.
  nra.
Qed.

(** Above the default mask, up to the zenith, the default link budget is
    worth at least a fifteenth of the maximum rate. *)
Lemma data_rate_mbps_default_lower e m :
  10 < e -> e <= 90 -> 0 <= m ->
  exists r, data_rate_mbps e m DEFAULT_RATE_ALPHA DEFAULT_ELEV_MASK_DEG = Ok r /\ m / 15 <= r.
Proof.
  intros Hlo Hhi Hm. unfold DEFAULT_RATE_ALPHA, DEFAULT_ELEV_MASK_DEG.
  assert (Hs : 1 / 6 <= sin (radians e)).
  { apply Rle_trans with (sin (radians 10)); [apply sin_radians_10 |].
    apply sin_radians_mono; lra. }
  pose proof (SIN_bound (radians e)) as Hb.
  rewrite data_rate_mbps_above by lra.
  rewrite clamp01_id by lra.
  eexists. split; [reflexivity |].
  pose proof (Rpower_15_lower _ Hs). nra.
Qed.

End orbit_facts.

Section orbit_properties.
Local Open Scope R_scope.



(** C6, as the code has it.  Whatever the configuration, [visible] is the
    strict comparison [elev_deg > elev_mask_deg], a state that is not
    visible has both rates exactly 0, and [get_state] returns such a
    state whenever the elevation is at or below the mask.  With the
    default configuration and an elevation of at most 90 degrees,
    [get_state] returns a state in which each rate is 0 if and only if
    the state is not visible: a visible state has a downlink rate of at
    least 0.01 Mbps and an uplink rate of at least 0.002 Mbps. *)
Theorem get_state_rate_zero_iff_not_visible (self : OrbitModel) (now : R) :
  (forall st, get_state self now = Ok st ->
     elev_deg st = fst (backend_state self now) /\
     (visible st = true <-> elev_deg st > elev_mask_deg (cfg self)) /\
     (visible st = false -> rate_dl_mbps st = 0 /\ rate_ul_mbps st = 0)) /\
  (fst (backend_state self now) <= elev_mask_deg (cfg self) ->
     exists st, get_state self now = Ok st /\ visible st = false) /\
  (cfg self = default_config ->
   fst (backend_state self now) <= 90 ->
     exists st,
       get_state self now = Ok st /\
       (rate_dl_mbps st = 0 <-> visible st = false) /\
       (rate_ul_mbps st = 0 <-> visible st = false) /\
       (visible st = true -> 1 / 100 <= rate_dl_mbps st /\ 1 / 500 <= rate_ul_mbps st)).
Proof.
  unfold get_state.
  destruct (backend_state self now) as [e d]. cbn [fst].
  set (k := elev_mask_deg (cfg self)).
  split; [| split].
  - intros st.
    destruct (data_rate_mbps e (dl_max_rate_mbps (cfg self)) _ k) as [rd |] eqn:Hd;
      [| discriminate].
    destruct (data_rate_mbps e (ul_max_rate_mbps (cfg self)) _ k) as [ru |] eqn:Hu;
      [| discriminate].
    intros [= <-]. cbn. split; [reflexivity |].
    destruct (Rgt_dec e k) as [Hvis | Hvis].
    + split; [tauto | discriminate].
    + split; [split; [discriminate | tauto] |]. intros _.
      rewrite data_rate_mbps_below in Hd, Hu by lra.
      injection Hd as <-. injection Hu as <-. split; reflexivity.
  - intros Hle. rewrite !data_rate_mbps_below by exact Hle.
    eexists. split; [reflexivity |]. cbn.
    destruct (Rgt_dec e k); [lra | reflexivity].
  - intros Hcfg H90. subst k. rewrite Hcfg.
    cbn [default_config elev_mask_deg dl_max_rate_mbps ul_max_rate_mbps rate_alpha].
    destruct (Rgt_dec e DEFAULT_ELEV_MASK_DEG) as [Hvis | Hvis];
      unfold DEFAULT_ELEV_MASK_DEG in Hvis.
    + destruct (data_rate_mbps_default_lower e DEFAULT_DL_MAX_RATE_Mbps)
        as (rd & -> & Hrd); [lra | lra | unfold DEFAULT_DL_MAX_RATE_Mbps; lra |].
      destruct (data_rate_mbps_default_lower e DEFAULT_UL_MAX_RATE_Mbps)
        as (ru & -> & Hru); [lra | lra | unfold DEFAULT_UL_MAX_RATE_Mbps; lra |].
      unfold DEFAULT_DL_MAX_RATE_Mbps in Hrd. unfold DEFAULT_UL_MAX_RATE_Mbps in Hru.
      eexists. split; [reflexivity |]. cbn.
      split; [split; [intros; lra | discriminate] |].
      split; [split; [intros; lra | discriminate] |].
      intros _. lra.
    + rewrite !data_rate_mbps_below by (unfold DEFAULT_ELEV_MASK_DEG; lra).
      eexists. split; [reflexivity |]. cbn.
      split; [tauto |]. split; [tauto | discriminate].
Qed.

Lemma get_state_rate_zero_iff_not_visible_witness :
  (exists st,
     get_state (DEFAULT_ORBIT (Some (fun _ => (5, 0)))) 0 = Ok st /\ visible st = false) /\
  (exists st,
     get_state (DEFAULT_ORBIT (Some (fun _ => (45, 0)))) 0 = Ok st /\
     (rate_dl_mbps st = 0 <-> visible st = false) /\
     (rate_ul_mbps st = 0 <-> visible st = false) /\
     (visible st = true -> 1 / 100 <= rate_dl_mbps st /\ 1 / 500 <= rate_ul_mbps st)).
Proof.
  split.
  - apply (get_state_rate_zero_iff_not_visible (DEFAULT_ORBIT (Some (fun _ => (5, 0)))) 0).
    simpl. unfold DEFAULT_ELEV_MASK_DEG. lra.
  - apply (get_state_rate_zero_iff_not_visible (DEFAULT_ORBIT (Some (fun _ => (45, 0)))) 0).
    + reflexivity.
    + simpl. lra.
Defined.

(** The fallback back-end at time 0: the spacecraft is on the horizon. *)
Lemma _state_fallback_0 : _state_fallback 0 = (0, 0).
Proof.
  unfold _state_fallback, float_mod, FALLBACK_ORBIT_PERIOD_S, FALLBACK_MAX_DOPPLER_HZ.
  replace (0 / (90 * 60)) with 0 by lra.
  rewrite ZfloorZ.
  replace ((0 - 90 * 60 * 0) / (90 * 60)) with 0 by lra.
  rewrite !Rmult_0_r, sin_0.
  unfold Rmax. destruct (Rle_dec 0 0); f_equal; lra.
Qed.

(** C6 fails as stated: with the mask configured at -10 degrees, the
    fallback back-end at time 0 gives elevation 0, which is visible, and a
    downlink rate of exactly 0. *)
Lemma rate_zero_while_visible :
  exists st,
    get_state {| cfg := {| elev_mask_deg := -10; carrier_hz := DEFAULT_CARRIER_HZ;
                           dl_max_rate_mbps := DEFAULT_DL_MAX_RATE_Mbps;
                           ul_max_rate_mbps := DEFAULT_UL_MAX_RATE_Mbps;
                           rate_alpha := DEFAULT_RATE_ALPHA |};
                 _state_skyfield := None |} 0 = Ok st /\
    visible st = true /\ rate_dl_mbps st = 0.
Proof.
  unfold get_state, backend_state. cbn [_state_skyfield cfg].
  rewrite _state_fallback_0. cbn [elev_mask_deg dl_max_rate_mbps ul_max_rate_mbps rate_alpha].
  unfold data_rate_mbps. destruct (Rle_dec 0 (-10)); [lra |].
  unfold radians. rewrite Rmult_0_l, sin_0, clamp01_id by lra.
  unfold float_pow, DEFAULT_RATE_ALPHA.
  destruct (Req_dec_T 0 0); [| lra].
  destruct (Req_dec_T (15 / 10) 0); [lra |].
  destruct (Rlt_dec (15 / 10) 0); [lra |].
  eexists. split; [reflexivity |]. simpl.
  destruct (Rgt_dec 0 (-10)); [| lra]. split; [reflexivity | lra].
Qed.

(** C7, as the code has it: for a non-negative maximum rate and a
    non-negative exponent, [data_rate_mbps] returns a rate at every
    elevation and is monotonic non-decreasing in the elevation over
    [mask <= e1 <= e2] within [-90, 90]. *)
Theorem data_rate_mbps_monotone (e1 e2 max_rate alpha mask : R) :
  0 <= max_rate -> 0 <= alpha ->
  mask <= e1 -> e1 <= e2 -> -90 <= e1 -> e2 <= 90 ->
  exists r1 r2,
    data_rate_mbps e1 max_rate alpha mask = Ok r1 /\
    data_rate_mbps e2 max_rate alpha mask = Ok r2 /\
    r1 <= r2.
Proof.
  intros Hm Ha Hk H12 Hlo Hhi.
  assert (Hnonneg : forall e, exists r, data_rate_mbps e max_rate alpha mask = Ok r /\ 0 <= r).
  { intros e. unfold data_rate_mbps. destruct (Rle_dec e mask).
    - exists 0. split; [reflexivity | lra].
    - destruct (float_pow_total (clamp01 (sin (radians e))) alpha) as (p & -> & Hp);
        [apply clamp01_range | exact Ha |].
      eexists. split; [reflexivity | nra]. }
  destruct (Rle_dec e1 mask) as [Hb | Hb].
  - destruct (Hnonneg e2) as (r2 & Hr2 & Hpos).
    exists 0, r2. rewrite data_rate_mbps_below by lra. auto.
  - unfold data_rate_mbps.
    destruct (Rle_dec e1 mask); [lra |]. destruct (Rle_dec e2 mask); [lra |].
    destruct (float_pow_total (clamp01 (sin (radians e1))) alpha) as (p1 & Hp1 & Hp1');
      [apply clamp01_range | exact Ha |].
    destruct (float_pow_total (clamp01 (sin (radians e2))) alpha) as (p2 & Hp2 & Hp2');
      [apply clamp01_range | exact Ha |].
    rewrite Hp1, Hp2. do 2 eexists. split; [reflexivity |]. split; [reflexivity |].
    apply Rmult_le_compat_l; [exact Hm |].
    eapply float_pow_mono; [exact Ha | | exact Hp1 | exact Hp2].
    split; [apply clamp01_range |].
    apply clamp01_mono, sin_radians_mono; lra.
Qed.

Lemma data_rate_mbps_monotone_witness :
  exists r1 r2,
    data_rate_mbps 30 (258 / 1000) (15 / 10) 10 = Ok r1 /\
    data_rate_mbps 90 (258 / 1000) (15 / 10) 10 = Ok r2 /\
    r1 <= r2.
Proof.
  apply (data_rate_mbps_monotone 30 90 (258 / 1000) (15 / 10) 10); lra.
Defined.

Lemma radians_30 : radians 30 = PI / 6.
Proof. unfold radians. lra. Qed.

(** C7 fails as stated: with the exponent [alpha = -1] the rate at 30
    degrees is twice the rate at 90 degrees. *)
Lemma data_rate_mbps_decreases :
  data_rate_mbps 30 1 (-1) 10 = Ok 2 /\
  data_rate_mbps 90 1 (-1) 10 = Ok 1 /\
  10 <= 30 <= 90 /\ 1 < 2.
Proof.
  split; [| split; [apply data_rate_mbps_zenith; lra | lra]].
  rewrite data_rate_mbps_above; rewrite ?radians_30, ?sin_PI6; try lra.
  rewrite clamp01_id by lra. f_equal.
  replace (-1) with (Ropp 1) by lra.
  rewrite Rpower_Ropp, Rpower_1 by lra. lra.
Qed.

End orbit_properties.

(** ** The RF channel *)

Ltac proj_W := cbn [heap _in_fade _fade_remaining draws clock trace].

Ltac run_M :=
  cbv [bind ret sleep modify gets lift random load new_dict setitem emit print printf
       sendto time get_state_now
       set_clock set_fade_remaining set_in_fade set_draws set_heap set_trace];
  proj_W.

Section channel_facts.
Local Open Scope R_scope.

Variable K : Constants.
Variable rand : nat -> R.

Lemma quality_range e : 0 <= quality e <= 1.
Proof.
  unfold quality, _link_quality_from_elev.
  destruct (Rle_dec e 10); [lra |].
  destruct (Rlt_dec _ 0); destruct (Rgt_dec _ 1); lra.
Qed.

Lemma float_pow_pos_exp x a : 0 < a -> float_pow x a = Ok (pow_value x a).
Proof.
  intros Ha. unfold float_pow, pow_value. destruct (Req_dec_T x 0); [| reflexivity].
  destruct (Req_dec_T a 0); [lra |]. destruct (Rlt_dec a 0); [lra | reflexivity].
Qed.

(** The four ways through [propagate]. *)

Lemma propagate_fading packet elev dir w :
  _in_fade w = true ->
  propagate K rand packet elev dir w =
  (Ok None,
   {| heap := heap w;
      _in_fade := negb (_fade_remaining w - 1 <=? 0)%Z;
      _fade_remaining := (_fade_remaining w - 1)%Z;
      draws := draws w;
      clock := clock w + PROPAGATION_DELAY_S K;
      trace := trace w |}).
Proof.
  intros Hf. unfold propagate. run_M. rewrite Hf. proj_W.
  destruct (_fade_remaining w - 1 <=? 0)%Z; proj_W; rewrite ?Hf; reflexivity.
Qed.

Lemma propagate_ignite packet elev dir w :
  _in_fade w = false ->
  rand (draws w) < fade_start K elev ->
  propagate K rand packet elev dir w =
  (Ok None,
   {| heap := heap w;
      _in_fade := true;
      _fade_remaining := BURST_FADE_LENGTH_PKTS K;
      draws := S (draws w);
      clock := clock w + PROPAGATION_DELAY_S K;
      trace := trace w |}).
Proof.
  intros Hf Hu. unfold propagate. run_M. rewrite Hf.
  fold (quality elev). fold (fade_start K elev).
  destruct (Rlt_dec _ _); [reflexivity | contradiction].
Qed.

Lemma propagate_loss packet elev dir w :
  _in_fade w = false ->
  ~ rand (draws w) < fade_start K elev ->
  rand (S (draws w)) < loss_p K elev dir ->
  propagate K rand packet elev dir w =
  (Ok None,
   {| heap := heap w;
      _in_fade := false;
      _fade_remaining := _fade_remaining w;
      draws := S (S (draws w));
      clock := clock w + PROPAGATION_DELAY_S K;
      trace := trace w |}).
Proof.
  intros Hf Hu Hl. unfold propagate. run_M. rewrite Hf.
  fold (quality elev). fold (fade_start K elev).
  destruct (Rlt_dec _ (fade_start K elev)); [contradiction |].
  rewrite !float_pow_pos_exp by lra. cbn.
  fold (loss_p K elev dir).
  destruct (Rlt_dec _ (loss_p K elev dir)); [| contradiction].
  rewrite <- Hf. reflexivity.
Qed.

Lemma propagate_deliver packet elev dir w :
  _in_fade w = false ->
  ~ rand (draws w) < fade_start K elev ->
  ~ rand (S (draws w)) < loss_p K elev dir ->
  propagate K rand packet elev dir w =
  (Ok (Some (fresh (dom (heap w)))),
   {| heap := <[fresh (dom (heap w)) :=
                  delivered_dict (deref w packet)
                    (Rltb (rand (S (S (draws w)))) (ber_p K elev dir))
                    (Rltb (rand (S (S (S (draws w))))) (dup_p K elev))]> (heap w);
      _in_fade := false;
      _fade_remaining := _fade_remaining w;
      draws := S (S (S (S (draws w))));
      clock := clock w + PROPAGATION_DELAY_S K;
      trace := trace w |}).
Proof.
  intros Hf Hu Hl. unfold propagate. run_M. rewrite Hf.
  fold (quality elev). fold (fade_start K elev).
  destruct (Rlt_dec _ (fade_start K elev)); [contradiction |].
  rewrite !float_pow_pos_exp by lra. cbn.
  fold (loss_p K elev dir).
  destruct (Rlt_dec _ (loss_p K elev dir)); [contradiction |].
  fold (ber_p K elev dir). fold (dup_p K elev).
  unfold delivered_dict, Rltb, deref. cbn.
  destruct (Rlt_dec _ (ber_p K elev dir)); destruct (Rlt_dec _ (dup_p K elev)); cbn;
    rewrite ?lookup_insert_eq, ?insert_insert_eq; cbn;
    rewrite ?lookup_insert_eq, ?insert_insert_eq; cbn; rewrite <- ?Hf; reflexivity.
Qed.

(** What every call does, whatever the draws: it returns, takes the
    propagation delay, prints nothing, and either drops the packet and
    leaves the heap alone or allocates the dict it returns. *)
Lemma propagate_total packet elev dir w :
  exists r w',
    propagate K rand packet elev dir w = (Ok r, w') /\
    clock w' = clock w + PROPAGATION_DELAY_S K /\
    trace w' = trace w /\
    match r with
    | None => heap w' = heap w
    | Some out =>
      out = fresh (dom (heap w)) /\
      exists bit_error dup,
        heap w' = <[out := delivered_dict (deref w packet) bit_error dup]> (heap w)
    end.
Proof.
  destruct (_in_fade w) eqn:Hf.
  - rewrite propagate_fading by exact Hf. eauto 10.
  - destruct (Rlt_dec (rand (draws w)) (fade_start K elev)) as [Hi | Hi].
    + rewrite propagate_ignite by assumption. eauto 10.
    + destruct (Rlt_dec (rand (S (draws w))) (loss_p K elev dir)) as [Hl | Hl].
      * rewrite propagate_loss by assumption. eauto 10.
      * rewrite propagate_deliver by assumption. eauto 12.
Qed.

Lemma Rltb_true x y : x < y -> Rltb x y = true.
Proof. intros H. unfold Rltb. destruct (Rlt_dec x y); [reflexivity | contradiction]. Qed.

Lemma Rltb_false x y : ~ x < y -> Rltb x y = false.
Proof. intros H. unfold Rltb. destruct (Rlt_dec x y); [contradiction | reflexivity]. Qed.

(** [propagate] and [channel_step] agree: the call returns what
    [channel_step] rules and leaves the channel it gives; it takes the
    propagation delay, prints nothing, and allocates the delivered copy
    and nothing else. *)
Lemma propagate_channel_step packet elev dir w :
  exists w',
    propagate K rand packet elev dir w =
      (Ok (match fst (channel_step K rand elev dir (channel_of w)) with
           | Dropped => None
           | Delivered _ _ => Some (fresh (dom (heap w)))
           end), w') /\
    channel_of w' = snd (channel_step K rand elev dir (channel_of w)) /\
    clock w' = clock w + PROPAGATION_DELAY_S K /\
    trace w' = trace w /\
    heap w' =
      match fst (channel_step K rand elev dir (channel_of w)) with
      | Dropped => heap w
      | Delivered bit_error dup =>
        <[fresh (dom (heap w)) := delivered_dict (deref w packet) bit_error dup]> (heap w)
      end.
Proof.
  unfold channel_step, channel_of. cbn [ch_in_fade ch_fade_remaining ch_draws].
  destruct (_in_fade w) eqn:Hf.
  - rewrite propagate_fading by exact Hf.
    eexists. split; [reflexivity |]. cbn. auto.
  - destruct (Rlt_dec (rand (draws w)) (fade_start K elev)) as [Hi | Hi].
    + rewrite propagate_ignite by assumption. rewrite (Rltb_true _ _ Hi).
      eexists. split; [reflexivity |]. cbn. auto.
    + rewrite (Rltb_false _ _ Hi).
      destruct (Rlt_dec (rand (S (draws w))) (loss_p K elev dir)) as [Hl | Hl].
      * rewrite propagate_loss by assumption. rewrite (Rltb_true _ _ Hl).
        eexists. split; [reflexivity |]. cbn. auto.
      * rewrite propagate_deliver by assumption. rewrite (Rltb_false _ _ Hl).
        eexists. split; [reflexivity |]. cbn. auto.
Qed.

(** With [BURST_FADE_START_PROB = 1] every draw ignites a fade. *)
Lemma certain_ignition elev u :
  BURST_FADE_START_PROB K = 1 -> u < 1 -> u < fade_start K elev.
Proof.
  intros HK Hu. unfold fade_start. rewrite HK.
  pose proof (quality_range elev). lra.
Qed.

(** A channel in a fade with [r] packets remaining drops the next [j <= r]
    calls without drawing, and is clear again exactly after the [r]-th. *)
Lemma fading_calls packet elev dir (j : nat) : forall (r : Z) w,
  _in_fade w = true -> _fade_remaining w = r -> (1 <= r)%Z -> (Z.of_nat j <= r)%Z ->
  exists w',
    propagate_repeat K rand j packet elev dir w = (Ok (replicate j None), w') /\
    _in_fade w' = (Z.of_nat j <? r)%Z /\
    _fade_remaining w' = (r - Z.of_nat j)%Z /\
    draws w' = draws w /\ heap w' = heap w.
Proof.
  induction j as [| j IH]; intros r w Hf Hr H1 Hj.
  - exists w. cbn. rewrite Hf, Hr. repeat split; try lia.
    symmetry. apply Z.ltb_lt. lia.
  - cbn [propagate_repeat]. unfold bind at 1.
    rewrite propagate_fading by exact Hf. rewrite Hr.
    destruct (Z.leb_spec (r - 1) 0) as [Hle | Hgt].
    + assert (j = 0%nat) by lia. subst j. cbn.
      eexists. split; [reflexivity |]. proj_W.
      repeat split; try lia. symmetry. apply Z.ltb_ge. lia.
    + match goal with |- context [bind _ _ ?w1] => destruct (IH (r - 1)%Z w1) as (w' & Hrun & Hf' & Hr' & Hd' & Hh') end;
        [reflexivity | reflexivity | lia | lia |].
      unfold bind. rewrite Hrun. cbn.
      eexists. split; [reflexivity |].
      rewrite Hf', Hr', Hd', Hh'. proj_W.
      repeat split; try lia.
      destruct (Z.ltb_spec (Z.of_nat j) (r - 1)); destruct (Z.ltb_spec (Z.of_nat (S j)) r);
        try reflexivity; lia.
Qed.

(** One fade, from the draw that ignites it: the igniting call and the
    next [k <= BURST_FADE_LENGTH_PKTS] calls are all dropped. *)
Lemma fade_episode packet elev dir w (k : nat) :
  (1 <= BURST_FADE_LENGTH_PKTS K)%Z ->
  _in_fade w = false ->
  rand (draws w) < fade_start K elev ->
  (Z.of_nat k <= BURST_FADE_LENGTH_PKTS K)%Z ->
  exists w',
    propagate_repeat K rand (S k) packet elev dir w = (Ok (replicate (S k) None), w') /\
    _in_fade w' = (Z.of_nat k <? BURST_FADE_LENGTH_PKTS K)%Z /\
    _fade_remaining w' = (BURST_FADE_LENGTH_PKTS K - Z.of_nat k)%Z /\
    draws w' = S (draws w) /\ heap w' = heap w.
Proof.
  intros HL Hf Hi Hk. cbn [propagate_repeat]. unfold bind at 1.
  rewrite propagate_ignite by assumption.
  match goal with |- context [bind _ _ ?w1] =>
    destruct (fading_calls packet elev dir k (BURST_FADE_LENGTH_PKTS K) w1)
      as (w' & Hrun & Hf' & Hr' & Hd' & Hh') end;
    [reflexivity | reflexivity | lia | lia |].
  unfold bind. rewrite Hrun. cbn.
  eexists. split; [reflexivity |]. auto.
Qed.

End channel_facts.

Section channel_properties.
Local Open Scope R_scope.
Import Scenario.

(** C1, as the code has it: from a clear channel, when the first draw
    ignites a fade (which every draw in [0, 1) does when
    [BURST_FADE_START_PROB = 1]), the igniting call returns DROPPED and so
    does each of the next [BURST_FADE_LENGTH_PKTS] calls, none of which
    draws again; the channel is in the fade before each of them and clear
    only after the last.  One fade thus accounts for exactly
    [BURST_FADE_LENGTH_PKTS + 1] consecutive DROPPED outcomes: with a fade
    length of 3, calls 1 to 4 are dropped and the 5th is the first to get
    past the fade stage. *)
Theorem single_fade_drops (K : Constants) (rand : nat -> R)
    (packet : loc) (elev : R) (dir : string) (w : World) :
  (1 <= BURST_FADE_LENGTH_PKTS K)%Z ->
  _in_fade w = false ->
  (BURST_FADE_START_PROB K = 1 -> rand (draws w) < 1 ->
   rand (draws w) < fade_start K elev) /\
  (rand (draws w) < fade_start K elev ->
   forall k : nat, (Z.of_nat k <= BURST_FADE_LENGTH_PKTS K)%Z ->
   exists w',
     propagate_repeat K rand (S k) packet elev dir w = (Ok (replicate (S k) None), w') /\
     _in_fade w' = (Z.of_nat k <? BURST_FADE_LENGTH_PKTS K)%Z /\
     _fade_remaining w' = (BURST_FADE_LENGTH_PKTS K - Z.of_nat k)%Z /\
     draws w' = S (draws w) /\
     heap w' = heap w).
Proof.
  intros HL Hf. split.
  - apply certain_ignition.
  - intros Hi k Hk. apply fade_episode; assumption.
Qed.

Lemma single_fade_drops_witness :
  exists w',
    propagate_repeat S4_constants half 4 1%positive 45 "downlink" debug_world =
      (Ok [None; None; None; None], w') /\
    _in_fade w' = false /\
    _fade_remaining w' = 0%Z /\
    draws w' = 1%nat /\
    heap w' = heap debug_world.
Proof.
  assert (H1 : (1 <= BURST_FADE_LENGTH_PKTS S4_constants)%Z) by (cbn; lia).
  destruct (single_fade_drops S4_constants half 1%positive 45 "downlink" debug_world
              H1 eq_refl) as [Hc Hrun].
  apply (Hrun (Hc eq_refl ltac:(unfold half; lra)) 3%nat). cbn. lia.
Defined.

(** C1 fails as stated: with [BURST_FADE_START_PROB = 1.0] and a fade
    length of 3, the channel is still in the fade when the 4th call
    arrives, and that call returns DROPPED without a draw of its own. *)
Lemma fourth_call_dropped_in_fade :
  exists w3 w4,
    propagate_repeat S4_constants half 3 1%positive 45 "downlink" debug_world =
      (Ok [None; None; None], w3) /\
    _in_fade w3 = true /\
    propagate S4_constants half 1%positive 45 "downlink" w3 = (Ok None, w4) /\
    draws w4 = 1%nat.
Proof.
  destruct (fade_episode S4_constants half 1%positive 45 "downlink" debug_world 2)
    as (w3 & Hrun & Hf & Hr & Hd & Hh).
  - cbn. lia.
  - reflexivity.
  - apply certain_ignition; [reflexivity | unfold half; lra].
  - cbn. lia.
  - exists w3. eexists. split; [exact Hrun |]. split; [exact Hf |].
    rewrite propagate_fading by exact Hf. split; [reflexivity |]. exact Hd.
Qed.

(** A channel whose four base probabilities are 0 delivers every packet
    it is given while clear. *)
Lemma quiet_channel_delivers (K : Constants) (rand : nat -> R)
    (packet : loc) (elev : R) (dir : string) (w : World) :
  BASE_PACKET_LOSS K = 0 -> BASE_BIT_ERROR K = 0 -> BASE_DUPLICATE K = 0 ->
  BURST_FADE_START_PROB K = 0 ->
  (forall i, 0 <= rand i < 1) ->
  _in_fade w = false ->
  propagate K rand packet elev dir w =
  (Ok (Some (fresh (dom (heap w)))),
   {| heap := <[fresh (dom (heap w)) := delivered_dict (deref w packet) false false]> (heap w);
      _in_fade := false;
      _fade_remaining := _fade_remaining w;
      draws := S (S (S (S (draws w))));
      clock := clock w + PROPAGATION_DELAY_S K;
      trace := trace w |}).
Proof.
  intros HL HB HD HS Hr Hf.
  assert (Hfs : fade_start K elev = 0) by (unfold fade_start; rewrite HS; lra).
  assert (Hlp : loss_p K elev dir = 0)
    by (unfold loss_p; rewrite HL; destruct (is_uplink dir); lra).
  assert (Hbp : ber_p K elev dir = 0)
    by (unfold ber_p; rewrite HB; destruct (is_uplink dir); lra).
  assert (Hdp : dup_p K elev = 0) by (unfold dup_p; rewrite HD; lra).
  rewrite propagate_deliver; try assumption.
  - rewrite Hbp, Hdp. unfold Rltb.
    destruct (Rlt_dec (rand (S (S (draws w)))) 0) as [Hlt | _];
      [pose proof (Hr (S (S (draws w)))); lra |].
    destruct (Rlt_dec (rand (S (S (S (draws w))))) 0) as [Hlt | _];
      [pose proof (Hr (S (S (S (draws w))))); lra |].
    reflexivity.
  - rewrite Hfs. pose proof (Hr (draws w)). lra.
  - rewrite Hlp. pose proof (Hr (S (draws w))). lra.
Qed.

Lemma deref_insert_eq (w : World) (h : gmap loc (gmap string pyval)) out d :
  heap w = <[out := d]> h -> deref w out = d.
Proof. intros Hh. unfold deref. rewrite Hh, lookup_insert_eq. reflexivity. Qed.

(** C2, as the code has it: with the four base probabilities 0 and the
    channel clear, [propagate] returns, after the propagation delay, a
    new dict equal to its input except that ["corrupted"] holds the truth
    value of the input's (False when absent) and ["duplicated"] is False;
    every other key is as in the input, and the result equals the input
    when the input already carries a boolean ["corrupted"] and
    ["duplicated"] False. *)
Theorem quiet_channel_copies_packet (K : Constants) (rand : nat -> R)
    (packet : loc) (elev : R) (dir : string) (w : World) :
  BASE_PACKET_LOSS K = 0 -> BASE_BIT_ERROR K = 0 -> BASE_DUPLICATE K = 0 ->
  BURST_FADE_START_PROB K = 0 ->
  (forall i, 0 <= rand i < 1) ->
  _in_fade w = false ->
  exists out w',
    propagate K rand packet elev dir w = (Ok (Some out), w') /\
    deref w' out =
      <["duplicated" := VBool false]>
        (<["corrupted" := VBool (truthy (default (VBool false) (deref w packet !! "corrupted")))]>
           (deref w packet)) /\
    (forall k : string, k <> "corrupted" -> k <> "duplicated" ->
       deref w' out !! k = deref w packet !! k) /\
    (forall b : bool,
       deref w packet !! "corrupted" = Some (VBool b) ->
       deref w packet !! "duplicated" = Some (VBool false) ->
       deref w' out = deref w packet) /\
    clock w' = clock w + PROPAGATION_DELAY_S K /\
    _in_fade w' = false.
Proof.
  intros HL HB HD HS Hr Hf.
  rewrite quiet_channel_delivers by assumption.
  do 2 eexists. split; [reflexivity |].
  erewrite deref_insert_eq by (proj_W; reflexivity).
  unfold delivered_dict.
  split; [reflexivity |]. split; [| split; [| split; reflexivity]].
  - intros k Hc Hd'. rewrite !lookup_insert_ne by congruence. reflexivity.
  - intros b Hc Hd'. rewrite Hc. cbn.
    rewrite (insert_id (deref w packet) "corrupted") by exact Hc.
    apply insert_id. exact Hd'.
Qed.

Lemma half_range : forall i : nat, 0 <= half i < 1.
Proof. intros i. unfold half. lra. Qed.

Lemma quiet_channel_copies_packet_witness :
  exists out w',
    propagate quiet_constants half 1%positive 45 "downlink" debug_world = (Ok (Some out), w') /\
    deref w' out =
      <["duplicated" := VBool false]>
        (<["corrupted" :=
             VBool (truthy (default (VBool false) (deref debug_world 1%positive !! "corrupted")))]>
           (deref debug_world 1%positive)) /\
    (forall k : string, k <> "corrupted" -> k <> "duplicated" ->
       deref w' out !! k = deref debug_world 1%positive !! k) /\
    (forall b : bool,
       deref debug_world 1%positive !! "corrupted" = Some (VBool b) ->
       deref debug_world 1%positive !! "duplicated" = Some (VBool false) ->
       deref w' out = deref debug_world 1%positive) /\
    clock w' = clock debug_world + PROPAGATION_DELAY_S quiet_constants /\
    _in_fade w' = false.
Proof.
  apply (quiet_channel_copies_packet quiet_constants half 1%positive 45 "downlink" debug_world);
    try reflexivity.
  apply half_range.
Defined.

Lemma deref_debug_world : deref debug_world 1%positive = debug_pkt.
Proof. unfold deref, debug_world. proj_W. rewrite lookup_insert_eq. reflexivity. Qed.

(** C2 fails as stated: on a channel with the four base probabilities 0,
    the packet of the debug loop, [{"seq": 1, "corrupted": False}], comes
    back with a key ["duplicated"] that the input does not have. *)
Lemma quiet_channel_not_identity :
  exists out w',
    propagate quiet_constants half 1%positive 45 "downlink" debug_world = (Ok (Some out), w') /\
    deref w' out !! "duplicated" = Some (VBool false) /\
    deref debug_world 1%positive !! "duplicated" = None /\
    deref w' out <> deref debug_world 1%positive.
Proof.
  rewrite quiet_channel_delivers; try reflexivity; [| apply half_range].
  do 2 eexists. split; [reflexivity |].
  erewrite deref_insert_eq by (proj_W; reflexivity).
  assert (H1 : delivered_dict (deref debug_world 1%positive) false false !! "duplicated"
               = Some (VBool false))
    by (unfold delivered_dict; apply lookup_insert_eq).
  assert (H2 : deref debug_world 1%positive !! "duplicated" = None)
    by (rewrite deref_debug_world; vm_compute; reflexivity).
  split; [exact H1 |]. split; [exact H2 |].
  intros Heq. rewrite Heq, H2 in H1. discriminate.
Qed.

(** C9: [propagate] never mutates the dict it is given.  Whatever the
    outcome, every object of the caller's heap, the packet included, is
    left as it was; a dropped packet leaves the heap unchanged, and a
    delivered one is a dict allocated by the call, distinct from the
    packet, which alone receives ["corrupted"], ["rf_note"] and
    ["duplicated"]. *)
Theorem propagate_leaves_packet (K : Constants) (rand : nat -> R)
    (packet : loc) (elev : R) (dir : string) (w : World) :
  is_Some (heap w !! packet) ->
  exists r w',
    propagate K rand packet elev dir w = (Ok r, w') /\
    (forall l, is_Some (heap w !! l) -> heap w' !! l = heap w !! l) /\
    deref w' packet = deref w packet /\
    match r with
    | None => heap w' = heap w
    | Some out =>
      heap w !! out = None /\ out <> packet /\
      exists bit_error dup,
        heap w' = <[out := delivered_dict (deref w packet) bit_error dup]> (heap w)
    end.
Proof.
  intros Hp.
  destruct (propagate_total K rand packet elev dir w) as (r & w' & Hrun & _ & _ & Hr).
  exists r, w'. split; [exact Hrun |].
  destruct r as [out |].
  - destruct Hr as (Hout & be & dup & Hh).
    assert (Hfresh : heap w !! out = None).
    { apply not_elem_of_dom. rewrite Hout. apply is_fresh. }
    assert (Hne : out <> packet).
    { intros ->. rewrite Hfresh in Hp. destruct Hp as [? Hp]. discriminate. }
    split; [| split; [| eauto]].
    + intros l Hl. rewrite Hh. apply lookup_insert_ne.
      intros ->. rewrite Hfresh in Hl. destruct Hl as [? Hl]. discriminate.
    + unfold deref. rewrite Hh, lookup_insert_ne by exact Hne. reflexivity.
  - split; [| split; [| exact Hr]].
    + intros l _. rewrite Hr. reflexivity.
    + unfold deref. rewrite Hr. reflexivity.
Qed.

Lemma propagate_leaves_packet_witness :
  exists r w',
    propagate source_constants half 1%positive 45 "downlink" debug_world = (Ok r, w') /\
    (forall l, is_Some (heap debug_world !! l) -> heap w' !! l = heap debug_world !! l) /\
    deref w' 1%positive = deref debug_world 1%positive /\
    match r with
    | None => heap w' = heap debug_world
    | Some out =>
      heap debug_world !! out = None /\ out <> 1%positive /\
      exists bit_error dup,
        heap w' =
        <[out := delivered_dict (deref debug_world 1%positive) bit_error dup]> (heap debug_world)
    end.
Proof.
  apply (propagate_leaves_packet source_constants half 1%positive 45 "downlink" debug_world).
  unfold debug_world. proj_W. rewrite lookup_insert_eq. eauto.
Defined.

End channel_properties.

(** ** The default orbit never raises *)

Section default_orbit_facts.
Local Open Scope R_scope.

Lemma data_rate_mbps_default e m k :
  exists r, data_rate_mbps e m DEFAULT_RATE_ALPHA k = Ok r /\ (0 <= m -> 0 <= r).
Proof.
  unfold data_rate_mbps. destruct (Rle_dec e k).
  - exists 0. split; [reflexivity | lra].
  - destruct (float_pow_total (clamp01 (sin (radians e))) DEFAULT_RATE_ALPHA) as (p & -> & Hp);
      [apply clamp01_range | unfold DEFAULT_RATE_ALPHA; lra |].
    eexists. split; [reflexivity | nra].
Qed.

Lemma default_orbit_total skyfield now :
  exists st,
    get_state (DEFAULT_ORBIT skyfield) now = Ok st /\
    elev_deg st = fst (backend_state (DEFAULT_ORBIT skyfield) now) /\
    (visible st = true <-> 10 < elev_deg st) /\
    0 <= rate_dl_mbps st.
Proof.
  unfold get_state. destruct (backend_state (DEFAULT_ORBIT skyfield) now) as [e d].
  cbn [DEFAULT_ORBIT cfg default_config elev_mask_deg dl_max_rate_mbps ul_max_rate_mbps
       rate_alpha].
  destruct (data_rate_mbps_default e DEFAULT_DL_MAX_RATE_Mbps DEFAULT_ELEV_MASK_DEG)
    as (rd & -> & Hrd).
  destruct (data_rate_mbps_default e DEFAULT_UL_MAX_RATE_Mbps DEFAULT_ELEV_MASK_DEG)
    as (ru & -> & Hru).
  eexists. split; [reflexivity |]. cbn.
  split; [reflexivity |]. split.
  - unfold DEFAULT_ELEV_MASK_DEG. destruct (Rgt_dec e 10); split; intros; try lra; congruence.
  - apply Hrd. unfold DEFAULT_DL_MAX_RATE_Mbps. lra.
Qed.

Lemma get_state_now_default skyfield w :
  exists st,
    get_state_now (DEFAULT_ORBIT skyfield) w = (Ok st, w) /\
    get_state (DEFAULT_ORBIT skyfield) (clock w) = Ok st /\
    elev_deg st = elevation_now skyfield w /\
    (visible st = true <-> 10 < elevation_now skyfield w) /\
    0 <= rate_dl_mbps st.
Proof.
  destruct (default_orbit_total skyfield (clock w)) as (st & Hst & He & Hv & Hr).
  exists st. unfold get_state_now. run_M. rewrite Hst.
  unfold elevation_now. rewrite <- He. auto.
Qed.

Lemma is_visible_now_default skyfield w :
  exists vis,
    bbu_leo.is_visible_now skyfield w = (Ok vis, w) /\
    (vis = true <-> 10 < elevation_now skyfield w).
Proof.
  destruct (get_state_now_default skyfield w) as (st & _ & Hst & _ & Hv & _).
  exists (visible st). unfold bbu_leo.is_visible_now, is_visible. run_M.
  rewrite Hst. auto.
Qed.

End default_orbit_facts.

(** ** The TM ingress of the BBU *)

Section tm_ingress.
Import bbu_leo.

Variable skyfield : option (R -> R * R).

Lemma length_last_n {A} (n : nat) (l : list A) : (length (last_n n l) <= n)%nat.
Proof. unfold last_n. rewrite length_drop. lia. Qed.

Lemma last_last_n {A} (n : nat) (l : list A) : (0 < n)%nat -> last (last_n n l) = last l.
Proof.
  intros Hn. unfold last_n. rewrite !last_lookup, length_drop, lookup_drop.
  destruct (decide (length l = 0%nat)) as [Hz | Hz].
  - apply length_zero_iff_nil in Hz. subst l. reflexivity.
  - f_equal. lia.
Qed.

(** The buffer a Python list becomes after [append] and truncation to its
    [cap] most recent entries. *)
Lemma capped_append (cap : nat) (l : list string) (raw : string) :
  (0 < cap)%nat ->
  let l' := if (cap <? length (l ++ [raw]))%nat then last_n cap (l ++ [raw]) else l ++ [raw] in
  (length l' <= cap)%nat /\ last l' = Some raw.
Proof.
  intros Hcap. cbn zeta.
  destruct (Nat.ltb_spec cap (length (l ++ [raw]))).
  - split; [apply length_last_n |]. rewrite last_last_n by exact Hcap. apply last_snoc.
  - split; [lia | apply last_snoc].
Qed.

Lemma tm_receiver_step_spec (raw : string) (g : Globals) (w : World) :
  exists vis g' w',
    is_visible_now skyfield w = (Ok vis, w) /\
    tm_receiver_step skyfield raw g w = (Ok g', w') /\
    (length (telemetry_history g') <= 5000)%nat /\
    last (telemetry_history g') = Some raw /\
    (if vis then (length (telemetry_live g') <= 2000)%nat /\ last (telemetry_live g') = Some raw
     else telemetry_live g' = telemetry_live g) /\
    telecommand_queue g' = telecommand_queue g /\
    clock w' = clock w.
Proof.
  destruct (is_visible_now_default skyfield w) as (vis & Hvis & _).
  exists vis. unfold tm_receiver_step. unfold bind at 1. rewrite Hvis.
  pose proof (capped_append 5000 (telemetry_history g) raw ltac:(lia)) as [Hh1 Hh2].
  pose proof (capped_append 2000 (telemetry_live g) raw ltac:(lia)) as [Hl1 Hl2].
  cbn zeta in Hh1, Hh2, Hl1, Hl2.
  destruct vis; run_M; cbn [telemetry_live telemetry_history telecommand_queue];
    do 2 eexists; (split; [reflexivity |]); (split; [reflexivity |]);
    cbn [telemetry_live telemetry_history telecommand_queue clock]; auto 10.
Qed.

Lemma tm_receiver_step_caps (raw : string) (g : Globals) (w : World) :
  within_caps g ->
  exists g' w', tm_receiver_step skyfield raw g w = (Ok g', w') /\ within_caps g'.
Proof.
  intros [Hl Hh].
  destruct (tm_receiver_step_spec raw g w) as (vis & g' & w' & _ & Hrun & Hh' & _ & Hl' & _).
  exists g', w'. split; [exact Hrun |]. split; [| exact Hh'].
  destruct vis; [apply Hl' | rewrite Hl'; exact Hl].
Qed.

Lemma tm_receiver_run_caps (arrivals : list (R * string)) : forall (g : Globals) (w : World),
  within_caps g ->
  exists g' w', tm_receiver_run skyfield arrivals g w = (Ok g', w') /\ within_caps g'.
Proof.
  induction arrivals as [| [wait raw] arrivals IH]; intros g w Hg.
  - exists g, w. split; [reflexivity | exact Hg].
  - cbn [tm_receiver_run]. unfold bind at 1, sleep, modify.
    match goal with |- context [bind _ _ ?w1] =>
      destruct (tm_receiver_step_caps raw g w1 Hg) as (g1 & w2 & Hstep & Hg1) end.
    unfold bind at 1. rewrite Hstep. apply IH. exact Hg1.
Qed.

End tm_ingress.


(** ** The uplink: TC sender of the BBU, TC executor of the spacecraft *)

Section uplink_facts.
Local Open Scope R_scope.
Import bbu_leo.

Variable K : Constants.
Variable rand : nat -> R.
Variable skyfield : option (R -> R * R).

Lemma sent_app (tr1 tr2 : list event) : sent (tr1 ++ tr2) = sent tr1 ++ sent tr2.
Proof. apply omap_app. Qed.

Lemma sent_snoc_print (tr : list event) (msg : string) : sent (tr ++ [EPrint msg]) = sent tr.
Proof. unfold sent. rewrite omap_app. cbn. apply app_nil_r. Qed.

Lemma sent_snoc_sendto (tr : list event) payload ip port :
  sent (tr ++ [ESendTo payload ip port]) = sent tr ++ [payload].
Proof. unfold sent. rewrite omap_app. reflexivity. Qed.

Lemma tc_sender_step_idle (g : Globals) (w : World) :
  telecommand_queue g = [] ->
  tc_sender_step K rand skyfield g w = (Ok g, set_clock (clock w + 2 / 10) w).
Proof. intros Hq. unfold tc_sender_step. rewrite Hq. reflexivity. Qed.

Lemma tc_sender_step_waiting (g : Globals) (w : World) (tc : string) (rest : list string) :
  telecommand_queue g = tc :: rest ->
  ~ 10 < elevation_now skyfield w ->
  exists w',
    tc_sender_step K rand skyfield g w = (Ok g, w') /\
    trace w' = trace w ++ [EPrint "[BBU] TC queued, waiting visibility"].
Proof.
  intros Hq Hvis.
  destruct (get_state_now_default skyfield w) as (st & Hnow & _ & _ & Hv & _).
  assert (Hinv : visible st = false) by (destruct (visible st); [tauto | reflexivity]).
  unfold tc_sender_step. rewrite Hq. unfold bind at 1. rewrite Hnow, Hinv. cbn [negb].
  run_M. eexists. split; reflexivity.
Qed.

(** A visible iteration dequeues the head command and lets the channel
    decide: a DROPPED verdict is logged and nothing is sent; otherwise the
    command itself is sent to the spacecraft, after a log line when the
    verdict is corrupted. *)
Lemma tc_sender_step_visible (g : Globals) (w : World) (tc : string) (rest : list string) :
  telecommand_queue g = tc :: rest ->
  10 < elevation_now skyfield w ->
  exists verdict w2 w',
    propagate K rand (fresh (dom (heap w))) (elevation_now skyfield w) "uplink"
              (with_tc_packet tc w) = (Ok verdict, w2) /\
    tc_sender_step K rand skyfield g w = (Ok (with_queue g rest), w') /\
    trace w' = trace w ++
      match verdict with
      | None => [EPrint ("[BBU] TC DROP (RF): " +:+ tc)]
      | Some out =>
        (if truthy (dict_get (deref w2 out) "corrupted")
         then [EPrint ("[BBU] TC CORRUPTED -> still sent (channel effect): " +:+ tc)]
         else []) ++
        [ESendTo (DText tc) SAT_IP SAT_TC_PORT;
         EPrint ("[BBU] TC SENT to satellite: " +:+ tc)]
      end.
Proof.
  intros Hq Hvis.
  destruct (get_state_now_default skyfield w) as (st & Hnow & _ & He & Hv & _).
  apply Hv in Hvis.
  destruct (propagate_total K rand (fresh (dom (heap w))) (elevation_now skyfield w) "uplink"
              (with_tc_packet tc w)) as (verdict & w2 & Hrun & _ & Htr & _).
  exists verdict, w2.
  unfold tc_sender_step. rewrite Hq. unfold bind at 1. rewrite Hnow, Hvis. cbn [negb].
  unfold bind at 1, time, gets. unfold bind at 1, new_dict.
  unfold bind at 1. rewrite He.
  change (set_heap _ w) with (with_tc_packet tc w).
  rewrite Hrun.
  assert (Htr' : trace w2 = trace w) by (rewrite Htr; reflexivity).
  destruct verdict as [out |].
  - run_M. destruct (truthy (dict_get (deref w2 out) "corrupted")) eqn:Hc;
      (eexists; split; [reflexivity |]; split; [reflexivity |]);
      repeat proj_W; rewrite Htr', <- ?app_assoc; reflexivity.
  - run_M. eexists. split; [reflexivity |]. split; [reflexivity |].
    proj_W. rewrite Htr'. reflexivity.
Qed.

(** What any iteration of [tc_sender] sends: nothing, or the command it
    took from the head of the queue. *)
Lemma tc_sender_step_sends (g : Globals) (w : World) :
  exists g' w' (s : list string),
    tc_sender_step K rand skyfield g w = (Ok g', w') /\
    sent (trace w') = sent (trace w) ++ map DText s /\
    ((s = [] /\ telecommand_queue g' = telecommand_queue g) \/
     (exists tc, telecommand_queue g = tc :: telecommand_queue g' /\ (s = [] \/ s = [tc]))).
Proof.
  destruct (telecommand_queue g) as [| tc rest] eqn:Hq.
  - exists g, (set_clock (clock w + 2 / 10) w), [].
    rewrite tc_sender_step_idle by exact Hq. cbn. rewrite app_nil_r. auto.
  - destruct (Rlt_dec 10 (elevation_now skyfield w)) as [Hvis | Hvis].
    + destruct (tc_sender_step_visible g w tc rest Hq Hvis)
        as (verdict & w2 & w' & _ & Hstep & Htr).
      destruct verdict as [out |].
      * exists (with_queue g rest), w', [tc]. split; [exact Hstep |]. split.
        -- rewrite Htr, sent_app. f_equal. destruct (truthy _); reflexivity.
        -- right. exists tc. cbn. auto.
      * exists (with_queue g rest), w', []. split; [exact Hstep |]. split.
        -- rewrite Htr, sent_snoc_print. cbn. rewrite app_nil_r. reflexivity.
        -- right. exists tc. cbn. auto.
    + destruct (tc_sender_step_waiting g w tc rest Hq Hvis) as (w' & Hstep & Htr).
      exists g, w', []. split; [exact Hstep |]. split.
      * rewrite Htr, sent_snoc_print. cbn. rewrite app_nil_r. reflexivity.
      * left. auto.
Qed.

Lemma tc_enqueue_spec (tc : string) (g : Globals) (w : World) :
  exists g' w',
    tc_enqueue tc g w = (Ok g', w') /\
    sent (trace w') = sent (trace w) /\
    telecommand_queue g' = telecommand_queue g ++ from_web [FromWeb tc].
Proof.
  unfold tc_enqueue, from_web. cbn [omap list_omap].
  destruct (String.eqb tc "").
  - exists g, w. cbn. rewrite app_nil_r. auto.
  - run_M. do 2 eexists. split; [reflexivity |]. proj_W.
    rewrite sent_snoc_print. auto.
Qed.

(** Over any interleaving of arrivals from the Web and sender iterations,
    what is sent is drawn, in order, from the commands queued at the start
    and those that arrive. *)
Lemma uplink_run_sends (actions : list uplink_action) : forall (g : Globals) (w : World),
  exists g' w' (s : list string),
    uplink_run K rand skyfield actions g w = (Ok g', w') /\
    sent (trace w') = sent (trace w) ++ map DText s /\
    s `sublist_of` telecommand_queue g ++ from_web actions.
Proof.
  induction actions as [| a actions IH]; intros g w.
  - exists g, w, []. cbn. rewrite app_nil_r. split; [reflexivity |].
    split; [reflexivity | apply sublist_nil_l].
  - destruct a as [tc |]; cbn [uplink_run]; unfold bind.
    + destruct (tc_enqueue_spec tc g w) as (g1 & w1 & -> & Hs1 & Hq1).
      destruct (IH g1 w1) as (g' & w' & s & Hrun & Hs & Hsub).
      exists g', w', s. split; [exact Hrun |]. split; [congruence |].
      rewrite Hq1, <- app_assoc in Hsub.
      replace (from_web (FromWeb tc :: actions))
        with (from_web [FromWeb tc] ++ from_web actions); [exact Hsub |].
      unfold from_web. cbn [omap list_omap]. destruct (String.eqb tc ""); reflexivity.
    + destruct (tc_sender_step_sends g w) as (g1 & w1 & s0 & -> & Hs0 & Hq0).
      destruct (IH g1 w1) as (g' & w' & s & Hrun & Hs & Hsub).
      exists g', w', (s0 ++ s). split; [exact Hrun |]. split.
      * rewrite Hs, Hs0, map_app, app_assoc. reflexivity.
      * change (from_web (SenderStep :: actions)) with (from_web actions).
        destruct Hq0 as [[-> Hq] | (tc & Hq & [-> | ->])];
          [rewrite Hq in Hsub | rewrite Hq ..]; cbn [app].
        -- exact Hsub.
        -- apply sublist_cons. exact Hsub.
        -- apply sublist_skip. exact Hsub.
Qed.

End uplink_facts.

Section executor_facts.
Local Open Scope R_scope.

Variable K : Constants.
Variable rand : nat -> R.
Variable skyfield : option (R -> R * R).

(** A visible iteration of the executor dequeues the head command and
    runs it only when the channel delivers it uncorrupted. *)
Lemma telecommand_executor_step_visible (w : World) (cmd : string) (rest : list string) :
  10 < elevation_now skyfield w ->
  exists verdict w2 w',
    propagate K rand (fresh (dom (heap w))) (elevation_now skyfield w) "uplink"
              (with_tc_packet cmd w) = (Ok verdict, w2) /\
    telecommand_executor_step K rand skyfield (cmd :: rest) w = (Ok rest, w') /\
    trace w' = trace w ++
      [EPrint (match verdict with
               | None => "[SAT] TC LOST (RF): " +:+ cmd
               | Some out =>
                 if truthy (dict_get (deref w2 out) "corrupted")
                 then "[SAT] TC CORRUPTED -> ignored: " +:+ cmd
                 else "[SAT] TC EXECUTED: " +:+ cmd
               end)].
Proof.
  intros Hvis.
  destruct (get_state_now_default skyfield w) as (st & Hnow & _ & He & Hv & _).
  apply Hv in Hvis.
  destruct (propagate_total K rand (fresh (dom (heap w))) (elevation_now skyfield w) "uplink"
              (with_tc_packet cmd w)) as (verdict & w2 & Hrun & _ & Htr & _).
  exists verdict, w2.
  unfold telecommand_executor_step. unfold bind at 1. rewrite Hnow, Hvis. cbn [negb _dequeue_tc].
  unfold bind at 1, time, gets. unfold bind at 1, new_dict.
  unfold bind at 1. rewrite He.
  change (set_heap _ w) with (with_tc_packet cmd w).
  rewrite Hrun.
  assert (Htr' : trace w2 = trace w) by (rewrite Htr; reflexivity).
  destruct verdict as [out |].
  - run_M. destruct (truthy (dict_get (deref w2 out) "corrupted")) eqn:Hc;
      (eexists; split; [reflexivity |]; split; [reflexivity |]);
      proj_W; rewrite Htr'; reflexivity.
  - run_M. eexists. split; [reflexivity |]. split; [reflexivity |].
    proj_W. rewrite Htr'. reflexivity.
Qed.

End executor_facts.

Section transport_properties.
Local Open Scope R_scope.
Import Scenario.

(** C8: the TM ingress keeps the buffers within their caps.  On every
    received datagram the frame is appended to [telemetry_history], and
    to [telemetry_live] exactly when the spacecraft is visible, so a frame
    appended to [live] is also appended to [history]; if the buffers held
    at most 2000 and 5000 frames before, they do after; and from the empty
    buffers of a starting process no sequence of arrivals ever exceeds the
    caps. *)
Theorem tm_ingress_keeps_caps (skyfield : option (R -> R * R)) :
  (forall (raw : string) (g : bbu_leo.Globals) (w : World),
     within_caps g ->
     exists vis g' w',
       bbu_leo.is_visible_now skyfield w = (Ok vis, w) /\
       bbu_leo.tm_receiver_step skyfield raw g w = (Ok g', w') /\
       within_caps g' /\
       last (bbu_leo.telemetry_history g') = Some raw /\
       (vis = true -> last (bbu_leo.telemetry_live g') = Some raw) /\
       (vis = false -> bbu_leo.telemetry_live g' = bbu_leo.telemetry_live g)) /\
  (forall (arrivals : list (R * string)) (w : World),
     exists g' w',
       bbu_leo.tm_receiver_run skyfield arrivals bbu_leo.initial w = (Ok g', w') /\
       within_caps g').
Proof.
  split.
  - intros raw g w [Hl Hh].
    destruct (tm_receiver_step_spec skyfield raw g w)
      as (vis & g' & w' & Hvis & Hrun & Hh' & Hlast & Hl' & _).
    exists vis, g', w'. split; [exact Hvis |]. split; [exact Hrun |].
    destruct vis.
    + destruct Hl' as [Hl1 Hl2]. split; [split; assumption |]. split; [exact Hlast |].
      split; [auto | discriminate].
    + split; [split; [rewrite Hl'; exact Hl | exact Hh'] |]. split; [exact Hlast |].
      split; [discriminate | auto].
  - intros arrivals w. apply tm_receiver_run_caps. split; cbn; lia.
Qed.

Lemma tm_ingress_keeps_caps_witness :
  exists vis g' w',
    bbu_leo.is_visible_now None (boot 0) = (Ok vis, boot 0) /\
    bbu_leo.tm_receiver_step None "tm" bbu_leo.initial (boot 0) = (Ok g', w') /\
    within_caps g' /\
    last (bbu_leo.telemetry_history g') = Some "tm" /\
    (vis = true -> last (bbu_leo.telemetry_live g') = Some "tm") /\
    (vis = false -> bbu_leo.telemetry_live g' = bbu_leo.telemetry_live bbu_leo.initial).
Proof.
  apply (proj1 (tm_ingress_keeps_caps None) "tm" bbu_leo.initial (boot 0)).
  split; cbn; lia.
Defined.

(** C3, as the code has it: on the BBU uplink the channel's result
    decides what is logged and whether the send happens; it never alters
    what is sent.  For every dequeued command, a DROPPED verdict is
    logged and the send is skipped, so nothing is sent; any other verdict
    sends the command itself to the SAT TC port, after a log line when
    the verdict is corrupted.  On the spacecraft the executor applies the
    channel again to every command it dequeues, and that verdict decides:
    the command is executed exactly when it is delivered uncorrupted
    there, lost when DROPPED, ignored when corrupted. *)
Theorem uplink_channel_verdicts (K : Constants)
    (rand_bbu rand_sat : nat -> R) (sky_bbu sky_sat : option (R -> R * R))
    (g : bbu_leo.Globals) (w : World) (tc : string) (rest : list string)
    (ws : World) (cmd : string) (queue : list string) :
  bbu_leo.telecommand_queue g = tc :: rest ->
  10 < elevation_now sky_bbu w ->
  10 < elevation_now sky_sat ws ->
  (exists verdict w2 w',
     propagate K rand_bbu (fresh (dom (heap w))) (elevation_now sky_bbu w) "uplink"
               (with_tc_packet tc w) = (Ok verdict, w2) /\
     bbu_leo.tc_sender_step K rand_bbu sky_bbu g w = (Ok (with_queue g rest), w') /\
     trace w' = trace w ++
       match verdict with
       | None => [EPrint ("[BBU] TC DROP (RF): " +:+ tc)]
       | Some out =>
         (if truthy (dict_get (deref w2 out) "corrupted")
          then [EPrint ("[BBU] TC CORRUPTED -> still sent (channel effect): " +:+ tc)]
          else []) ++
         [ESendTo (DText tc) bbu_leo.SAT_IP bbu_leo.SAT_TC_PORT;
          EPrint ("[BBU] TC SENT to satellite: " +:+ tc)]
       end /\
     sent (trace w') = sent (trace w) ++
       match verdict with
       | None => []
       | Some _ => [DText tc]
       end) /\
  (exists verdict w2 w',
     propagate K rand_sat (fresh (dom (heap ws))) (elevation_now sky_sat ws) "uplink"
               (with_tc_packet cmd ws) = (Ok verdict, w2) /\
     telecommand_executor_step K rand_sat sky_sat (cmd :: queue) ws = (Ok queue, w') /\
     trace w' = trace ws ++
       [EPrint (match verdict with
                | None => "[SAT] TC LOST (RF): " +:+ cmd
                | Some out =>
                  if truthy (dict_get (deref w2 out) "corrupted")
                  then "[SAT] TC CORRUPTED -> ignored: " +:+ cmd
                  else "[SAT] TC EXECUTED: " +:+ cmd
                end)]).
Proof.
  intros Hq Hvis Hvis'. split.
  - destruct (tc_sender_step_visible K rand_bbu sky_bbu g w tc rest Hq Hvis)
      as (verdict & w2 & w' & Hrun & Hstep & Htr).
    exists verdict, w2, w'. split; [exact Hrun |]. split; [exact Hstep |].
    split; [exact Htr |].
    rewrite Htr, sent_app. f_equal.
    destruct verdict as [out |]; [| reflexivity].
    destruct (truthy (dict_get (deref w2 out) "corrupted")); reflexivity.
  - apply telecommand_executor_step_visible; assumption.
Qed.

Lemma fixed_elevation_now (e : R) (w : World) : elevation_now (fixed_elevation e) w = e.
Proof. reflexivity. Qed.

Lemma uplink_channel_verdicts_witness :
  let g := with_queue bbu_leo.initial ["PING"] in
  (exists verdict w2 w',
     propagate source_constants half (fresh (dom (heap (boot 0))))
               (elevation_now (fixed_elevation 45) (boot 0)) "uplink"
               (with_tc_packet "PING" (boot 0)) = (Ok verdict, w2) /\
     bbu_leo.tc_sender_step source_constants half (fixed_elevation 45) g (boot 0)
       = (Ok (with_queue g []), w') /\
     trace w' = trace (boot 0) ++
       match verdict with
       | None => [EPrint ("[BBU] TC DROP (RF): " +:+ "PING")]
       | Some out =>
         (if truthy (dict_get (deref w2 out) "corrupted")
          then [EPrint ("[BBU] TC CORRUPTED -> still sent (channel effect): " +:+ "PING")]
          else []) ++
         [ESendTo (DText "PING") bbu_leo.SAT_IP bbu_leo.SAT_TC_PORT;
          EPrint ("[BBU] TC SENT to satellite: " +:+ "PING")]
       end /\
     sent (trace w') = sent (trace (boot 0)) ++
       match verdict with
       | None => []
       | Some _ => [DText "PING"]
       end) /\
  (exists verdict w2 w',
     propagate source_constants half (fresh (dom (heap (boot 0))))
               (elevation_now (fixed_elevation 45) (boot 0)) "uplink"
               (with_tc_packet "PING" (boot 0)) = (Ok verdict, w2) /\
     telecommand_executor_step source_constants half (fixed_elevation 45) ("PING" :: []) (boot 0)
       = (Ok [], w') /\
     trace w' = trace (boot 0) ++
       [EPrint (match verdict with
                | None => "[SAT] TC LOST (RF): " +:+ "PING"
                | Some out =>
                  if truthy (dict_get (deref w2 out) "corrupted")
                  then "[SAT] TC CORRUPTED -> ignored: " +:+ "PING"
                  else "[SAT] TC EXECUTED: " +:+ "PING"
                end)]).
Proof.
  intros g.
  apply (uplink_channel_verdicts source_constants half half
           (fixed_elevation 45) (fixed_elevation 45) g (boot 0) "PING" [] (boot 0) "PING" []).
  - reflexivity.
  - rewrite fixed_elevation_now. lra.
  - rewrite fixed_elevation_now. lra.
Defined.

(** C3 fails as stated: the channel's result on the BBU does suppress the
    real send.  In scenario S4 the command PING is dequeued while the
    spacecraft is visible and the channel rules DROPPED: the iteration
    logs the drop, sends nothing, and leaves the queue without the
    command, so the spacecraft never gets to rule on it. *)
Lemma bbu_verdict_suppresses_send :
  let g := with_queue bbu_leo.initial ["PING"] in
  exists w',
    bbu_leo.tc_sender_step S4_constants half (fixed_elevation 45) g (boot 0)
      = (Ok (with_queue g []), w') /\
    bbu_leo.telecommand_queue (with_queue g []) = [] /\
    trace w' = [EPrint "[BBU] TC DROP (RF): PING"] /\
    sent (trace w') = [].
Proof.
  intros g.
  assert (Hvis : 10 < elevation_now (fixed_elevation 45) (boot 0))
    by (rewrite fixed_elevation_now; lra).
  destruct (tc_sender_step_visible S4_constants half (fixed_elevation 45) g (boot 0)
              "PING" [] eq_refl Hvis) as (verdict & w2 & w' & Hrun & Hstep & Htr).
  rewrite propagate_ignite in Hrun;
    [| reflexivity | apply certain_ignition; [reflexivity | unfold half; lra]].
  injection Hrun as <- <-.
  exists w'. split; [exact Hstep |]. split; [reflexivity |].
  rewrite Htr. split; reflexivity.
Qed.

(** C10: a command whose uplink verdict on the BBU is DROPPED is lost.
    The iteration that dequeued it leaves the queue without it, logs the
    drop and sends nothing; and whatever the sender does afterwards, under
    any interleaving with arrivals from the Web, what it sends is drawn
    from the commands still queued and those that arrive later, so the
    dropped command is neither queued again nor sent. *)
Theorem dropped_command_is_lost (K : Constants) (rand : nat -> R)
    (skyfield : option (R -> R * R))
    (g : bbu_leo.Globals) (w w2 : World) (tc : string) (rest : list string) :
  bbu_leo.telecommand_queue g = tc :: rest ->
  10 < elevation_now skyfield w ->
  propagate K rand (fresh (dom (heap w))) (elevation_now skyfield w) "uplink"
            (with_tc_packet tc w) = (Ok None, w2) ->
  exists w',
    bbu_leo.tc_sender_step K rand skyfield g w = (Ok (with_queue g rest), w') /\
    bbu_leo.telecommand_queue (with_queue g rest) = rest /\
    trace w' = trace w ++ [EPrint ("[BBU] TC DROP (RF): " +:+ tc)] /\
    sent (trace w') = sent (trace w) /\
    forall actions : list bbu_leo.uplink_action,
    exists g'' w'' (later : list string),
      bbu_leo.uplink_run K rand skyfield actions (with_queue g rest) w' = (Ok g'', w'') /\
      sent (trace w'') = sent (trace w) ++ map DText later /\
      later `sublist_of` rest ++ bbu_leo.from_web actions.
Proof.
  intros Hq Hvis Hdrop.
  destruct (tc_sender_step_visible K rand skyfield g w tc rest Hq Hvis)
    as (verdict & w2' & w' & Hrun & Hstep & Htr).
  rewrite Hdrop in Hrun. injection Hrun as <- <-.
  exists w'. split; [exact Hstep |]. split; [reflexivity |]. split; [exact Htr |].
  assert (Hsent : sent (trace w') = sent (trace w)) by (rewrite Htr; apply sent_snoc_print).
  split; [exact Hsent |].
  intros actions.
  destruct (uplink_run_sends K rand skyfield actions (with_queue g rest) w')
    as (g'' & w'' & later & Hrun' & Hs & Hsub).
  exists g'', w'', later. split; [exact Hrun' |]. split; [| exact Hsub].
  rewrite Hs, Hsent. reflexivity.
Qed.

Lemma dropped_command_is_lost_witness :
  let g := with_queue bbu_leo.initial ["PING"; "RESET"] in
  exists w',
    bbu_leo.tc_sender_step S4_constants half (fixed_elevation 45) g (boot 0)
      = (Ok (with_queue g ["RESET"]), w') /\
    bbu_leo.telecommand_queue (with_queue g ["RESET"]) = ["RESET"] /\
    trace w' = trace (boot 0) ++ [EPrint ("[BBU] TC DROP (RF): " +:+ "PING")] /\
    sent (trace w') = sent (trace (boot 0)) /\
    forall actions : list bbu_leo.uplink_action,
    exists g'' w'' (later : list string),
      bbu_leo.uplink_run S4_constants half (fixed_elevation 45) actions
        (with_queue g ["RESET"]) w' = (Ok g'', w'') /\
      sent (trace w'') = sent (trace (boot 0)) ++ map DText later /\
      later `sublist_of` ["RESET"] ++ bbu_leo.from_web actions.
Proof.
  intros g.
  eapply (dropped_command_is_lost S4_constants half (fixed_elevation 45) g (boot 0) _
            "PING" ["RESET"]).
  - reflexivity.
  - rewrite fixed_elevation_now. lra.
  - apply propagate_ignite; [reflexivity |].
    apply certain_ignition; [reflexivity | unfold half; lra].
Defined.

End transport_properties.


(** ** The TM producer of the spacecraft *)

Section producer_facts.
Local Open Scope R_scope.

Variable K : Constants.
Variable rand : nat -> R.
Variable skyfield : option (R -> R * R).

Lemma default_orbit_rate now st :
  get_state (DEFAULT_ORBIT skyfield) now = Ok st ->
  data_rate_mbps (elev_deg st) DEFAULT_DL_MAX_RATE_Mbps DEFAULT_RATE_ALPHA DEFAULT_ELEV_MASK_DEG
  = Ok (rate_dl_mbps st).
Proof.
  unfold get_state. destruct (backend_state (DEFAULT_ORBIT skyfield) now) as [e d].
  cbn [DEFAULT_ORBIT cfg default_config elev_mask_deg dl_max_rate_mbps ul_max_rate_mbps
       rate_alpha].
  destruct (data_rate_mbps e DEFAULT_DL_MAX_RATE_Mbps _ _) as [rd |] eqn:Hd; [| discriminate].
  destruct (data_rate_mbps e DEFAULT_UL_MAX_RATE_Mbps _ _) as [ru |]; [| discriminate].
  intros [= <-]. exact Hd.
Qed.

Lemma land_mask_mod (z : Z) : Z.land z 0xFFFFFFFF = (z mod 2 ^ 32)%Z.
Proof. change 0xFFFFFFFF%Z with (Z.ones 32). apply Z.land_ones. lia. Qed.

Lemma tm_packet_deref (st : GeometryState) (seq : Z) (w : World) :
  deref (set_heap (<[fresh (dom (heap w)) := tm_packet st seq]> (heap w)) w)
        (fresh (dom (heap w))) = tm_packet st seq.
Proof. unfold deref, set_heap. proj_W. rewrite lookup_insert_eq. reflexivity. Qed.

Lemma tm_datagram_shift (st : GeometryState) (seq : Z) (k : nat * bool * bool) :
  tm_datagram st (Z.land (seq + 1) 0xFFFFFFFF) k =
  tm_datagram st seq (S k.1.1, k.1.2, k.2).
Proof.
  unfold tm_datagram. cbn [fst snd]. do 4 f_equal.
  rewrite land_mask_mod, Zplus_mod_idemp_l. f_equal. lia.
Qed.

Lemma survivors_from_shift (st : GeometryState) (seq : Z) (vs : list channel_verdict) :
  forall i : nat,
  map (tm_datagram st (Z.land (seq + 1) 0xFFFFFFFF)) (survivors_from i vs) =
  map (tm_datagram st seq) (survivors_from (S i) vs).
Proof.
  induction vs as [| [| be dup] vs IH]; intros i; cbn [survivors_from map].
  - reflexivity.
  - apply IH.
  - rewrite IH, tm_datagram_shift. reflexivity.
Qed.

Lemma channel_run_length (elev : R) (dir : string) (n : nat) : forall c : channel_state,
  length (fst (channel_run K rand elev dir n c)) = n.
Proof.
  induction n as [| n IH]; intros c; [reflexivity |].
  cbn [channel_run]. destruct (channel_step K rand elev dir c) as [v c1].
  specialize (IH c1). destruct (channel_run K rand elev dir n c1) as [vs c2].
  cbn [fst length] in *. f_equal. exact IH.
Qed.

(** The survivors of a burst are listed by increasing index. *)
Lemma survivors_from_indices (vs : list channel_verdict) : forall i : nat,
  (survivors_from i vs).*1.*1 `sublist_of` List.seq i (length vs).
Proof.
  induction vs as [| [| be dup] vs IH]; intros i; cbn [survivors_from length List.seq].
  - constructor.
  - apply sublist_cons, IH.
  - cbn [fmap list_fmap fst]. apply sublist_skip, IH.
Qed.

Lemma sent_tm_datagrams (st : GeometryState) (seq : Z) (l : list (nat * bool * bool)) :
  sent (map (tm_datagram st seq) l) = map (tm_payload st seq) l.
Proof. induction l as [| k l IH]; [reflexivity |]. cbn. f_equal. exact IH. Qed.

(** A burst of [n] packets builds each packet with the next sequence
    number and hands it to the channel: the channel rules [n] times, its
    delay is taken [n] times, and what is sent to the BBU is, in order,
    exactly the packets the channel delivered, as it marked them. *)
Lemma tm_burst_run (n : nat) (st : GeometryState) : forall (seq : Z) (w : World),
  (0 <= seq < 2 ^ 32)%Z ->
  exists w',
    tm_burst K rand n st seq w = (Ok ((seq + Z.of_nat n) mod 2 ^ 32)%Z, w') /\
    clock w' = clock w + INR n * PROPAGATION_DELAY_S K /\
    channel_of w' = snd (channel_run K rand (elev_deg st) "downlink" n (channel_of w)) /\
    trace w' = trace w ++
      map (tm_datagram st seq)
          (survivors (fst (channel_run K rand (elev_deg st) "downlink" n (channel_of w)))).
Proof.
  induction n as [| n IH]; intros seq w Hseq.
  - exists w. cbn [tm_burst channel_run fst snd]. unfold ret.
    rewrite Z.add_0_r, Z.mod_small by lia.
    split; [reflexivity |]. split; [cbn; lra |]. split; [reflexivity |].
    symmetry. apply app_nil_r.
  - cbn [tm_burst]. unfold bind at 1, new_dict. cbv zeta. unfold bind at 1.
    change (py_dict _) with (tm_packet st seq).
    match goal with |- context [propagate K rand ?p ?e ?d ?w1] =>
      destruct (propagate_channel_step K rand p e d w1) as (w2 & Hrun & Hch & Hclk & Htr & Hh) end.
    rewrite Hrun. clear Hrun.
    change (channel_of (set_heap _ w)) with (channel_of w) in *.
    cbn [clock trace set_heap] in Hclk, Htr.
    rewrite tm_packet_deref in Hh.
    cbn [channel_run].
    destruct (channel_step K rand (elev_deg st) "downlink" (channel_of w)) as [v c1].
    cbn [fst snd] in Hch, Hh |- *.
    assert (Hseq' : (0 <= Z.land (seq + 1) 0xFFFFFFFF < 2 ^ 32)%Z)
      by (rewrite land_mask_mod; apply Z.mod_pos_bound; lia).
    assert (Hmod : ((Z.land (seq + 1) 0xFFFFFFFF + Z.of_nat n) mod 2 ^ 32
                    = (seq + Z.of_nat (S n)) mod 2 ^ 32)%Z).
    { rewrite land_mask_mod, Zplus_mod_idemp_l. f_equal. lia. }
    destruct v as [| be dup].
    + unfold bind at 1. run_M.
      destruct (IH (Z.land (seq + 1) 0xFFFFFFFF) w2 Hseq') as (w' & Hb & Hc & Hch' & Ht).
      rewrite Hch in Hch', Ht.
      destruct (channel_run K rand (elev_deg st) "downlink" n c1) as [vs c2].
      cbn [fst snd] in Hch', Ht |- *.
      exists w'. rewrite Hb, Hmod. split; [reflexivity |].
      rewrite Hc, Hclk, S_INR. split; [lra |]. split; [exact Hch' |].
      rewrite Ht, Htr. unfold survivors. cbn [survivors_from].
      rewrite survivors_from_shift. reflexivity.
    + set (out := fresh (dom (heap (set_heap _ w)))) in *. clearbody out.
      unfold bind at 1. run_M.
      rewrite (deref_insert_eq w2 _ out _ Hh).
      match goal with |- context [tm_burst K rand n st _ ?w3] =>
        assert (Hw3 : channel_of w3 = channel_of w2) by reflexivity;
        destruct (IH (Z.land (seq + 1) 0xFFFFFFFF) w3 Hseq') as (w' & Hb & Hc & Hch' & Ht) end.
      rewrite Hw3, Hch in Hch', Ht.
      destruct (channel_run K rand (elev_deg st) "downlink" n c1) as [vs c2].
      cbn [fst snd] in Hch', Ht |- *.
      exists w'. rewrite Hb, Hmod. split; [reflexivity |].
      rewrite Hc. proj_W. rewrite Hclk, S_INR. split; [lra |]. split; [exact Hch' |].
      rewrite Ht. proj_W. rewrite Htr, <- app_assoc. unfold survivors. cbn [survivors_from map app].
      rewrite survivors_from_shift. do 2 f_equal.
      unfold tm_datagram. cbn [fst snd Z.of_nat].
      rewrite Z.add_0_r, Z.mod_small by lia. reflexivity.
Qed.

Lemma sqrt_half_bounds : 7 / 10 < sqrt (1 / 2) < 71 / 100.
Proof.
  pose proof (sqrt_pos (1 / 2)) as Hpos.
  pose proof (sqrt_sqrt (1 / 2) ltac:(lra)) as Hsq.
  split; nra.
Qed.

Lemma Rpower_half_15 : Rpower (1 / 2) (15 / 10) = 1 / 2 * sqrt (1 / 2).
Proof.
  replace (15 / 10) with (1 + / 2) by lra.
  rewrite Rpower_plus, Rpower_1, Rpower_sqrt by lra. reflexivity.
Qed.

(** Scenario S2: at 30 degrees the default link budget is worth 39 packets. *)
Lemma budget_at_30 (r : R) :
  data_rate_mbps 30 DEFAULT_DL_MAX_RATE_Mbps DEFAULT_RATE_ALPHA DEFAULT_ELEV_MASK_DEG = Ok r ->
  Zfloor (r * 1000000 * TIME_STEP_S / IZR BITS_PER_PACKET) = 39%Z.
Proof.
  unfold DEFAULT_ELEV_MASK_DEG, DEFAULT_DL_MAX_RATE_Mbps, DEFAULT_RATE_ALPHA.
  rewrite data_rate_mbps_above; rewrite ?radians_30, ?sin_PI6; try lra.
  rewrite clamp01_id by lra. intros [= <-].
  rewrite Rpower_half_15. pose proof sqrt_half_bounds as Hs.
  apply Zfloor_eq. unfold TIME_STEP_S. change (IZR BITS_PER_PACKET) with 2304.
  split.
  - apply Rmult_le_reg_r with 2304; [lra |].
    unfold Rdiv. rewrite Rmult_assoc, Rinv_l by lra. lra.
  - apply Rmult_lt_reg_r with 2304; [lra |].
    unfold Rdiv. rewrite Rmult_assoc, Rinv_l by lra. lra.
Qed.

End producer_facts.

Section producer_properties.
Local Open Scope R_scope.
Import Scenario.

Lemma sent_snoc_printf (tr : list event) fmt args : sent (tr ++ [EPrintF fmt args]) = sent tr.
Proof. rewrite sent_app. cbn. apply app_nil_r. Qed.

(** The step of a visible tick, by the size of its budget. *)
Lemma telemetry_sender_step_visible (K : Constants) (rand : nat -> R)
    (skyfield : option (R -> R * R)) (seq : Z) (w : World) (st : GeometryState) :
  get_state_now (DEFAULT_ORBIT skyfield) w = (Ok st, w) ->
  visible st = true ->
  0 <= rate_dl_mbps st ->
  (0 <= seq < 2 ^ 32)%Z ->
  let N := Zfloor (rate_dl_mbps st * 1000000 * TIME_STEP_S / IZR BITS_PER_PACKET) in
  let n := Z.min N MAX_PKTS_PER_STEP in
  let run := channel_run K rand (elev_deg st) "downlink" (Z.to_nat n) (channel_of w) in
  (0 <= n <= MAX_PKTS_PER_STEP)%Z /\
  exists w',
    telemetry_sender_step K rand skyfield seq w = (Ok ((seq + n) mod 2 ^ 32)%Z, w') /\
    clock w' = clock w + IZR n * PROPAGATION_DELAY_S K + TIME_STEP_S /\
    channel_of w' = snd run /\
    sent (trace w') = sent (trace w) ++ map (tm_payload st seq) (survivors (fst run)) /\
    ((0 < n)%Z ->
     last (trace w') =
     Some (EPrintF "[SAT] DOWNLINK: elev={:.1f}deg rate={:.1f}kbps sent_pkts={}"
             [VFloat (elev_deg st); VFloat (rate_dl_mbps st * 1000); VInt n])).
Proof.
  intros Hnow Hvis Hrate Hseq N n run.
  assert (HN : (0 <= N)%Z).
  { apply Zfloor_lub. unfold TIME_STEP_S. change (IZR BITS_PER_PACKET) with 2304.
    apply Rmult_le_reg_r with 2304; [lra |].
    unfold Rdiv. rewrite Rmult_assoc, Rinv_l by lra. lra. }
  assert (Hn : (0 <= n <= MAX_PKTS_PER_STEP)%Z) by (unfold n, MAX_PKTS_PER_STEP; lia).
  split; [exact Hn |].
  unfold telemetry_sender_step. unfold bind at 1. rewrite Hnow, Hvis. cbn [negb orb].
  cbv zeta. fold N.
  destruct (Rle_dec (rate_dl_mbps st) 0) as [Hz | Hpos].
  - (* no rate: nothing is transmitted *)
    assert (HN0 : N = 0%Z).
    { unfold N. replace (rate_dl_mbps st) with 0 by lra.
      replace (0 * 1000000 * TIME_STEP_S / IZR BITS_PER_PACKET) with 0.
      - apply ZfloorZ.
      - unfold Rdiv. rewrite !Rmult_0_l. reflexivity. }
    assert (Hn0 : n = 0%Z) by (unfold n, MAX_PKTS_PER_STEP; lia).
    unfold run. rewrite Hn0. cbn [Z.to_nat channel_run fst snd survivors survivors_from map].
    run_M. eexists. split; [rewrite Z.add_0_r, Z.mod_small by lia; reflexivity |].
    proj_W. rewrite sent_snoc_printf.
    split; [lra |]. split; [reflexivity |]. split; [symmetry; apply app_nil_r | lia].
  - destruct (Z.leb_spec N 0) as [Hle | Hgt].
    + (* less than one packet's worth of bits *)
      assert (Hn0 : n = 0%Z) by (unfold n, MAX_PKTS_PER_STEP; lia).
      unfold run. rewrite Hn0. cbn [Z.to_nat channel_run fst snd survivors survivors_from map].
      run_M. eexists. split; [rewrite Z.add_0_r, Z.mod_small by lia; reflexivity |].
      proj_W.
      split; [lra |]. split; [reflexivity |]. split; [symmetry; apply app_nil_r | lia].
    + assert (Hmin : (if (N >? MAX_PKTS_PER_STEP)%Z then MAX_PKTS_PER_STEP else N) = n).
      { rewrite Z.gtb_ltb. destruct (Z.ltb_spec MAX_PKTS_PER_STEP N); unfold n; lia. }
      rewrite Hmin.
      destruct (tm_burst_run K rand (Z.to_nat n) st seq w Hseq)
        as (w1 & Hb & Hc & Hch & Ht).
      rewrite Z2Nat.id in Hb by lia.
      rewrite INR_IZR_INZ, Z2Nat.id in Hc by lia.
      unfold bind at 1. rewrite Hb. run_M.
      eexists. split; [reflexivity |]. proj_W. rewrite Hc.
      split; [lra |]. split; [exact Hch |].
      split; [rewrite sent_snoc_printf, Ht, sent_app, sent_tm_datagrams; reflexivity |].
      intros _. apply last_snoc.
Qed.

(** With the default link budget the downlink rate never exceeds
    [DEFAULT_DL_MAX_RATE_Mbps], which is worth 111 packets per tick. *)
Lemma default_budget_bound (skyfield : option (R -> R * R)) (now : R) (st : GeometryState) :
  get_state (DEFAULT_ORBIT skyfield) now = Ok st ->
  (Zfloor (rate_dl_mbps st * 1000000 * TIME_STEP_S / IZR BITS_PER_PACKET) <= 111)%Z.
Proof.
  intros Hst. pose proof (default_orbit_rate skyfield now st Hst) as Hr.
  assert (Hle : rate_dl_mbps st <= 258 / 1000).
  { revert Hr. unfold data_rate_mbps, DEFAULT_DL_MAX_RATE_Mbps, DEFAULT_RATE_ALPHA.
    destruct (Rle_dec _ _); [intros [= <-]; lra |].
    pose proof (clamp01_range (sin (radians (elev_deg st)))) as Hc.
    destruct (float_pow (clamp01 (sin (radians (elev_deg st)))) (15 / 10)) as [p |] eqn:Hp;
      [| discriminate].
    intros [= <-].
    assert (Ha : 0 <= 15 / 10) by lra.
    pose proof (float_pow_le_one _ _ _ Hc Ha Hp). nra. }
  set (x := rate_dl_mbps st * 1000000 * TIME_STEP_S / IZR BITS_PER_PACKET).
  assert (Hx : x < 112).
  { unfold x, TIME_STEP_S. change (IZR BITS_PER_PACKET) with 2304.
    apply Rmult_lt_reg_r with 2304; [lra |].
    unfold Rdiv. rewrite Rmult_assoc, Rinv_l by lra. lra. }
  pose proof (Zfloor_bound x) as [Hlo _].
  assert (Hlt : (Zfloor x < 112)%Z) by (apply lt_IZR; lra).
  lia.
Qed.

(** C4: on every visible tick the TM producer emits exactly
    [n = min(N, MAX_PKTS_PER_STEP)] packets, where
    [N = floor((rate_dl * 10^6 * TIME_STEP_S) / BITS_PER_PACKET)] and
    [BITS_PER_PACKET = 8 * (PAYLOAD_BYTES + HEADER_BYTES)].  The tick
    builds [n] packets with consecutive sequence numbers (the sequence
    number advances by [n], wrapping at [2^32]) and passes each through
    the channel: the channel rules [n] times and its delay is taken [n]
    times before the tick's sleep; what is sent to the BBU is, in order,
    exactly the packets the channel delivered, and a non-empty burst is
    logged with [sent_pkts = n].  When the rate yields fewer bits than
    one packet, [n = 0]; with the default configuration at 30 degrees,
    [N = 39].  With the default link budget [N] is at most 111, so the
    cap of 2000 is never reached and [n = N]. *)
Theorem tm_producer_budget (K : Constants) (rand : nat -> R)
    (skyfield : option (R -> R * R)) (seq : Z) (w : World) :
  10 < elevation_now skyfield w ->
  (0 <= seq < 2 ^ 32)%Z ->
  exists st,
    get_state (DEFAULT_ORBIT skyfield) (clock w) = Ok st /\
    visible st = true /\
    let N := Zfloor (rate_dl_mbps st * 1000000 * TIME_STEP_S / IZR BITS_PER_PACKET) in
    let n := Z.min N MAX_PKTS_PER_STEP in
    let run := channel_run K rand (elev_deg st) "downlink" (Z.to_nat n) (channel_of w) in
    BITS_PER_PACKET = (8 * (PAYLOAD_BYTES + HEADER_BYTES))%Z /\
    (0 <= n <= MAX_PKTS_PER_STEP)%Z /\
    (exists w',
       telemetry_sender_step K rand skyfield seq w = (Ok ((seq + n) mod 2 ^ 32)%Z, w') /\
       clock w' = clock w + IZR n * PROPAGATION_DELAY_S K + TIME_STEP_S /\
       length (fst run) = Z.to_nat n /\
       channel_of w' = snd run /\
       sent (trace w') = sent (trace w) ++ map (tm_payload st seq) (survivors (fst run)) /\
       ((0 < n)%Z ->
        last (trace w') =
        Some (EPrintF "[SAT] DOWNLINK: elev={:.1f}deg rate={:.1f}kbps sent_pkts={}"
                [VFloat (elev_deg st); VFloat (rate_dl_mbps st * 1000); VInt n]))) /\
    (rate_dl_mbps st * 1000000 * TIME_STEP_S < IZR BITS_PER_PACKET -> n = 0%Z) /\
    (elevation_now skyfield w = 30 -> N = 39%Z /\ n = 39%Z) /\
    (N <= 111)%Z /\ n = N.
Proof.
  intros Hvis Hseq.
  destruct (get_state_now_default skyfield w) as (st & Hnow & Hst & He & Hv & Hrate).
  exists st. split; [exact Hst |]. split; [apply Hv; exact Hvis |].
  cbv zeta.
  destruct (telemetry_sender_step_visible K rand skyfield seq w st Hnow
              (proj2 Hv Hvis) Hrate Hseq) as [Hn (w' & Hstep & Hclk & Hch & Hsent & Hlog)].
  cbv zeta in Hn, Hstep, Hclk, Hch, Hsent, Hlog.
  pose proof (default_budget_bound skyfield (clock w) st Hst) as H111.
  split; [reflexivity |]. split; [exact Hn |]. split.
  { exists w'. split; [exact Hstep |]. split; [exact Hclk |].
    split; [apply channel_run_length |]. auto. }
  split; [| split; [| split; [exact H111 | unfold MAX_PKTS_PER_STEP; lia]]].
  - intros Hbits.
    assert (HN : Zfloor (rate_dl_mbps st * 1000000 * TIME_STEP_S / IZR BITS_PER_PACKET) = 0%Z).
    { apply Zfloor_eq. revert Hbits. unfold TIME_STEP_S.
      change (IZR BITS_PER_PACKET) with 2304. intros Hbits. split.
      - apply Rmult_le_reg_r with 2304; [lra |].
        unfold Rdiv. rewrite Rmult_assoc, Rinv_l by lra. lra.
      - apply Rmult_lt_reg_r with 2304; [lra |].
        unfold Rdiv. rewrite Rmult_assoc, Rinv_l by lra. lra. }
    rewrite HN. reflexivity.
  - intros H30. rewrite <- He in H30.
    pose proof (default_orbit_rate skyfield (clock w) st Hst) as Hr.
    rewrite H30 in Hr. rewrite (budget_at_30 _ Hr). split; reflexivity.
Qed.

Lemma tm_producer_budget_witness :
  exists st,
    get_state (DEFAULT_ORBIT (fixed_elevation 30)) (clock (boot 0)) = Ok st /\
    visible st = true /\
    let N := Zfloor (rate_dl_mbps st * 1000000 * TIME_STEP_S / IZR BITS_PER_PACKET) in
    let n := Z.min N MAX_PKTS_PER_STEP in
    let run := channel_run source_constants half (elev_deg st) "downlink" (Z.to_nat n)
                 (channel_of (boot 0)) in
    BITS_PER_PACKET = (8 * (PAYLOAD_BYTES + HEADER_BYTES))%Z /\
    (0 <= n <= MAX_PKTS_PER_STEP)%Z /\
    (exists w',
       telemetry_sender_step source_constants half (fixed_elevation 30) 0 (boot 0)
         = (Ok ((0 + n) mod 2 ^ 32)%Z, w') /\
       clock w' = clock (boot 0) + IZR n * PROPAGATION_DELAY_S source_constants + TIME_STEP_S /\
       length (fst run) = Z.to_nat n /\
       channel_of w' = snd run /\
       sent (trace w') = sent (trace (boot 0)) ++ map (tm_payload st 0) (survivors (fst run)) /\
       ((0 < n)%Z ->
        last (trace w') =
        Some (EPrintF "[SAT] DOWNLINK: elev={:.1f}deg rate={:.1f}kbps sent_pkts={}"
                [VFloat (elev_deg st); VFloat (rate_dl_mbps st * 1000); VInt n]))) /\
    (rate_dl_mbps st * 1000000 * TIME_STEP_S < IZR BITS_PER_PACKET -> n = 0%Z) /\
    (elevation_now (fixed_elevation 30) (boot 0) = 30 -> N = 39%Z /\ n = 39%Z) /\
    (N <= 111)%Z /\ n = N.
Proof.
  apply (tm_producer_budget source_constants half (fixed_elevation 30) 0 (boot 0)).
  - rewrite fixed_elevation_now. lra.
  - lia.
Defined.

End producer_properties.

(** ** Further properties of the link budget and of the orbit model *)

Section orbit_more.
Local Open Scope R_scope.
Import Scenario.

(** X1: with a non-negative maximum rate and exponent the link budget
    always returns a rate, and that rate lies between 0 and the maximum
    rate, whatever the elevation and the mask. *)
Theorem data_rate_mbps_within_budget (elev max_rate alpha mask : R) :
  0 <= max_rate -> 0 <= alpha ->
  exists r, data_rate_mbps elev max_rate alpha mask = Ok r /\ 0 <= r <= max_rate.
Proof.
  intros Hm Ha. unfold data_rate_mbps.
  destruct (Rle_dec elev mask); [exists 0; split; [reflexivity | lra] |].
  pose proof (clamp01_range (sin (radians elev))) as Hc.
  destruct (float_pow_total (clamp01 (sin (radians elev))) alpha) as (p & Hp & _);
    [lra | exact Ha |].
  pose proof (float_pow_le_one _ _ _ Hc Ha Hp) as Hp1.
  rewrite Hp. eexists. split; [reflexivity | nra].
Qed.

Lemma data_rate_mbps_within_budget_witness :
  exists r, data_rate_mbps 30 (258 / 1000) (15 / 10) 10 = Ok r /\ 0 <= r <= 258 / 1000.
Proof. apply (data_rate_mbps_within_budget 30 (258 / 1000) (15 / 10) 10); lra. Defined.

(** X2: with the exponent 0 the rate above the mask is exactly the
    maximum rate at every elevation, the horizon and below included
    ([0.0 ** 0.0] is 1). *)
Theorem data_rate_mbps_flat (elev max_rate mask : R) :
  mask < elev -> data_rate_mbps elev max_rate 0 mask = Ok max_rate.
Proof.
  intros He. unfold data_rate_mbps. destruct (Rle_dec elev mask); [lra |].
  unfold float_pow.
  destruct (Req_dec_T (clamp01 (sin (radians elev))) 0) as [Hz | Hnz].
  - destruct (Req_dec_T 0 0); [| lra]. f_equal. lra.
  - pose proof (clamp01_range (sin (radians elev))).
    rewrite Rpower_O by lra. f_equal. lra.
Qed.

Lemma data_rate_mbps_flat_witness : data_rate_mbps (-5) 1 0 (-10) = Ok 1.
Proof. apply (data_rate_mbps_flat (-5) 1 (-10)). lra. Defined.

Lemma sin_radians_nonpos e : -90 <= e -> e <= 0 -> sin (radians e) <= 0.
Proof.
  intros Hlo Hhi. pose proof PI_RGT_0 as Hpi.
  replace (radians e) with (- radians (- e)) by (unfold radians; lra).
  rewrite sin_neg.
  assert (0 <= sin (radians (- e))); [| lra].
  apply sin_ge_0; unfold radians; nra.
Qed.

(** X3: a negative exponent makes the link budget fail between the mask
    and the horizon.  When [rate_alpha] is negative and the elevation is
    above the mask but not above the horizon (between -90 and 0 degrees),
    the sine is clamped to 0 and [0.0 ** alpha] raises
    [ZeroDivisionError]: [data_rate_mbps] raises it whatever the maximum
    rate, and so do [get_state], [is_visible], [elevation_deg] and
    [doppler_shift]. *)
Theorem link_budget_raises_below_horizon (self : OrbitModel) (now : R) :
  rate_alpha (cfg self) < 0 ->
  elev_mask_deg (cfg self) < fst (backend_state self now) ->
  -90 <= fst (backend_state self now) <= 0 ->
  (forall max_rate,
     data_rate_mbps (fst (backend_state self now)) max_rate (rate_alpha (cfg self))
                    (elev_mask_deg (cfg self)) = Raised ZeroDivisionError) /\
  get_state self now = Raised ZeroDivisionError /\
  is_visible self now = Raised ZeroDivisionError /\
  elevation_deg self now = Raised ZeroDivisionError /\
  doppler_shift self now = Raised ZeroDivisionError.
Proof.
  intros Ha Hk He.
  unfold is_visible, elevation_deg, doppler_shift, get_state.
  destruct (backend_state self now) as [e d]. cbn [fst] in *.
  assert (Hr : forall m, data_rate_mbps e m (rate_alpha (cfg self)) (elev_mask_deg (cfg self))
                         = Raised ZeroDivisionError).
  { intros m. unfold data_rate_mbps.
    destruct (Rle_dec e (elev_mask_deg (cfg self))); [lra |].
    pose proof (sin_radians_nonpos e ltac:(lra) ltac:(lra)) as Hs.
    assert (Hc : clamp01 (sin (radians e)) = 0).
    { unfold clamp01. destruct (Rlt_dec (sin (radians e)) 0).
      - destruct (Rgt_dec 0 1); [lra | reflexivity].
      - destruct (Rgt_dec (sin (radians e)) 1); lra. }
    rewrite Hc. unfold float_pow.
    destruct (Req_dec_T 0 0); [| lra].
    destruct (Req_dec_T (rate_alpha (cfg self)) 0); [lra |].
    destruct (Rlt_dec (rate_alpha (cfg self)) 0); [reflexivity | lra]. }
  split; [exact Hr |]. rewrite !Hr. auto.
Qed.

Lemma link_budget_raises_below_horizon_witness :
  let self := {| cfg := {| elev_mask_deg := -10; carrier_hz := DEFAULT_CARRIER_HZ;
                           dl_max_rate_mbps := DEFAULT_DL_MAX_RATE_Mbps;
                           ul_max_rate_mbps := DEFAULT_UL_MAX_RATE_Mbps;
                           rate_alpha := -1 |};
                 _state_skyfield := Some (fun _ => (-5, 0)) |} in
  (forall max_rate, data_rate_mbps (-5) max_rate (-1) (-10) = Raised ZeroDivisionError) /\
  get_state self 0 = Raised ZeroDivisionError /\
  is_visible self 0 = Raised ZeroDivisionError /\
  elevation_deg self 0 = Raised ZeroDivisionError /\
  doppler_shift self 0 = Raised ZeroDivisionError.
Proof.
  intros self.
  apply (link_budget_raises_below_horizon self 0); simpl; lra.
Defined.

Lemma _state_fallback_bounds (now : R) :
  0 <= fst (_state_fallback now) <= 90 /\
  - FALLBACK_MAX_DOPPLER_HZ <= snd (_state_fallback now) <= FALLBACK_MAX_DOPPLER_HZ.
Proof.
  unfold _state_fallback, FALLBACK_MAX_DOPPLER_HZ. cbn [fst snd].
  set (phase := float_mod now FALLBACK_ORBIT_PERIOD_S / FALLBACK_ORBIT_PERIOD_S).
  pose proof (SIN_bound (PI * phase)) as H1.
  pose proof (SIN_bound (2 * PI * phase)) as H2.
  unfold Rmax. destruct (Rle_dec 0 (sin (PI * phase))); lra.
Qed.

(** X4: in the fallback back-end the elevation is always within 0 and 90
    degrees and the Doppler shift within plus and minus 5000 Hz. *)
Theorem _state_fallback_ranges (now : R) :
  0 <= fst (_state_fallback now) <= 90 /\
  - FALLBACK_MAX_DOPPLER_HZ <= snd (_state_fallback now) <= FALLBACK_MAX_DOPPLER_HZ.
Proof. apply _state_fallback_bounds. Qed.

Lemma float_mod_shift (a b : R) (k : Z) :
  0 < b -> float_mod (a + IZR k * b) b = float_mod a b.
Proof.
  intros Hb. unfold float_mod.
  replace ((a + IZR k * b) / b) with (a / b + IZR k) by (field; lra).
  rewrite Zfloor_addz, plus_IZR. lra.
Qed.

(** X5: the fallback pass repeats with the orbital period: shifting the
    time by any whole number of periods of 5400 s gives the same
    elevation and Doppler shift. *)
Theorem _state_fallback_periodic (now : R) (k : Z) :
  _state_fallback (now + IZR k * FALLBACK_ORBIT_PERIOD_S) = _state_fallback now.
Proof.
  unfold _state_fallback.
  rewrite float_mod_shift by (unfold FALLBACK_ORBIT_PERIOD_S; lra). reflexivity.
Qed.

Lemma py_round_near (x : R) : x - 1 / 2 <= IZR (py_round x) <= x + 1 / 2.
Proof.
  unfold py_round. pose proof (Zfloor_bound x) as [Hlo Hhi].
  destruct (Rlt_dec (x - IZR (Zfloor x)) (1 / 2)); [lra |].
  destruct (Rgt_dec (x - IZR (Zfloor x)) (1 / 2)); [rewrite plus_IZR; lra |].
  destruct (Z.even (Zfloor x)); [| rewrite plus_IZR]; lra.
Qed.

(** X6: on the default orbit with the fallback back-end, [doppler_shift]
    always returns an integer within half a hertz of the Doppler shift of
    the state, and within plus and minus 5000. *)
Theorem doppler_shift_fallback (now : R) :
  exists z,
    doppler_shift (DEFAULT_ORBIT None) now = Ok z /\
    snd (_state_fallback now) - 1 / 2 <= IZR z <= snd (_state_fallback now) + 1 / 2 /\
    (-5000 <= z <= 5000)%Z.
Proof.
  unfold doppler_shift.
  destruct (default_orbit_total None now) as (st & Hst & _).
  assert (Hd : doppler_hz st = snd (_state_fallback now)).
  { revert Hst. unfold get_state, backend_state. cbn [DEFAULT_ORBIT _state_skyfield cfg].
    destruct (_state_fallback now) as [e d].
    destruct (data_rate_mbps e _ _ _); [| discriminate].
    destruct (data_rate_mbps e _ _ _); [| discriminate].
    intros [= <-]. reflexivity. }
  rewrite Hst. eexists. split; [reflexivity |]. rewrite Hd.
  pose proof (py_round_near (snd (_state_fallback now))) as Hnear.
  split; [exact Hnear |].
  pose proof (_state_fallback_bounds now) as [_ Hr]. unfold FALLBACK_MAX_DOPPLER_HZ in Hr.
  assert (Hlo : (-5001 < py_round (snd (_state_fallback now)))%Z) by (apply lt_IZR; lra).
  assert (Hhi : (py_round (snd (_state_fallback now)) < 5001)%Z) by (apply lt_IZR; lra).
  lia.
Qed.

End orbit_more.

(** ** Further properties of the RF channel *)

Section channel_more.
Local Open Scope R_scope.
Import Scenario.

Lemma quality_below e : e <= 10 -> quality e = 0.
Proof.
  intros He. unfold quality, _link_quality_from_elev.
  destruct (Rle_dec e 10); [reflexivity | lra].
Qed.

Lemma quality_zenith e : 90 <= e -> quality e = 1.
Proof.
  intros He. unfold quality, _link_quality_from_elev.
  destruct (Rle_dec e 10); [lra |].
  assert (Hq : 1 <= (e - 10) / (90 - 10)).
  { apply Rmult_le_reg_r with (90 - 10); [lra |].
    unfold Rdiv. rewrite Rmult_assoc, Rinv_l by lra. lra. }
  destruct (Rlt_dec _ 0); [lra |]. destruct (Rgt_dec _ 1); lra.
Qed.

Lemma quality_mono e1 e2 : e1 <= e2 -> quality e1 <= quality e2.
Proof.
  intros H12. pose proof (quality_range e2) as Hr2.
  unfold quality, _link_quality_from_elev in *.
  destruct (Rle_dec e1 10); [lra |]. destruct (Rle_dec e2 10); [lra |].
  assert (Hq : (e1 - 10) / (90 - 10) <= (e2 - 10) / (90 - 10)).
  { unfold Rdiv. apply Rmult_le_compat_r; lra. }
  destruct (Rlt_dec ((e1 - 10) / (90 - 10)) 0); destruct (Rlt_dec ((e2 - 10) / (90 - 10)) 0);
    repeat destruct (Rgt_dec _ 1); lra.
Qed.

(** X7: the link quality is always within 0 and 1, is 0 at or below the
    10 degree mask and 1 from 90 degrees on, and never falls as the
    elevation rises. *)
Theorem link_quality_shape (e1 e2 : R) :
  0 <= _link_quality_from_elev e1 10 <= 1 /\
  (e1 <= 10 -> _link_quality_from_elev e1 10 = 0) /\
  (90 <= e1 -> _link_quality_from_elev e1 10 = 1) /\
  (e1 <= e2 -> _link_quality_from_elev e1 10 <= _link_quality_from_elev e2 10).
Proof.
  split; [apply quality_range |]. split; [apply quality_below |].
  split; [apply quality_zenith | apply quality_mono].
Qed.

Lemma link_quality_shape_witness :
  _link_quality_from_elev 5 10 = 0 /\ _link_quality_from_elev 90 10 = 1 /\
  _link_quality_from_elev 5 10 <= _link_quality_from_elev 90 10.
Proof.
  destruct (link_quality_shape 5 90) as (_ & H0 & _ & Hm).
  destruct (link_quality_shape 90 90) as (_ & _ & H1 & _).
  split; [apply H0; lra |]. split; [apply H1; lra | apply Hm; lra].
Defined.

Lemma pow_value_nonneg x a : 0 <= pow_value x a.
Proof.
  unfold pow_value. destruct (Req_dec_T x 0); [lra | left; apply Rpower_pos].
Qed.

Lemma pow_value_mono x y a : 0 < a -> 0 <= x <= y -> pow_value x a <= pow_value y a.
Proof.
  intros Ha [Hx Hxy]. unfold pow_value.
  destruct (Req_dec_T x 0); destruct (Req_dec_T y 0); try lra.
  - left. apply Rpower_pos.
  - apply Rle_Rpower_l; lra.
Qed.

(** X8: a higher elevation never makes the channel worse: with
    non-negative base probabilities, each of the four thresholds against
    which [propagate] compares its draws (fade ignition, loss, bit error,
    duplicate) is non-negative and does not grow with the elevation. *)
Theorem thresholds_fall_with_elevation (K : Constants) (e1 e2 : R) (dir : string) :
  0 <= BURST_FADE_START_PROB K -> 0 <= BASE_PACKET_LOSS K ->
  0 <= BASE_BIT_ERROR K -> 0 <= BASE_DUPLICATE K ->
  e1 <= e2 ->
  0 <= fade_start K e2 <= fade_start K e1 /\
  0 <= loss_p K e2 dir <= loss_p K e1 dir /\
  0 <= ber_p K e2 dir <= ber_p K e1 dir /\
  0 <= dup_p K e2 <= dup_p K e1.
Proof.
  intros HS HL HB HD H12.
  pose proof (quality_range e1) as Hq1. pose proof (quality_range e2) as Hq2.
  pose proof (quality_mono e1 e2 H12) as Hq.
  pose proof (pow_value_nonneg (1 - quality e2) (16 / 10)) as Hp16.
  pose proof (pow_value_mono (1 - quality e2) (1 - quality e1) (16 / 10)) as Hm16.
  pose proof (pow_value_nonneg (1 - quality e2) 2) as Hp2.
  pose proof (pow_value_mono (1 - quality e2) (1 - quality e1) 2) as Hm2.
  unfold fade_start, loss_p, ber_p, dup_p.
  split; [nra |]. split; [| split; [| nra]].
  - specialize (Hm16 ltac:(lra) ltac:(lra)). destruct (is_uplink dir); nra.
  - specialize (Hm2 ltac:(lra) ltac:(lra)). destruct (is_uplink dir); nra.
Qed.

Lemma thresholds_fall_with_elevation_witness :
  0 <= fade_start source_constants 60 <= fade_start source_constants 20 /\
  0 <= loss_p source_constants 60 "uplink" <= loss_p source_constants 20 "uplink" /\
  0 <= ber_p source_constants 60 "uplink" <= ber_p source_constants 20 "uplink" /\
  0 <= dup_p source_constants 60 <= dup_p source_constants 20.
Proof.
  apply (thresholds_fall_with_elevation source_constants 20 60 "uplink"); cbn; lra.
Defined.

(** One call keeps the channel globals consistent. *)
Lemma propagate_channel_ok (K : Constants) (rand : nat -> R) packet elev dir w :
  (1 <= BURST_FADE_LENGTH_PKTS K)%Z -> channel_ok w ->
  exists r w', propagate K rand packet elev dir w = (Ok r, w') /\ channel_ok w'.
Proof.
  intros HL Hok. unfold channel_ok in *.
  destruct (_in_fade w) eqn:Hf.
  - rewrite propagate_fading by exact Hf. do 2 eexists. split; [reflexivity |]. proj_W.
    destruct Hok as [[_ Hr] | [Hc _]]; [| discriminate].
    destruct (Z.leb_spec (_fade_remaining w - 1) 0); cbn [negb]; [right | left];
      split; try reflexivity; lia.
  - destruct Hok as [[Hc _] | [_ Hr]]; [discriminate |].
    destruct (Rlt_dec (rand (draws w)) (fade_start K elev)) as [Hi | Hi].
    + rewrite propagate_ignite by assumption. do 2 eexists. split; [reflexivity |].
      left. split; [reflexivity | exact HL].
    + destruct (Rlt_dec (rand (S (draws w))) (loss_p K elev dir)) as [Hl | Hl].
      * rewrite propagate_loss by assumption. do 2 eexists. split; [reflexivity |].
        right. split; [reflexivity | exact Hr].
      * rewrite propagate_deliver by assumption. do 2 eexists. split; [reflexivity |].
        right. split; [reflexivity | exact Hr].
Qed.

(** X9: the fade state stays consistent.  With a fade length of at least
    one packet, any number of calls from a consistent channel (in
    particular from a process that has just started) returns normally and
    leaves the channel either in a fade with at least one packet still to
    drop or clear with none. *)
Theorem channel_stays_consistent (K : Constants) (rand : nat -> R)
    (packet : loc) (elev : R) (dir : string) (n : nat) :
  (1 <= BURST_FADE_LENGTH_PKTS K)%Z ->
  forall w, channel_ok w ->
  exists rs w',
    propagate_repeat K rand n packet elev dir w = (Ok rs, w') /\
    length rs = n /\ channel_ok w'.
Proof.
  intros HL. induction n as [| n IH]; intros w Hok.
  - exists [], w. split; [reflexivity |]. split; [reflexivity | exact Hok].
  - destruct (propagate_channel_ok K rand packet elev dir w HL Hok) as (r & w1 & Hr & Hok1).
    destruct (IH w1 Hok1) as (rs & w' & Hrs & Hlen & Hok').
    exists (r :: rs), w'. cbn [propagate_repeat]. unfold bind. rewrite Hr, Hrs.
    split; [reflexivity |]. split; [cbn; lia | exact Hok'].
Qed.

Lemma channel_stays_consistent_witness :
  exists rs w',
    propagate_repeat source_constants half 5 1%positive 45 "downlink" debug_world = (Ok rs, w') /\
    length rs = 5%nat /\ channel_ok w'.
Proof.
  apply (channel_stays_consistent source_constants half 1%positive 45 "downlink" 5).
  - cbn. lia.
  - right. split; reflexivity.
Defined.

(** X10: a call always returns normally; it takes the propagation delay
    exactly once, dropped packet or not, prints and sends nothing, and
    makes at most four draws, none of them when it finds the channel in a
    fade. *)
Theorem propagate_cost (K : Constants) (rand : nat -> R)
    (packet : loc) (elev : R) (dir : string) (w : World) :
  exists r w',
    propagate K rand packet elev dir w = (Ok r, w') /\
    clock w' = clock w + PROPAGATION_DELAY_S K /\
    trace w' = trace w /\
    (draws w <= draws w' <= draws w + 4)%nat /\
    (_in_fade w = true -> r = None /\ draws w' = draws w).
Proof.
  destruct (_in_fade w) eqn:Hf.
  - rewrite propagate_fading by exact Hf. do 2 eexists. split; [reflexivity |]. proj_W.
    repeat split; try reflexivity; lia.
  - destruct (Rlt_dec (rand (draws w)) (fade_start K elev)) as [Hi | Hi].
    + rewrite propagate_ignite by assumption. do 2 eexists. split; [reflexivity |]. proj_W.
      repeat split; try reflexivity; try lia; discriminate.
    + destruct (Rlt_dec (rand (S (draws w))) (loss_p K elev dir)) as [Hl | Hl].
      * rewrite propagate_loss by assumption. do 2 eexists. split; [reflexivity |]. proj_W.
        repeat split; try reflexivity; try lia; discriminate.
      * rewrite propagate_deliver by assumption. do 2 eexists. split; [reflexivity |]. proj_W.
        repeat split; try reflexivity; try lia; discriminate.
Qed.

Lemma delivered_dict_lookup (d : gmap string pyval) (bit_error dup : bool) :
  delivered_dict d bit_error dup !! "duplicated" = Some (VBool dup) /\
  delivered_dict d bit_error dup !! "corrupted" =
    Some (VBool (bit_error || truthy (default (VBool false) (d !! "corrupted")))) /\
  delivered_dict d bit_error dup !! "rf_note" =
    (if bit_error then Some (VStr "bit_error") else d !! "rf_note") /\
  (forall k : string, k <> "corrupted" -> k <> "duplicated" -> k <> "rf_note" ->
     delivered_dict d bit_error dup !! k = d !! k).
Proof.
  unfold delivered_dict. split; [apply lookup_insert_eq |].
  destruct bit_error; cbn [orb].
  - split; [| split].
    + rewrite lookup_insert_ne by discriminate. rewrite lookup_insert_ne by discriminate.
      apply lookup_insert_eq.
    + rewrite lookup_insert_ne by discriminate. apply lookup_insert_eq.
    + intros k Hc Hd Hn. rewrite !lookup_insert_ne by congruence. reflexivity.
  - split; [| split].
    + rewrite lookup_insert_ne by discriminate. apply lookup_insert_eq.
    + rewrite !lookup_insert_ne by discriminate. reflexivity.
    + intros k Hc Hd Hn. rewrite !lookup_insert_ne by congruence. reflexivity.
Qed.



(** X12: at the zenith the channel neither loses nor corrupts.  From 90
    degrees on, a clear channel whose first draw does not ignite a fade
    delivers the packet, whatever the base probabilities and the
    direction, and sets ["corrupted"] to the truth value of the input's:
    only the duplicate marker depends on a draw. *)
Theorem zenith_delivers (K : Constants) (rand : nat -> R)
    (packet : loc) (elev : R) (dir : string) (w : World) :
  90 <= elev ->
  (forall i, 0 <= rand i < 1) ->
  _in_fade w = false ->
  ~ rand (draws w) < fade_start K elev ->
  exists out w' dup,
    propagate K rand packet elev dir w = (Ok (Some out), w') /\
    deref w' out = delivered_dict (deref w packet) false dup.
Proof.
  intros He Hr Hf Hi.
  assert (Hq : 1 - quality elev = 0) by (rewrite quality_zenith by exact He; lra).
  assert (Hp : forall a, pow_value (1 - quality elev) a = 0).
  { intros a. unfold pow_value. destruct (Req_dec_T (1 - quality elev) 0); [reflexivity | lra]. }
  assert (Hlp : loss_p K elev dir = 0)
    by (unfold loss_p; rewrite Hp; destruct (is_uplink dir); lra).
  assert (Hbp : ber_p K elev dir = 0)
    by (unfold ber_p; rewrite Hp; destruct (is_uplink dir); lra).
  rewrite propagate_deliver; try assumption.
  - do 3 eexists. split; [reflexivity |].
    erewrite deref_insert_eq by (proj_W; reflexivity).
    rewrite Hbp. unfold Rltb at 1.
    destruct (Rlt_dec (rand (S (S (draws w)))) 0) as [Hlt | _];
      [pose proof (Hr (S (S (draws w)))); lra | reflexivity].
  - rewrite Hlp. pose proof (Hr (S (draws w))). lra.
Qed.

Lemma zenith_delivers_witness :
  exists out w' dup,
    propagate source_constants half 1%positive 90 "uplink" debug_world = (Ok (Some out), w') /\
    deref w' out = delivered_dict (deref debug_world 1%positive) false dup.
Proof.
  apply (zenith_delivers source_constants half 1%positive 90 "uplink" debug_world).
  - lra.
  - apply half_range.
  - reflexivity.
  - unfold fade_start. rewrite quality_zenith by lra. unfold half. cbn. lra.
Defined.

(** X13: the uplink is never kinder than the downlink.  With a
    non-negative base loss, from the same state and with the same draws,
    a packet that a downlink call drops is dropped by an uplink call
    too, leaving the same state. *)
Theorem uplink_drops_what_downlink_drops (K : Constants) (rand : nat -> R)
    (packet : loc) (elev : R) (w w' : World) :
  0 <= BASE_PACKET_LOSS K ->
  propagate K rand packet elev "downlink" w = (Ok None, w') ->
  propagate K rand packet elev "uplink" w = (Ok None, w').
Proof.
  intros HL.
  assert (Hle : loss_p K elev "downlink" <= loss_p K elev "uplink").
  { unfold loss_p. change (is_uplink "downlink") with false.
    change (is_uplink "uplink") with true. cbv zeta.
    pose proof (pow_value_nonneg (1 - quality elev) (16 / 10)). nra. }
  destruct (_in_fade w) eqn:Hf.
  - rewrite !propagate_fading by exact Hf. auto.
  - destruct (Rlt_dec (rand (draws w)) (fade_start K elev)) as [Hi | Hi].
    + rewrite !propagate_ignite by assumption. auto.
    + destruct (Rlt_dec (rand (S (draws w))) (loss_p K elev "downlink")) as [Hl | Hl].
      * rewrite !propagate_loss by (assumption || lra). auto.
      * rewrite propagate_deliver by assumption. discriminate.
Qed.

Lemma uplink_drops_what_downlink_drops_witness :
  propagate S4_constants half 1%positive 45 "uplink" debug_world =
  (Ok None,
   {| heap := heap debug_world; _in_fade := true;
      _fade_remaining := BURST_FADE_LENGTH_PKTS S4_constants;
      draws := S (draws debug_world);
      clock := clock debug_world + PROPAGATION_DELAY_S S4_constants;
      trace := trace debug_world |}).
Proof.
  apply (uplink_drops_what_downlink_drops S4_constants half 1%positive 45 debug_world).
  - cbn. lra.
  - apply propagate_ignite; [reflexivity |].
    apply certain_ignition; [reflexivity | unfold half; lra].
Defined.

End channel_more.

(** ** Further properties of the spacecraft node *)

Section satellite_more.
Local Open Scope R_scope.
Import Scenario.

Variable K : Constants.
Variable rand : nat -> R.
Variable skyfield : option (R -> R * R).

Lemma get_state_now_hidden (w : World) :
  ~ 10 < elevation_now skyfield w ->
  exists st, get_state_now (DEFAULT_ORBIT skyfield) w = (Ok st, w) /\ visible st = false.
Proof.
  intros Hvis.
  destruct (get_state_now_default skyfield w) as (st & Hnow & _ & _ & Hv & _).
  exists st. split; [exact Hnow |]. destruct (visible st); [tauto | reflexivity].
Qed.

(** X15: at or below the mask the TM producer is silent: the tick builds
    no packet, makes no draw, sends nothing and keeps the sequence
    number; it only logs that the spacecraft is not visible and sleeps
    for the time step. *)
Theorem tm_producer_silent_below_mask (seq : Z) (w : World) :
  ~ 10 < elevation_now skyfield w ->
  exists st w',
    get_state (DEFAULT_ORBIT skyfield) (clock w) = Ok st /\
    telemetry_sender_step K rand skyfield seq w = (Ok seq, w') /\
    trace w' = trace w ++
      [EPrintF "[SAT] TM gen (NOT visible) elev={:.1f}deg doppler={:.0f}Hz"
               [VFloat (elev_deg st); VFloat (doppler_hz st)]] /\
    sent (trace w') = sent (trace w) /\
    clock w' = clock w + TIME_STEP_S /\
    heap w' = heap w /\ draws w' = draws w.
Proof.
  intros Hvis.
  destruct (get_state_now_default skyfield w) as (st & Hnow & Hst & _ & Hv & _).
  assert (Hinv : visible st = false) by (destruct (visible st); [tauto | reflexivity]).
  exists st. unfold telemetry_sender_step. unfold bind at 1. rewrite Hnow, Hinv. cbn [negb orb].
  run_M. eexists. split; [exact Hst |]. split; [reflexivity |]. proj_W.
  rewrite sent_snoc_printf. auto 10.
Qed.

Lemma survivors_from_elem (vs : list channel_verdict) : forall (j i : nat) (be dup : bool),
  (i, be, dup) ∈ survivors_from j vs <->
  (j <= i)%nat /\ vs !! (i - j)%nat = Some (Delivered be dup).
Proof.
  induction vs as [| v vs IH]; intros j i be dup.
  - cbn [survivors_from]. rewrite elem_of_nil, lookup_nil. split; [tauto | intros [_ [=]]].
  - assert (Hstep : (S j <= i)%nat ->
                    (v :: vs) !! (i - j)%nat = vs !! (i - S j)%nat).
    { intros Hle. replace (i - j)%nat with (S (i - S j)) by lia. reflexivity. }
    destruct v as [| b d]; cbn [survivors_from].
    + rewrite IH. split.
      * intros [Hle Hl]. rewrite Hstep by exact Hle. split; [lia | exact Hl].
      * intros [Hle Hl]. destruct (decide (i = j)) as [-> | Hne].
        -- rewrite Nat.sub_diag in Hl. discriminate.
        -- rewrite Hstep in Hl by lia. split; [lia | exact Hl].
    + rewrite elem_of_cons, IH. split.
      * intros [[= -> -> ->] | [Hle Hl]].
        -- rewrite Nat.sub_diag. split; [lia | reflexivity].
        -- rewrite Hstep by exact Hle. split; [lia | exact Hl].
      * intros [Hle Hl]. destruct (decide (i = j)) as [-> | Hne].
        -- rewrite Nat.sub_diag in Hl. injection Hl as -> ->. left. reflexivity.
        -- rewrite Hstep in Hl by lia. right. split; [lia | exact Hl].
Qed.

(** X16: what a burst puts on the wire.  The datagrams sent by a burst of
    [n] packets are, in the order of the burst and without repetition,
    exactly the packets the channel delivered: the burst makes the
    channel rule [n] times, the packet of index [i] is sent if and only
    if the [i]-th ruling is a delivery, and then it carries the sequence
    number [(seq + i) mod 2^32] and the geometry snapshot of the tick,
    changed by the channel only in ["corrupted"], ["rf_note"] and
    ["duplicated"] as that ruling says. *)
Theorem tm_burst_wire_order (n : nat) (st : GeometryState) (seq : Z) (w : World) :
  (0 <= seq < 2 ^ 32)%Z ->
  let run := channel_run K rand (elev_deg st) "downlink" n (channel_of w) in
  exists w',
    tm_burst K rand n st seq w = (Ok ((seq + Z.of_nat n) mod 2 ^ 32)%Z, w') /\
    trace w' = trace w ++ map (tm_datagram st seq) (survivors (fst run)) /\
    channel_of w' = snd run /\
    length (fst run) = n /\
    (survivors (fst run)).*1.*1 `sublist_of` List.seq 0%nat n /\
    (forall (i : nat) (bit_error dup : bool),
       (i, bit_error, dup) ∈ survivors (fst run) <->
       fst run !! i = Some (Delivered bit_error dup)).
Proof.
  intros Hseq run.
  destruct (tm_burst_run K rand n st seq w Hseq) as (w' & Hb & _ & Hch & Ht).
  exists w'. split; [exact Hb |]. split; [exact Ht |]. split; [exact Hch |].
  pose proof (channel_run_length K rand (elev_deg st) "downlink" n (channel_of w)) as Hlen.
  split; [exact Hlen |]. split.
  - pose proof (survivors_from_indices (fst run) 0) as Hsub.
    unfold run in Hsub. rewrite Hlen in Hsub. exact Hsub.
  - intros i be dup. unfold survivors. rewrite survivors_from_elem, Nat.sub_0_r.
    split; [tauto | intros H; split; [lia | exact H]].
Qed.

Lemma telecommand_executor_step_idle (queue : list string) (w : World) :
  (~ 10 < elevation_now skyfield w ->
   telecommand_executor_step K rand skyfield queue w
   = (Ok queue, set_clock (clock w + 5 / 10) w)) /\
  (10 < elevation_now skyfield w ->
   telecommand_executor_step K rand skyfield [] w
   = (Ok [], set_clock (clock w + 2 / 10) w)).
Proof.
  split; intros Hvis.
  - destruct (get_state_now_hidden w Hvis) as (st & Hnow & Hinv).
    unfold telecommand_executor_step. unfold bind at 1. rewrite Hnow, Hinv. reflexivity.
  - destruct (get_state_now_default skyfield w) as (st & Hnow & _ & _ & Hv & _).
    apply Hv in Hvis.
    unfold telecommand_executor_step. unfold bind at 1. rewrite Hnow, Hvis. reflexivity.
Qed.

(** X17: the executor holds commands during an outage.  While the
    spacecraft is at or below the mask an iteration leaves the on-board
    queue as it is and logs nothing; and above the mask an empty queue
    only makes it sleep. *)
Theorem executor_waits (queue : list string) (w : World) :
  (~ 10 < elevation_now skyfield w ->
   telecommand_executor_step K rand skyfield queue w
   = (Ok queue, set_clock (clock w + 5 / 10) w)) /\
  (10 < elevation_now skyfield w ->
   telecommand_executor_step K rand skyfield [] w
   = (Ok [], set_clock (clock w + 2 / 10) w)).
Proof. apply telecommand_executor_step_idle. Qed.

(** What any iteration of the executor does to the queue and the log. *)
Lemma telecommand_executor_step_any (queue : list string) (w : World) :
  exists queue' w' (done : list (string * tc_fate)),
    telecommand_executor_step K rand skyfield queue w = (Ok queue', w') /\
    trace w' = trace w ++ map (fun d => fate_line d.1 d.2) done /\
    queue = done.*1 ++ queue' /\ (length done <= 1)%nat.
Proof.
  destruct (Rlt_dec 10 (elevation_now skyfield w)) as [Hvis | Hvis].
  - destruct queue as [| cmd rest].
    + exists [], (set_clock (clock w + 2 / 10) w), [].
      rewrite (proj2 (telecommand_executor_step_idle [] w) Hvis). cbn. rewrite app_nil_r. auto.
    + destruct (telecommand_executor_step_visible K rand skyfield w cmd rest Hvis)
        as (verdict & w2 & w' & _ & Hstep & Htr).
      exists rest, w'.
      exists [(cmd, match verdict with
                    | None => Lost
                    | Some out => if truthy (dict_get (deref w2 out) "corrupted")
                                  then Ignored else Executed
                    end)].
      split; [exact Hstep |]. split; [| split; [reflexivity | cbn; lia]].
      rewrite Htr. cbn [map fst snd]. unfold fate_line.
      destruct verdict as [out |]; [destruct (truthy _) |]; reflexivity.
  - exists queue, (set_clock (clock w + 5 / 10) w), [].
    rewrite (proj1 (telecommand_executor_step_idle queue w) Hvis). cbn. rewrite app_nil_r. auto.
Qed.

Lemma telecommand_executor_run_fifo (n : nat) : forall (queue : list string) (w : World),
  exists queue' w' (done : list (string * tc_fate)),
    telecommand_executor_run K rand skyfield n queue w = (Ok queue', w') /\
    trace w' = trace w ++ map (fun d => fate_line d.1 d.2) done /\
    queue = done.*1 ++ queue' /\ (length done <= n)%nat.
Proof.
  induction n as [| n IH]; intros queue w.
  - exists queue, w, []. cbn. rewrite app_nil_r. auto.
  - destruct (telecommand_executor_step_any queue w) as (q1 & w1 & d1 & Hstep & Ht1 & Hq1 & Hl1).
    destruct (IH q1 w1) as (q' & w' & d2 & Hrun & Ht2 & Hq2 & Hl2).
    exists q', w', (d1 ++ d2). cbn [telecommand_executor_run]. unfold bind. rewrite Hstep.
    split; [exact Hrun |]. split; [| split].
    + rewrite Ht2, Ht1, map_app, app_assoc. reflexivity.
    + rewrite Hq1, Hq2, fmap_app, app_assoc. reflexivity.
    + rewrite length_app. lia.
Qed.

(** X18: the on-board queue is first in, first out.  Over any number of
    executor iterations the commands dealt with are a prefix of the
    queue, taken in order; each of them gets exactly one line in the log
    (lost, ignored or executed) and the rest stays queued. *)
Theorem executor_is_fifo (n : nat) (queue : list string) (w : World) :
  exists queue' w' (done : list (string * tc_fate)),
    telecommand_executor_run K rand skyfield n queue w = (Ok queue', w') /\
    trace w' = trace w ++ map (fun d => fate_line d.1 d.2) done /\
    queue = done.*1 ++ queue' /\ (length done <= n)%nat.
Proof. apply telecommand_executor_run_fifo. Qed.

End satellite_more.

(** ** Further properties of the BBU node *)

Section bbu_more.
Local Open Scope R_scope.
Import bbu_leo.

Variable K : Constants.
Variable rand : nat -> R.
Variable skyfield : option (R -> R * R).

Lemma last_n_all {A} (n : nat) (l : list A) : (length l <= n)%nat -> last_n n l = l.
Proof. intros Hl. unfold last_n. replace (length l - n)%nat with 0%nat by lia. apply drop_0. Qed.

Lemma last_n_sublist {A} (n : nat) (l : list A) : last_n n l `sublist_of` l.
Proof. unfold last_n. apply sublist_drop. Qed.

Lemma last_n_app_last_n {A} (n : nat) (l k : list A) :
  last_n n (last_n n l ++ k) = last_n n (l ++ k).
Proof.
  destruct (decide (length l <= n)%nat) as [Hle | Hgt].
  - rewrite (last_n_all n l) by exact Hle. reflexivity.
  - unfold last_n. rewrite !length_app, length_drop.
    replace (length l - (length l - n) + length k - n)%nat with (length k) by lia.
    replace (length l + length k - n)%nat with ((length l - n) + length k)%nat by lia.
    rewrite <- drop_drop. rewrite (drop_app_le l k (length l - n)) by lia. reflexivity.
Qed.

(** The buffer after [append] and truncation holds the [cap] most recent
    entries. *)
Lemma capped_append_last_n (cap : nat) (l : list string) (raw : string) :
  (if (cap <? length (l ++ [raw]))%nat then last_n cap (l ++ [raw]) else l ++ [raw])
  = last_n cap (l ++ [raw]).
Proof.
  destruct (Nat.ltb_spec cap (length (l ++ [raw]))); [reflexivity |].
  symmetry. apply last_n_all. lia.
Qed.

Lemma tm_receiver_step_exact (raw : string) (g : Globals) (w : World) :
  exists vis w',
    is_visible_now skyfield w = (Ok vis, w) /\
    (vis = true <-> 10 < elevation_now skyfield w) /\
    tm_receiver_step skyfield raw g w =
    (Ok {| telemetry_live :=
             if vis then last_n 2000 (telemetry_live g ++ [raw]) else telemetry_live g;
           telemetry_history := last_n 5000 (telemetry_history g ++ [raw]);
           telecommand_queue := telecommand_queue g |}, w') /\
    clock w' = clock w.
Proof.
  destruct (is_visible_now_default skyfield w) as (vis & Hvis & Hv).
  exists vis. unfold tm_receiver_step. unfold bind at 1. rewrite Hvis.
  cbn [telemetry_live telemetry_history telecommand_queue].
  rewrite !capped_append_last_n.
  destruct vis; run_M; eexists; (split; [reflexivity |]); (split; [exact Hv |]);
    split; reflexivity.
Qed.

(** The three ways through a pacing iteration. *)
Lemma tm_server_pacing_step_cases (sendall_ok : bool) (g : Globals) (w : World) :
  exists vis o g' w',
    is_visible_now skyfield w = (Ok vis, w) /\
    tm_server_pacing_step skyfield sendall_ok g w = (Ok (o, g'), w') /\
    telemetry_history g' = telemetry_history g /\
    telecommand_queue g' = telecommand_queue g /\
    trace w' = trace w /\
    ((exists tm, vis = true /\ telemetry_live g = tm :: telemetry_live g' /\
                 o = (if sendall_ok then Sent else Closed) ("LIVE|" +:+ tm)) \/
     (exists tm, (vis = false \/ telemetry_live g = []) /\ g' = g /\
                 last (telemetry_history g) = Some tm /\
                 o = (if sendall_ok then Sent else Closed) ("HIST|" +:+ tm)) \/
     ((vis = false \/ telemetry_live g = []) /\ g' = g /\
      telemetry_history g = [] /\ o = Idle)).
Proof.
  destruct (is_visible_now_default skyfield w) as (vis & Hvis & _).
  exists vis. unfold tm_server_pacing_step. unfold bind at 1. rewrite Hvis.
  destruct (last (telemetry_history g)) as [h |] eqn:Hlast;
    [| apply last_None in Hlast];
    destruct vis; destruct (telemetry_live g) as [| tm rest] eqn:Hlive;
    destruct sendall_ok; run_M; do 3 eexists; (split; [reflexivity |]);
    cbn [telemetry_live telemetry_history telecommand_queue];
    repeat (split; [reflexivity |]);
    first [ left; exists tm; repeat split; reflexivity
          | right; left; exists h; repeat split; auto; fail
          | right; right; repeat split; auto ].
Qed.

Lemma is_visible_now_hidden (w : World) :
  never_visible skyfield -> is_visible_now skyfield w = (Ok false, w).
Proof.
  intros Hnever. destruct (is_visible_now_default skyfield w) as (vis & Hvis & Hv).
  rewrite Hvis. destruct vis; [| reflexivity]. exfalso. apply (Hnever w), Hv. reflexivity.
Qed.

Lemma is_visible_now_shown (w : World) :
  10 < elevation_now skyfield w -> is_visible_now skyfield w = (Ok true, w).
Proof.
  intros Hvis'. destruct (is_visible_now_default skyfield w) as (vis & Hvis & Hv).
  rewrite Hvis. apply Hv in Hvis'. subst vis. reflexivity.
Qed.

(** X19: the last-known beacon.  While the spacecraft is never above the
    mask, every pacing iteration sends the newest frame of the history
    tagged HIST and leaves all buffers untouched; so any number of
    iterations sends the same message again and again. *)
Theorem hist_beacon_repeats (g : Globals) (tm : string) (n : nat) :
  never_visible skyfield ->
  last (telemetry_history g) = Some tm ->
  forall w, exists w',
    tm_side_run skyfield (replicate n (Pace true)) g w
    = (Ok (replicate n (Sent ("HIST|" +:+ tm)), g), w').
Proof.
  intros Hnever Hlast. induction n as [| n IH]; intros w.
  - exists w. reflexivity.
  - cbn [replicate tm_side_run]. unfold bind at 1.
    assert (Hstep : tm_server_pacing_step skyfield true g w
                    = (Ok (Sent ("HIST|" +:+ tm), g), set_clock (clock w + 2 / 10) w)).
    { unfold tm_server_pacing_step. unfold bind at 1.
      rewrite is_visible_now_hidden by exact Hnever. rewrite Hlast. reflexivity. }
    rewrite Hstep. cbn [fst snd].
    destruct (IH (set_clock (clock w + 2 / 10) w)) as (w' & Hrun).
    unfold bind. rewrite Hrun. exists w'. reflexivity.
Qed.

(** X20: a LIVE frame leaves the buffer when it is picked, not when it
    is sent.  Above the mask with a frame waiting, the pacing iteration
    takes the oldest live frame and tags it LIVE; the frame is gone from
    [telemetry_live] whether [sendall] returns or raises, and the history
    is not touched. *)
Theorem live_frame_is_popped (sendall_ok : bool) (g : Globals) (w : World)
    (tm : string) (rest : list string) :
  10 < elevation_now skyfield w ->
  telemetry_live g = tm :: rest ->
  exists g' w',
    tm_server_pacing_step skyfield sendall_ok g w
    = (Ok ((if sendall_ok then Sent else Closed) ("LIVE|" +:+ tm), g'), w') /\
    telemetry_live g' = rest /\
    telemetry_history g' = telemetry_history g.
Proof.
  intros Hvis Hlive. unfold tm_server_pacing_step. unfold bind at 1.
  rewrite is_visible_now_shown by exact Hvis. rewrite Hlive.
  destruct sendall_ok; run_M; do 2 eexists; split; try reflexivity; split; reflexivity.
Qed.

Lemma prefix_live (tm : string) : String.prefix "LIVE|" ("LIVE|" +:+ tm) = true.
Proof. destruct tm; reflexivity. Qed.

Lemma prefix_hist (tm : string) : String.prefix "LIVE|" ("HIST|" +:+ tm) = false.
Proof. reflexivity. Qed.

(** X21: the TM side under any interleaving of arrivals and pacing
    iterations.  From buffers within their caps the run returns with
    buffers within their caps; the history is exactly the 5000 most
    recent of its frames and the arrivals, in order; and the frames sent
    tagged LIVE are, in order and without repetition, frames of the live
    buffer and of the arrivals. *)
Theorem tm_side_interleaving (actions : list tm_action) : forall (g : Globals) (w : World),
  within_caps g ->
  exists os g' w' (frames : list string),
    tm_side_run skyfield actions g w = (Ok (os, g'), w') /\
    within_caps g' /\
    telemetry_history g' = last_n 5000 (telemetry_history g ++ arrivals actions) /\
    tagged "LIVE|" os = map (String.append "LIVE|") frames /\
    frames `sublist_of` telemetry_live g ++ arrivals actions.
Proof.
  induction actions as [| a actions IH]; intros g w [Hl Hh].
  - exists [], g, w, []. split; [reflexivity |]. split; [split; assumption |].
    cbn [arrivals omap list_omap]. rewrite app_nil_r, last_n_all by exact Hh.
    split; [reflexivity |]. split; [reflexivity | apply sublist_nil_l].
  - destruct a as [wait raw | ok].
    + cbn [tm_side_run]. unfold bind at 1, sleep, modify. cbv beta iota. unfold bind at 1.
      match goal with |- context [tm_receiver_step skyfield raw g ?w1] =>
        destruct (tm_receiver_step_exact raw g w1) as (vis & w2 & _ & _ & Hstep & _) end.
      rewrite Hstep.
      match goal with |- context [tm_side_run skyfield actions ?g1 w2] =>
        destruct (IH g1 w2) as (os & g' & w' & frames & Hrun & Hcaps & Hhist & Htag & Hsub) end.
      { split; cbn [telemetry_live telemetry_history].
        - destruct vis; [apply length_last_n | exact Hl].
        - apply length_last_n. }
      exists os, g', w', frames. split; [exact Hrun |]. split; [exact Hcaps |].
      cbn [telemetry_live telemetry_history] in Hhist, Hsub.
      change (arrivals (Arrival wait raw :: actions)) with (raw :: arrivals actions).
      split; [| split; [exact Htag |]].
      * rewrite Hhist, last_n_app_last_n, <- app_assoc. reflexivity.
      * etransitivity; [exact Hsub |].
        destruct vis.
        -- change (raw :: arrivals actions) with ([raw] ++ arrivals actions).
           rewrite app_assoc. apply sublist_app; [apply last_n_sublist | reflexivity].
        -- apply sublist_app; [reflexivity | apply sublist_cons; reflexivity].
    + cbn [tm_side_run]. unfold bind at 1.
      destruct (tm_server_pacing_step_cases ok g w)
        as (vis & o & g1 & w1 & _ & Hstep & Hh1 & _ & _ & Hcase).
      rewrite Hstep. cbn [fst snd].
      assert (Hcaps1 : within_caps g1).
      { split; [| rewrite Hh1; exact Hh].
        destruct Hcase as [(tm & _ & Hlive & _) | [(tm & _ & -> & _) | (_ & -> & _)]];
          [rewrite Hlive in Hl; cbn in Hl; lia | exact Hl | exact Hl]. }
      destruct (IH g1 w1 Hcaps1) as (os & g' & w' & frames & Hrun & Hcaps & Hhist & Htag & Hsub).
      unfold bind. rewrite Hrun. cbn [fst snd].
      change (arrivals (Pace ok :: actions)) with (arrivals actions).
      destruct Hcase as [(tm & _ & Hlive & ->) | [(tm & _ & -> & _ & ->) | (_ & -> & _ & ->)]].
      * exists ((if ok then Sent else Closed) ("LIVE|" +:+ tm) :: os), g', w', (tm :: frames).
        split; [reflexivity |]. split; [exact Hcaps |].
        split; [rewrite Hhist, Hh1; reflexivity |]. split.
        -- unfold tagged in *. cbn [omap list_omap map].
           destruct ok; rewrite prefix_live, Htag; reflexivity.
        -- rewrite Hlive. cbn [app]. apply sublist_skip. exact Hsub.
      * exists ((if ok then Sent else Closed) ("HIST|" +:+ tm) :: os), g', w', frames.
        split; [reflexivity |]. split; [exact Hcaps |]. split; [exact Hhist |].
        split; [| exact Hsub].
        unfold tagged in *. cbn [omap list_omap].
        destruct ok; rewrite prefix_hist; exact Htag.
      * exists (Idle :: os), g', w', frames.
        split; [reflexivity |]. split; [exact Hcaps |]. split; [exact Hhist |].
        split; [exact Htag | exact Hsub].
Qed.

(** X22: the uplink keeps the order of the commands.  Over any
    interleaving of arrivals from the Web and sender iterations, from any
    state, the datagrams sent to the spacecraft are, in order and without
    repetition, commands that were queued at the start or arrived since;
    the BBU never reorders, repeats or invents a command. *)
Theorem uplink_preserves_order (actions : list uplink_action) (g : Globals) (w : World) :
  exists g' w' (cmds : list string),
    uplink_run K rand skyfield actions g w = (Ok g', w') /\
    sent (trace w') = sent (trace w) ++ map DText cmds /\
    cmds `sublist_of` telecommand_queue g ++ from_web actions.
Proof. apply uplink_run_sends. Qed.

(** X23: commands are held during an outage.  While the spacecraft is
    never above the mask, no interleaving of arrivals and sender
    iterations sends anything, and the queue ends up holding what it held
    followed by every non-empty command that arrived, in order. *)
Theorem uplink_holds_during_outage (actions : list uplink_action) :
  never_visible skyfield ->
  forall (g : Globals) (w : World),
  exists g' w',
    uplink_run K rand skyfield actions g w = (Ok g', w') /\
    sent (trace w') = sent (trace w) /\
    telecommand_queue g' = telecommand_queue g ++ from_web actions.
Proof.
  intros Hnever. induction actions as [| a actions IH]; intros g w.
  - exists g, w. cbn. rewrite app_nil_r. auto.
  - destruct a as [tc |]; cbn [uplink_run]; unfold bind.
    + destruct (tc_enqueue_spec tc g w) as (g1 & w1 & -> & Hs1 & Hq1).
      destruct (IH g1 w1) as (g' & w' & Hrun & Hs & Hq).
      exists g', w'. split; [exact Hrun |]. split; [congruence |].
      rewrite Hq, Hq1, <- app_assoc. f_equal.
      unfold from_web. cbn [omap list_omap]. destruct (String.eqb tc ""); reflexivity.
    + assert (Hstep : exists w1, tc_sender_step K rand skyfield g w = (Ok g, w1) /\
                                 sent (trace w1) = sent (trace w)).
      { destruct (telecommand_queue g) as [| tc rest] eqn:Hq.
        - rewrite tc_sender_step_idle by exact Hq. eexists. split; reflexivity.
        - destruct (tc_sender_step_waiting K rand skyfield g w tc rest Hq (Hnever w))
            as (w1 & Hstep & Htr).
          exists w1. split; [exact Hstep |]. rewrite Htr. apply sent_snoc_print. }
      destruct Hstep as (w1 & -> & Hs1).
      destruct (IH g w1) as (g' & w' & Hrun & Hs & Hq).
      exists g', w'. split; [exact Hrun |]. split; [congruence | exact Hq].
Qed.

End bbu_more.

(** ** The uplink over a channel that cannot drop *)

Section lossless_uplink.
Local Open Scope R_scope.
Import bbu_leo.

Variable K : Constants.
Variable rand : nat -> R.
Variable skyfield : option (R -> R * R).

Lemma tc_packet_corrupted (cmd : string) (now : R) :
  tc_packet cmd now !! "corrupted" = Some (VBool false).
Proof.
  unfold tc_packet, py_dict. rewrite !list_to_map_cons. cbn [fst snd].
  rewrite !lookup_insert_ne by discriminate. apply lookup_insert_eq.
Qed.

(** On a quiet, clear channel the packet built around a command comes
    back uncorrupted. *)
Lemma quiet_tc_verdict (cmd : string) (w : World) :
  quiet K rand -> _in_fade w = false ->
  exists out w2,
    propagate K rand (fresh (dom (heap w))) (elevation_now skyfield w) "uplink"
              (with_tc_packet cmd w) = (Ok (Some out), w2) /\
    truthy (dict_get (deref w2 out) "corrupted") = false /\
    _in_fade w2 = false /\ trace w2 = trace w.
Proof.
  intros (HL & HB & HD & HS & Hr) Hf.
  rewrite quiet_channel_delivers; try assumption.
  do 2 eexists. split; [reflexivity |].
  erewrite deref_insert_eq by (proj_W; reflexivity).
  split; [| split; reflexivity].
  unfold dict_get.
  rewrite (proj1 (proj2 (delivered_dict_lookup _ false false))).
  unfold with_tc_packet, deref, set_heap. proj_W.
  rewrite lookup_insert_eq. cbn [default from_option Datatypes.id]. unfold Datatypes.id.
  rewrite tc_packet_corrupted. reflexivity.
Qed.

Lemma tc_sender_step_quiet (g : Globals) (w : World) (tc : string) (rest : list string) :
  quiet K rand -> _in_fade w = false ->
  telecommand_queue g = tc :: rest ->
  10 < elevation_now skyfield w ->
  exists w',
    tc_sender_step K rand skyfield g w = (Ok (with_queue g rest), w') /\
    trace w' = trace w ++ [ESendTo (DText tc) SAT_IP SAT_TC_PORT;
                           EPrint ("[BBU] TC SENT to satellite: " +:+ tc)] /\
    _in_fade w' = false.
Proof.
  intros Hquiet Hf Hq Hvis.
  destruct (get_state_now_default skyfield w) as (st & Hnow & _ & He & Hv & _).
  apply Hv in Hvis.
  destruct (quiet_tc_verdict tc w Hquiet Hf) as (out & w2 & Hrun & Hc & Hf2 & Htr).
  unfold tc_sender_step. rewrite Hq. unfold bind at 1. rewrite Hnow, Hvis. cbn [negb].
  unfold bind at 1, time, gets. unfold bind at 1, new_dict.
  unfold bind at 1. rewrite He.
  change (set_heap _ w) with (with_tc_packet tc w).
  rewrite Hrun. run_M. rewrite Hc. run_M.
  eexists. split; [reflexivity |]. proj_W. rewrite Htr, <- app_assoc.
  split; [reflexivity | exact Hf2].
Qed.

(** X24: on a channel that cannot drop, with the spacecraft always above
    the mask, the sender drains the queue in order: [n] iterations send
    exactly the first [n] queued commands, one datagram each, and leave
    the others queued. *)
Theorem uplink_drains_in_order (n : nat) :
  quiet K rand -> always_visible skyfield ->
  forall (g : Globals) (w : World),
  _in_fade w = false ->
  exists g' w',
    uplink_run K rand skyfield (replicate n SenderStep) g w = (Ok g', w') /\
    sent (trace w') = sent (trace w) ++ map DText (take n (telecommand_queue g)) /\
    telecommand_queue g' = drop n (telecommand_queue g).
Proof.
  intros Hquiet Hvis. induction n as [| n IH]; intros g w Hf.
  - exists g, w. cbn. rewrite app_nil_r. auto.
  - cbn [replicate uplink_run]. unfold bind.
    destruct (telecommand_queue g) as [| tc rest] eqn:Hq.
    + rewrite tc_sender_step_idle by exact Hq.
      destruct (IH g (set_clock (clock w + 2 / 10) w) Hf) as (g' & w' & Hrun & Hs & Hq').
      rewrite Hq in Hs, Hq'. exists g', w'. split; [exact Hrun |].
      rewrite Hs, Hq'. rewrite take_nil, drop_nil. split; reflexivity.
    + destruct (tc_sender_step_quiet g w tc rest Hquiet Hf Hq (Hvis w))
        as (w1 & -> & Htr & Hf1).
      destruct (IH (with_queue g rest) w1 Hf1) as (g' & w' & Hrun & Hs & Hq').
      exists g', w'. split; [exact Hrun |]. split; [| exact Hq'].
      rewrite Hs, Htr, sent_app. cbn [with_queue telecommand_queue take map].
      rewrite <- app_assoc. reflexivity.
Qed.

Lemma telecommand_executor_step_quiet (w : World) (cmd : string) (rest : list string) :
  quiet K rand -> _in_fade w = false ->
  10 < elevation_now skyfield w ->
  exists w',
    telecommand_executor_step K rand skyfield (cmd :: rest) w = (Ok rest, w') /\
    trace w' = trace w ++ [fate_line cmd Executed] /\
    _in_fade w' = false.
Proof.
  intros Hquiet Hf Hvis.
  destruct (get_state_now_default skyfield w) as (st & Hnow & _ & He & Hv & _).
  apply Hv in Hvis.
  destruct (quiet_tc_verdict cmd w Hquiet Hf) as (out & w2 & Hrun & Hc & Hf2 & Htr).
  unfold telecommand_executor_step. unfold bind at 1. rewrite Hnow, Hvis.
  cbn [negb _dequeue_tc].
  unfold bind at 1, time, gets. unfold bind at 1, new_dict.
  unfold bind at 1. rewrite He.
  change (set_heap _ w) with (with_tc_packet cmd w).
  rewrite Hrun. run_M. rewrite Hc. run_M.
  eexists. split; [reflexivity |]. proj_W. rewrite Htr.
  split; [reflexivity | exact Hf2].
Qed.

(** X25: on a channel that cannot drop, with the spacecraft always above
    the mask, the executor executes: [n] iterations log the first [n]
    queued commands as executed, in order, and leave the others queued. *)
Theorem executor_executes_in_order (n : nat) :
  quiet K rand -> always_visible skyfield ->
  forall (queue : list string) (w : World),
  _in_fade w = false ->
  exists w',
    telecommand_executor_run K rand skyfield n queue w = (Ok (drop n queue), w') /\
    trace w' = trace w ++ map (fun cmd => fate_line cmd Executed) (take n queue).
Proof.
  intros Hquiet Hvis. induction n as [| n IH]; intros queue w Hf.
  - exists w. cbn. rewrite app_nil_r. auto.
  - cbn [telecommand_executor_run]. unfold bind.
    destruct queue as [| cmd rest].
    + rewrite (proj2 (telecommand_executor_step_idle K rand skyfield [] w) (Hvis w)).
      destruct (IH [] (set_clock (clock w + 2 / 10) w) Hf) as (w' & Hrun & Htr).
      rewrite drop_nil in Hrun. rewrite take_nil in Htr.
      exists w'. split; [exact Hrun | exact Htr].
    + destruct (telecommand_executor_step_quiet w cmd rest Hquiet Hf (Hvis w))
        as (w1 & -> & Htr & Hf1).
      destruct (IH rest w1 Hf1) as (w' & Hrun & Htr').
      exists w'. split; [exact Hrun |].
      rewrite Htr', Htr, <- app_assoc. reflexivity.
Qed.

End lossless_uplink.

(** ** The Web client and the TM stream *)

Section web_client.
Import bbu_leo web_leo.

Lemma split_bar_tag (mode tm : string) :
  split_bar mode = None -> split_bar (mode +:+ "|" +:+ tm) = Some (mode, tm).
Proof.
  induction mode as [| c mode IH]; intros Hnone.
  - reflexivity.
  - change (String c mode +:+ "|" +:+ tm) with (String c (mode +:+ "|" +:+ tm)).
    cbn [split_bar] in Hnone |- *.
    destruct (Ascii.eqb c _); [discriminate |].
    destruct (split_bar mode) as [[a b] |]; [discriminate |].
    rewrite IH by reflexivity. reflexivity.
Qed.

(** X26: the framing of the TM stream round-trips.  A tag without a bar,
    a bar and a frame are read back by the client as that tag and that
    frame, bars in the frame included; so whatever a pacing iteration of
    the BBU hands to [sendall], the client reads as LIVE or HIST together
    with the frame the BBU took from its buffers; and a message without
    a bar is filed under UNK. *)
Theorem tm_stream_framing (skyfield : option (R -> R * R))
    (sendall_ok : bool) (g : Globals) (w : World) (mode tm msg : string) :
  (split_bar mode = None -> parse (mode +:+ "|" +:+ tm) = (mode, tm)) /\
  (split_bar msg = None -> parse msg = ("UNK", msg)) /\
  exists o g' w',
    tm_server_pacing_step skyfield sendall_ok g w = (Ok (o, g'), w') /\
    match o with
    | Idle => telemetry_history g = []
    | Sent m | Closed m =>
      (exists frame, parse m = ("LIVE", frame) /\ telemetry_live g = frame :: telemetry_live g') \/
      (exists frame, parse m = ("HIST", frame) /\ last (telemetry_history g) = Some frame)
    end.
Proof.
  split; [| split].
  - intros Hmode. unfold parse. rewrite split_bar_tag by exact Hmode. reflexivity.
  - intros Hmsg. unfold parse. rewrite Hmsg. reflexivity.
  - destruct (tm_server_pacing_step_cases skyfield sendall_ok g w)
      as (vis & o & g' & w' & _ & Hstep & _ & _ & _ & Hcase).
    exists o, g', w'. split; [exact Hstep |].
    destruct Hcase as [(frame & _ & Hlive & ->) | [(frame & _ & _ & Hlast & ->) | (_ & _ & Hh & ->)]].
    + destruct sendall_ok; left; exists frame; (split; [| exact Hlive]);
        reflexivity.
    + destruct sendall_ok; right; exists frame; (split; [| exact Hlast]);
        reflexivity.
    + exact Hh.
Qed.

End web_client.

(** ** Arrival order, accessors and the client's buffer *)

Section more_compositions.
Local Open Scope R_scope.

Lemma telecommand_receiver_run_spec (cmds : list string) : forall (queue : list string) (w : World),
  exists w',
    telecommand_receiver_run cmds queue w = (Ok (queue ++ cmds), w') /\
    trace w' = trace w ++ map (fun cmd => EPrint ("[SAT] TC RECEIVED (queued): " +:+ cmd)) cmds.
Proof.
  induction cmds as [| cmd cmds IH]; intros queue w.
  - exists w. cbn. rewrite !app_nil_r. auto.
  - cbn [telecommand_receiver_run]. unfold bind at 1, telecommand_receiver_step, _enqueue_tc.
    run_M.
    match goal with |- context [telecommand_receiver_run cmds ?q ?w1] =>
      destruct (IH q w1) as (w' & Hrun & Htr) end.
    exists w'. rewrite Hrun, <- app_assoc. split; [reflexivity |].
    rewrite Htr. proj_W. rewrite <- app_assoc. reflexivity.
Qed.

(** X27: on the spacecraft the order of arrival is the order of
    execution.  Commands received are appended to the on-board queue, one
    log line each; whatever the executor then deals with, over any number
    of iterations, is a prefix of the queue followed by the arrivals, in
    that order, and the remainder stays queued. *)
Theorem arrival_order_is_execution_order (K : Constants) (rand : nat -> R)
    (skyfield : option (R -> R * R))
    (cmds queue : list string) (n : nat) (w : World) :
  exists w1 queue' w' (done : list (string * tc_fate)),
    telecommand_receiver_run cmds queue w = (Ok (queue ++ cmds), w1) /\
    trace w1 = trace w ++ map (fun cmd => EPrint ("[SAT] TC RECEIVED (queued): " +:+ cmd)) cmds /\
    telecommand_executor_run K rand skyfield n (queue ++ cmds) w1 = (Ok queue', w') /\
    trace w' = trace w1 ++ map (fun d => fate_line d.1 d.2) done /\
    queue ++ cmds = done.*1 ++ queue'.
Proof.
  destruct (telecommand_receiver_run_spec cmds queue w) as (w1 & Hrecv & Htr1).
  destruct (telecommand_executor_run_fifo K rand skyfield n (queue ++ cmds) w1)
    as (queue' & w' & done & Hrun & Htr & Hq & _).
  exists w1, queue', w', done. auto.
Qed.

(** X28: the accessors agree with the state.  Whenever they return,
    [is_visible] is true exactly when [elevation_deg] is strictly above
    the configured mask (an elevation equal to the mask is not visible);
    and the two raise together. *)
Theorem visibility_is_strict (self : OrbitModel) (now : R) :
  (forall vis e,
     is_visible self now = Ok vis -> elevation_deg self now = Ok e ->
     (vis = true <-> e > elev_mask_deg (cfg self)) /\
     (e = elev_mask_deg (cfg self) -> vis = false)) /\
  (forall x, is_visible self now = Raised x <-> elevation_deg self now = Raised x).
Proof.
  unfold is_visible, elevation_deg.
  destruct (get_state self now) as [st | x0] eqn:Hst.
  - split; [| intros x; split; discriminate].
    intros vis e [= <-] [= <-].
    revert Hst. unfold get_state. destruct (backend_state self now) as [e d].
    destruct (data_rate_mbps e (dl_max_rate_mbps _) _ _); [| discriminate].
    destruct (data_rate_mbps e (ul_max_rate_mbps _) _ _); [| discriminate].
    intros [= <-]. cbn [visible elev_deg].
    destruct (Rgt_dec e (elev_mask_deg (cfg self))) as [Hgt | Hle].
    + split; [tauto |]. intros ->. lra.
    + split; [split; [discriminate | contradiction] | reflexivity].
  - split; [intros vis e; discriminate |].
    intros x. destruct x, x0. split; intros _; reflexivity.
Qed.

(** X29: the client's buffer.  A [recv] that returns nothing leaves the
    buffer alone; any other message is parsed and appended, and the
    buffer is cut to its 200 most recent entries, the new one last. *)
Theorem web_buffer_is_capped (data : string) (tm_buffer : list (string * string)) :
  (data = "" -> web_leo.receive data tm_buffer = tm_buffer) /\
  (data <> "" ->
   web_leo.receive data tm_buffer = last_n 200 (tm_buffer ++ [web_leo.parse data]) /\
   (length (web_leo.receive data tm_buffer) <= 200)%nat /\
   last (web_leo.receive data tm_buffer) = Some (web_leo.parse data)).
Proof.
  unfold web_leo.receive. split.
  - intros ->. reflexivity.
  - intros Hne. apply String.eqb_neq in Hne. rewrite Hne.
    split; [reflexivity |]. split; [apply length_last_n |].
    rewrite last_last_n by lia. apply last_snoc.
Qed.

End more_compositions.

(** ** Instances *)

Section instances.
Local Open Scope R_scope.
Import Scenario.

Lemma never_visible_fixed (e : R) : e <= 10 -> never_visible (fixed_elevation e).
Proof. intros He w. rewrite fixed_elevation_now. lra. Qed.

Lemma always_visible_fixed (e : R) : 10 < e -> always_visible (fixed_elevation e).
Proof. intros He w. rewrite fixed_elevation_now. exact He. Qed.

Lemma quiet_half : quiet quiet_constants half.
Proof. repeat split; try reflexivity; apply half_range. Qed.

Lemma propagate_cost_witness :
  exists r w',
    propagate source_constants half 1%positive 45 "downlink"
      {| heap := ∅; _in_fade := true; _fade_remaining := 2; draws := 0;
         clock := 0; trace := [] |} = (Ok r, w') /\
    r = None /\ draws w' = 0%nat.
Proof.
  destruct (propagate_cost source_constants half 1%positive 45 "downlink"
              {| heap := ∅; _in_fade := true; _fade_remaining := 2; draws := 0;
                 clock := 0; trace := [] |}) as (r & w' & Hrun & _ & _ & _ & Hfade).
  exists r, w'. split; [exact Hrun |]. apply Hfade. reflexivity.
Defined.

Lemma tm_producer_silent_below_mask_witness :
  exists st w',
    get_state (DEFAULT_ORBIT (fixed_elevation 10)) (clock (boot 0)) = Ok st /\
    telemetry_sender_step source_constants half (fixed_elevation 10) 7 (boot 0) = (Ok 7%Z, w') /\
    trace w' = trace (boot 0) ++
      [EPrintF "[SAT] TM gen (NOT visible) elev={:.1f}deg doppler={:.0f}Hz"
               [VFloat (elev_deg st); VFloat (doppler_hz st)]] /\
    sent (trace w') = sent (trace (boot 0)) /\
    clock w' = clock (boot 0) + TIME_STEP_S /\
    heap w' = heap (boot 0) /\ draws w' = draws (boot 0).
Proof.
  apply (tm_producer_silent_below_mask source_constants half (fixed_elevation 10) 7 (boot 0)).
  rewrite fixed_elevation_now. lra.
Defined.

Lemma tm_burst_wire_order_witness :
  let st := {| ts := 0; elev_deg := 45; doppler_hz := 0; visible := true;
               rate_dl_mbps := 1 / 10; rate_ul_mbps := 1 / 100 |} in
  let run := channel_run source_constants half 45 "downlink" 3 (channel_of (boot 0)) in
  exists w',
    tm_burst source_constants half 3 st 4294967295 (boot 0)
      = (Ok ((4294967295 + Z.of_nat 3) mod 2 ^ 32)%Z, w') /\
    trace w' = trace (boot 0) ++ map (tm_datagram st 4294967295) (survivors (fst run)) /\
    channel_of w' = snd run /\
    length (fst run) = 3%nat /\
    (survivors (fst run)).*1.*1 `sublist_of` List.seq 0%nat 3 /\
    (forall (i : nat) (bit_error dup : bool),
       (i, bit_error, dup) ∈ survivors (fst run) <->
       fst run !! i = Some (Delivered bit_error dup)).
Proof.
  intros st.
  apply (tm_burst_wire_order source_constants half 3 st 4294967295 (boot 0)). lia.
Defined.

Lemma executor_waits_witness :
  telecommand_executor_step source_constants half (fixed_elevation 10) ["PING"] (boot 0)
    = (Ok ["PING"], set_clock (clock (boot 0) + 5 / 10) (boot 0)) /\
  telecommand_executor_step source_constants half (fixed_elevation 45) [] (boot 0)
    = (Ok [], set_clock (clock (boot 0) + 2 / 10) (boot 0)).
Proof.
  split.
  - apply (executor_waits source_constants half (fixed_elevation 10) ["PING"] (boot 0)).
    rewrite fixed_elevation_now. lra.
  - apply (executor_waits source_constants half (fixed_elevation 45) ["PING"] (boot 0)).
    rewrite fixed_elevation_now. lra.
Defined.

Lemma hist_beacon_repeats_witness :
  let g := {| bbu_leo.telemetry_live := []; bbu_leo.telemetry_history := ["a"; "b"];
              bbu_leo.telecommand_queue := [] |} in
  exists w',
    bbu_leo.tm_side_run (fixed_elevation 5) (replicate 3 (bbu_leo.Pace true)) g (boot 0)
    = (Ok (replicate 3 (bbu_leo.Sent ("HIST|" +:+ "b")), g), w').
Proof.
  intros g.
  apply (hist_beacon_repeats (fixed_elevation 5) g "b" 3).
  - apply never_visible_fixed. lra.
  - reflexivity.
Defined.

Lemma live_frame_is_popped_witness :
  let g := {| bbu_leo.telemetry_live := ["a"; "b"]; bbu_leo.telemetry_history := ["a"; "b"];
              bbu_leo.telecommand_queue := [] |} in
  exists g' w',
    bbu_leo.tm_server_pacing_step (fixed_elevation 45) false g (boot 0)
    = (Ok (bbu_leo.Closed ("LIVE|" +:+ "a"), g'), w') /\
    bbu_leo.telemetry_live g' = ["b"] /\
    bbu_leo.telemetry_history g' = bbu_leo.telemetry_history g.
Proof.
  intros g.
  apply (live_frame_is_popped (fixed_elevation 45) false g (boot 0) "a" ["b"]).
  - rewrite fixed_elevation_now. lra.
  - reflexivity.
Defined.

Lemma tm_side_interleaving_witness :
  exists os g' w' (frames : list string),
    bbu_leo.tm_side_run (fixed_elevation 45)
      [bbu_leo.Arrival 1 "a"; bbu_leo.Pace true; bbu_leo.Arrival 1 "b"] bbu_leo.initial (boot 0)
    = (Ok (os, g'), w') /\
    within_caps g' /\
    bbu_leo.telemetry_history g' =
      last_n 5000 (bbu_leo.telemetry_history bbu_leo.initial ++
                   arrivals [bbu_leo.Arrival 1 "a"; bbu_leo.Pace true; bbu_leo.Arrival 1 "b"]) /\
    tagged "LIVE|" os = map (String.append "LIVE|") frames /\
    frames `sublist_of`
      bbu_leo.telemetry_live bbu_leo.initial ++
      arrivals [bbu_leo.Arrival 1 "a"; bbu_leo.Pace true; bbu_leo.Arrival 1 "b"].
Proof.
  apply (tm_side_interleaving (fixed_elevation 45)
           [bbu_leo.Arrival 1 "a"; bbu_leo.Pace true; bbu_leo.Arrival 1 "b"]
           bbu_leo.initial (boot 0)).
  split; cbn; lia.
Defined.

Lemma uplink_holds_during_outage_witness :
  let g := with_queue bbu_leo.initial ["PING"] in
  exists g' w',
    bbu_leo.uplink_run source_constants half (fixed_elevation 5)
      [bbu_leo.SenderStep; bbu_leo.FromWeb "RESET"; bbu_leo.SenderStep] g (boot 0)
    = (Ok g', w') /\
    sent (trace w') = sent (trace (boot 0)) /\
    bbu_leo.telecommand_queue g' =
      bbu_leo.telecommand_queue g ++
      bbu_leo.from_web [bbu_leo.SenderStep; bbu_leo.FromWeb "RESET"; bbu_leo.SenderStep].
Proof.
  intros g.
  apply (uplink_holds_during_outage source_constants half (fixed_elevation 5)
           [bbu_leo.SenderStep; bbu_leo.FromWeb "RESET"; bbu_leo.SenderStep]).
  apply never_visible_fixed. lra.
Defined.

Lemma uplink_drains_in_order_witness :
  let g := with_queue bbu_leo.initial ["PING"; "RESET"; "STATUS"] in
  exists g' w',
    bbu_leo.uplink_run quiet_constants half (fixed_elevation 45)
      (replicate 2 bbu_leo.SenderStep) g (boot 0) = (Ok g', w') /\
    sent (trace w') = sent (trace (boot 0)) ++
                      map DText (take 2 (bbu_leo.telecommand_queue g)) /\
    bbu_leo.telecommand_queue g' = drop 2 (bbu_leo.telecommand_queue g).
Proof.
  intros g.
  apply (uplink_drains_in_order quiet_constants half (fixed_elevation 45) 2).
  - apply quiet_half.
  - apply always_visible_fixed. lra.
  - reflexivity.
Defined.

Lemma executor_executes_in_order_witness :
  exists w',
    telecommand_executor_run quiet_constants half (fixed_elevation 45) 2
      ["PING"; "RESET"; "STATUS"] (boot 0) = (Ok (drop 2 ["PING"; "RESET"; "STATUS"]), w') /\
    trace w' = trace (boot 0) ++
               map (fun cmd => fate_line cmd Executed) (take 2 ["PING"; "RESET"; "STATUS"]).
Proof.
  apply (executor_executes_in_order quiet_constants half (fixed_elevation 45) 2).
  - apply quiet_half.
  - apply always_visible_fixed. lra.
  - reflexivity.
Defined.

Lemma tm_stream_framing_witness :
  web_leo.parse ("LIVE" +:+ "|" +:+ "{a|b}") = ("LIVE", "{a|b}") /\
  web_leo.parse "noise" = ("UNK", "noise").
Proof.
  destruct (tm_stream_framing None true bbu_leo.initial (boot 0) "LIVE" "{a|b}" "noise")
    as (Htag & Hunk & _).
  split; [apply Htag | apply Hunk]; reflexivity.
Defined.

Lemma visibility_is_strict_witness :
  is_visible (DEFAULT_ORBIT (fixed_elevation 10)) 0 = Ok false /\
  elevation_deg (DEFAULT_ORBIT (fixed_elevation 10)) 0 = Ok 10.
Proof.
  assert (Hst : get_state (DEFAULT_ORBIT (fixed_elevation 10)) 0 =
                Ok {| ts := 0; elev_deg := 10; doppler_hz := 0;
                      visible := if Rgt_dec 10 DEFAULT_ELEV_MASK_DEG then true else false;
                      rate_dl_mbps := 0; rate_ul_mbps := 0 |}).
  { unfold get_state, backend_state. cbn [DEFAULT_ORBIT _state_skyfield fixed_elevation cfg
      default_config elev_mask_deg dl_max_rate_mbps ul_max_rate_mbps rate_alpha].
    rewrite !data_rate_mbps_below by (unfold DEFAULT_ELEV_MASK_DEG; lra). reflexivity. }
  assert (He : elevation_deg (DEFAULT_ORBIT (fixed_elevation 10)) 0 = Ok 10)
    by (unfold elevation_deg; rewrite Hst; reflexivity).
  assert (Hv : is_visible (DEFAULT_ORBIT (fixed_elevation 10)) 0
               = Ok (if Rgt_dec 10 DEFAULT_ELEV_MASK_DEG then true else false))
    by (unfold is_visible; rewrite Hst; reflexivity).
  split; [| exact He]. rewrite Hv. f_equal.
  apply (proj1 (visibility_is_strict (DEFAULT_ORBIT (fixed_elevation 10)) 0) _ 10 Hv He).
  reflexivity.
Defined.

Lemma web_buffer_is_capped_witness :
  web_leo.receive "" [("LIVE", "x")] = [("LIVE", "x")] /\
  (length (web_leo.receive "HIST|y" [("LIVE", "x")]) <= 200)%nat.
Proof.
  destruct (web_buffer_is_capped "" [("LIVE", "x")]) as [Hempty _].
  destruct (web_buffer_is_capped "HIST|y" [("LIVE", "x")]) as [_ Hfull].
  split; [apply Hempty; reflexivity | apply Hfull; discriminate].
Defined.

End instances.
